(** * bitbucket-mcp: the tool handlers of [dist/index.js], embedded and verified

    The MCP server of this repository translates each tool call into one or
    a few requests against the Bitbucket REST API (through an axios instance,
    [this.api]) and re-serialises the answer.  This development embeds the
    handlers the specification talks about:

    - [getPendingReviewPRs]   (the batched fan-out over repositories),
    - [getPullRequestDiff]    (two-step diff retrieval),
    - [getRepository]         (a plain passthrough),
    - [createPullRequest], [createDraftPullRequest],
    - [addPullRequestComment], [addPendingPullRequestComment],
    - [publishPendingComments],
    - the [CallToolRequestSchema] dispatcher for these tools,

    and, for the further properties, [listRepositories], [updatePullRequest],
    [declinePullRequest], [mergePullRequest], [listPipelineRuns],
    [runPipeline] and the constructor up to [axios.create].

    Modelling conventions.

    - A handler is a computation in the monad [M]: it threads the state of
      the remote service together with the list of requests issued so far,
      and either returns a value or throws a JavaScript exception.  A thrown
      exception does not undo the requests already sent.
    - [await this.api.get/post/put] is [api_request]: the request is appended
      to the trace, the remote answers, a rejected promise becomes a thrown
      [AxiosError].
    - JavaScript objects that the code reads as structs are records; a field
      the code tests for absence ([?.], [!x], [=== undefined]) is an
      [option].  Object literals the code sends (request bodies, query
      parameters) are values of [jsval].
    - JavaScript numbers are integers ([Z]): limits, identifiers, and the
      instants that [Date.getTime] yields; where [getTime] can yield [NaN]
      the value is an [option Z].
    - [logger.*] calls only append to a log file and are left out.
    - [JSON.stringify (v, null, 2)] is kept symbolic: a tool result records
      the value that is serialised. *)

From Stdlib Require Import String List ZArith Lia Bool Sorted Permutation.
From Stdlib Require Import DecimalString.
Import ListNotations.

Local Open Scope string_scope.
Local Open Scope Z_scope.

(** ** JavaScript values and array primitives *)

Module JS.

(** Values that appear in object literals built by the handlers. *)
#[local] Unset Elimination Schemes.
Inductive jsval : Type :=
| JUndefined
| JNull
| JBool (b : bool)
| JNum (n : Z)
| JStr (s : string)
| JArr (items : list jsval)
| JObj (fields : list (string * jsval)).
#[local] Set Elimination Schemes.

(** [o.key] on an object literal; a later duplicate key wins in a literal,
    the handlers never write one twice. *)
Fixpoint assoc (key : string) (fields : list (string * jsval)) : option jsval :=
  match fields with
  | [] => None
  | (k, v) :: rest => if String.eqb k key then Some v else assoc key rest
  end.

Definition get_field (key : string) (v : jsval) : option jsval :=
  match v with
  | JObj fields => assoc key fields
  | _ => None
  end.

(** A template literal hole [${x}] for an argument that may be missing. *)
Definition tpl (x : option string) : string :=
  match x with
  | Some s => s
  | None => "undefined"
  end.

(** [${n}] for an integral number: its decimal digits.  This is what the
    language prints for a safe integer, and for the length of an array.
    Beyond the safe integers a number is printed with the fewest digits that
    identify it, and from [1e21] on with an exponent; the properties that
    depend on the digits of a number received from the remote assume
    [safe_integer]. *)
Definition tpl_num (n : Z) : string :=
  NilZero.string_of_int (Z.to_int n).

(** [Number.isSafeInteger(n)] for an integral [n]: at most [2 ** 53 - 1] in
    absolute value. *)
Definition safe_integer (n : Z) : Prop :=
  - 9007199254740991 <= n <= 9007199254740991.

Definition of_opt_string (x : option string) : jsval :=
  match x with
  | Some s => JStr s
  | None => JUndefined
  end.

(** Truthiness of a value that is a string or undefined. *)
Definition truthy_string (x : option string) : bool :=
  match x with
  | Some s => negb (String.eqb s "")
  | None => false
  end.

(** [a || b] on strings-or-undefined. *)
Definition or_string (a b : option string) : option string :=
  if truthy_string a then a else b.

(** The relative index of [Array.prototype.slice]: a negative index counts
    from the end, everything is clamped to [0, len]. *)
Definition rel_index (len k : Z) : Z :=
  if k <? 0 then Z.max (len + k) 0 else Z.min k len.

(** [l.slice(from, to)]. *)
Definition slice {A} (from to : Z) (l : list A) : list A :=
  let len := Z.of_nat (length l) in
  let k := rel_index len from in
  let final := rel_index len to in
  firstn (Z.to_nat (final - k)) (skipn (Z.to_nat k) l).

(** [Array.prototype.sort (cmp)]: [cmp a b > 0] puts [a] after [b].  The
    sort is stable (ECMAScript 2019), which for a consistent comparator
    fixes the result; it is written here as insertion from the right.  For
    a comparator that is not consistent the language leaves the order to the
    implementation. *)
Fixpoint insert {A} (cmp : A -> A -> Z) (x : A) (l : list A) : list A :=
  match l with
  | [] => [x]
  | y :: rest => if cmp x y <=? 0 then x :: y :: rest else y :: insert cmp x rest
  end.

Definition sort {A} (cmp : A -> A -> Z) (l : list A) : list A :=
  fold_right (insert cmp) [] l.

End JS.
Import JS.

(** ** Errors *)

(** The members of the SDK's [ErrorCode] that the handlers use. *)
Inductive ErrorCode : Type :=
| InvalidParams
| InternalError
| MethodNotFound.

(** What a handler can throw.  [McpError code message] carries the message
    given to the constructor; [AxiosError message response_message] is a
    rejected request, with [error.response?.data.message] when the remote
    sent one; [TypeError] is a property read on [undefined]. *)
Inductive exn : Type :=
| McpError (code : ErrorCode) (message : string)
| AxiosError (message : string) (response_message : option string)
| TypeError (message : string).

(** The part of the MCP SDK the handlers depend on: the [message] property
    that the [McpError] constructor derives from its code and message. *)
Class Sdk : Type := {
  McpError_message : ErrorCode -> string -> string
}.

(** [error instanceof Error ? error.message : String(error)]: everything
    thrown here is an [Error]. *)
Definition error_message `{Sdk} (e : exn) : string :=
  match e with
  | McpError code message => McpError_message code message
  | AxiosError message _ => message
  | TypeError message => message
  end.

(** V8's message for a property read on [undefined]. *)
Definition cannot_read (prop : string) : string :=
  "Cannot read properties of undefined (reading '" ++ prop ++ "')".

(** ** Data read from Bitbucket *)

Record User : Type := {
  nickname : option string
}.

Record Participant : Type := {
  user : option User;
  role : option string;
  approved : option bool
}.

(** A pull request of a listing.  [updated_on] is what
    [new Date(pr.updated_on).getTime()] yields: the instant in milliseconds,
    or [None] for [NaN], when the field is missing or is not a date. *)
Record PullRequest : Type := {
  id : Z;
  title : string;
  state : string;
  created_on : Z;
  updated_on : option Z;
  participants : option (list Participant)
}.

Record Repository : Type := {
  name : string
}.

Record Commit : Type := {
  hash : option string
}.

Record Endpoint : Type := {
  commit : option Commit
}.

(** The pull request resource as [getPullRequestDiff] reads it. *)
Record PullRequestResource : Type := {
  source : option Endpoint;
  destination : option Endpoint
}.

(** A comment as [publishPendingComments] reads it: [comment_id] is the
    number [comment.id]; [comment_pending] is [Some b] when [comment.pending]
    is the boolean [b], and [None] for anything else; [comment_inline] is
    [comment.inline] when that is truthy, and [None] otherwise. *)
Record Comment : Type := {
  comment_id : Z;
  comment_content : jsval;
  comment_pending : option bool;
  comment_inline : option jsval
}.

(** A paginated answer: [data.values] may be missing.  A page is a body
    that the handlers can read: an object whose [values] is an array of
    objects or is falsy, [None] here.  A body that cannot be read this way
    ([null], or [values] that is not an array) is not a page; the handlers
    do not check for it, and properties that assume [Resolved page] say
    nothing about it. *)
Record Page (A : Type) : Type := {
  values : option (list A)
}.
Arguments values {A} _.

(** ** Requests and the remote service *)

Inductive Method : Type := GET | POST | PUT.

(** One call on the axios instance: method, URL, and the parts of the
    config object and the body the handlers set. *)
Record Request : Type := {
  req_method : Method;
  req_url : string;
  req_params : list (string * jsval);
  req_headers : list (string * string);
  req_responseType : option string;
  req_maxRedirects : option Z;
  req_data : option jsval
}.

Definition get_request (url : string) : Request :=
  {| req_method := GET; req_url := url; req_params := []; req_headers := [];
     req_responseType := None; req_maxRedirects := None; req_data := None |}.

Definition get_request_with (url : string) (params : list (string * jsval)) : Request :=
  {| req_method := GET; req_url := url; req_params := params; req_headers := [];
     req_responseType := None; req_maxRedirects := None; req_data := None |}.

Definition post_request (url : string) (body : jsval) : Request :=
  {| req_method := POST; req_url := url; req_params := []; req_headers := [];
     req_responseType := None; req_maxRedirects := None; req_data := Some body |}.

Definition put_request (url : string) (body : jsval) : Request :=
  {| req_method := PUT; req_url := url; req_params := []; req_headers := [];
     req_responseType := None; req_maxRedirects := None; req_data := Some body |}.

Definition is_put (r : Request) : bool :=
  match req_method r with PUT => true | _ => false end.

(** The shape at which a call site reads [response.data]. *)
Inductive Shape : Type :=
| SRepositories
| SPullRequests
| SPullRequest
| SComments
| SText
| SJson.

Definition data_of (k : Shape) : Type :=
  match k with
  | SRepositories => Page Repository
  | SPullRequests => Page PullRequest
  | SPullRequest => PullRequestResource
  | SComments => Page Comment
  | SText => string
  | SJson => jsval
  end.

(** A settled request: resolved with [data], or rejected. *)
Inductive Reply (A : Type) : Type :=
| Resolved (data : A)
| Rejected (message : string) (response_message : option string).
Arguments Resolved {A} _.
Arguments Rejected {A} _ _.

(** The remote service behind [this.api]: any state, any answers. *)
Class Remote : Type := {
  Service : Type;
  respond : forall k : Shape, Service -> Request -> Reply (data_of k) * Service
}.

(** ** The handler monad *)

(** How a handler settles: a value, or a thrown exception. *)
Inductive Outcome (A : Type) : Type :=
| Return (a : A)
| Throw (e : exn).
Arguments Return {A} _.
Arguments Throw {A} _.

Section Monad.
Context `{Remote}.

Record World : Type := {
  service : Service;
  trace : list Request
}.

Definition M (A : Type) : Type := World -> Outcome A * World.

Definition ret {A} (a : A) : M A := fun w => (Return a, w).

Definition throw {A} (e : exn) : M A := fun w => (Throw e, w).

Definition bind {A B} (m : M A) (f : A -> M B) : M B :=
  fun w =>
    match m w with
    | (Return a, w') => f a w'
    | (Throw e, w') => (Throw e, w')
    end.

(** [try { m } catch (error) { handler error }] *)
Definition try_catch {A} (m : M A) (handler : exn -> M A) : M A :=
  fun w =>
    match m w with
    | (Return a, w') => (Return a, w')
    | (Throw e, w') => handler e w'
    end.

(** [await this.api.<method>(...)] read at shape [k]. *)
Definition api_request (k : Shape) (r : Request) : M (data_of k) :=
  fun w =>
    let (reply, s') := respond k (service w) r in
    let w' := {| service := s'; trace := trace w ++ [r] |} in
    match reply with
    | Resolved d => (Return d, w')
    | Rejected message response_message =>
        (Throw (AxiosError message response_message), w')
    end.

(** [await Promise.all(xs.map(f))] for callbacks that never reject, and a
    [for] loop that awaits [f] on each element.  The callbacks of a batch
    start their requests in array order; the remote is taken to settle them
    in that order. *)
Fixpoint map_all {A B} (f : A -> M B) (xs : list A) : M (list B) :=
  match xs with
  | [] => ret []
  | x :: rest =>
      bind (f x) (fun y => bind (map_all f rest) (fun ys => ret (y :: ys)))
  end.

End Monad.

Notation "x <- m ;; k" := (bind m (fun x => k))
  (at level 61, m at next level, right associativity).

(** ** Tool results *)

Record RepositoryInfo : Type := {
  repo_name : string;
  full_name : string
}.

(** [{ ...pr, repository: { name, full_name } }] *)
Record PendingPR : Type := {
  pr : PullRequest;
  repository : RepositoryInfo
}.

(** The object that [getPendingReviewPRs] serialises. *)
Record PendingReview : Type := {
  pending_review_prs : list PendingPR;
  total_found : nat;
  searched_repositories : nat;
  review_user : string;
  review_workspace : string
}.

Inductive PublishItem : Type :=
| Published (commentId : Z) (data : jsval)
| PublishFailed (commentId : Z) (error : string).

Record PublishReport : Type := {
  publish_message : string;
  publish_results : list PublishItem
}.

(** The [text] of a content item: a string used as it is, or the value
    handed to [JSON.stringify (_, null, 2)]. *)
Inductive ToolText : Type :=
| TextRaw (s : string)
| TextJson (v : jsval)
| TextPendingReview (r : PendingReview)
| TextPublishReport (r : PublishReport).

Record ContentItem : Type := {
  content_type : string;
  text : ToolText
}.

Record ToolResult : Type := {
  content : list ContentItem
}.

Definition text_result (t : ToolText) : ToolResult :=
  {| content := [ {| content_type := "text"; text := t |} ] |}.

(** ** Configuration and arguments *)

(** [this.config], read from the environment by the constructor. *)
Record Config : Type := {
  baseUrl : string;
  token : option string;
  username : option string;
  password : option string;
  defaultWorkspace : option string
}.

(** The constructor's check: a token, or a username with a password. *)
Definition valid_config (c : Config) : bool :=
  negb (String.eqb (baseUrl c) "")
  && (truthy_string (token c)
      || (truthy_string (username c) && truthy_string (password c))).

Record Inline : Type := {
  inline_path : option string;
  inline_from : option Z;
  inline_to : option Z
}.

(** [request.params.arguments] for the tools embedded here; a missing
    property is [None]. *)
Record Args : Type := {
  arg_workspace : option string;
  arg_repo_slug : option string;
  arg_pull_request_id : option string;
  arg_title : option string;
  arg_description : option string;
  arg_sourceBranch : option string;
  arg_targetBranch : option string;
  arg_reviewers : option (list string);
  arg_draft : option bool;
  arg_content : option string;
  arg_inline : option Inline;
  arg_pending : option bool;
  arg_limit : option Z;
  arg_repositoryList : option (list string)
}.

(** The cases of the dispatcher's [switch] for the tools embedded here. *)
Inductive Tool : Type :=
| GetRepository
| CreatePullRequest
| GetPullRequestDiff
| AddPullRequestComment
| AddPendingPullRequestComment
| PublishPendingComments
| CreateDraftPullRequest
| GetPendingReviewPRs.

(** ** The handlers *)

Section Handlers.
Context `{Sdk} `{Remote}.
Variable config : Config.

(** The [catch] block every handler ends with. *)
Definition rethrow_internal {A} (what : string) (error : exn) : M A :=
  throw (McpError InternalError (what ++ ": " ++ error_message error)).

(** *** getRepository *)

Definition repository_url (workspace repo_slug : option string) : string :=
  "/repositories/" ++ tpl workspace ++ "/" ++ tpl repo_slug.

Definition getRepository (workspace repo_slug : option string) : M ToolResult :=
  try_catch
    (response <- api_request SJson (get_request (repository_url workspace repo_slug)) ;;
     ret (text_result (TextJson response)))
    (rethrow_internal "Failed to get repository").

(** *** createPullRequest, createDraftPullRequest *)

Definition pullrequests_url (workspace repo_slug : option string) : string :=
  "/repositories/" ++ tpl workspace ++ "/" ++ tpl repo_slug ++ "/pullrequests".

(** [reviewers?.map((username) => ({ username })) || []] *)
Definition reviewersArray (reviewers : option (list string)) : list jsval :=
  match reviewers with
  | Some l => map (fun u => JObj [("username", JStr u)]) l
  | None => []
  end.

Definition pull_request_body (title description sourceBranch targetBranch : option string)
    (reviewers : option (list string)) (draft : option bool) : jsval :=
  JObj [ ("title", of_opt_string title);
         ("description", of_opt_string description);
         ("source", JObj [("branch", JObj [("name", of_opt_string sourceBranch)])]);
         ("destination", JObj [("branch", JObj [("name", of_opt_string targetBranch)])]);
         ("reviewers", JArr (reviewersArray reviewers));
         ("close_source_branch", JBool true);
         ("draft", JBool (match draft with Some true => true | _ => false end)) ].

Definition createPullRequest (workspace repo_slug title description sourceBranch
    targetBranch : option string) (reviewers : option (list string))
    (draft : option bool) : M ToolResult :=
  try_catch
    (response <- api_request SJson
       (post_request (pullrequests_url workspace repo_slug)
          (pull_request_body title description sourceBranch targetBranch reviewers draft)) ;;
     ret (text_result (TextJson response)))
    (rethrow_internal "Failed to create pull request").

Definition createDraftPullRequest (workspace repo_slug title description sourceBranch
    targetBranch : option string) (reviewers : option (list string)) : M ToolResult :=
  try_catch
    (createPullRequest workspace repo_slug title description sourceBranch targetBranch
       reviewers (Some true))
    (rethrow_internal "Failed to create draft pull request").

(** *** getPullRequestDiff *)

Definition pullrequest_url (workspace repo_slug pull_request_id : option string) : string :=
  pullrequests_url workspace repo_slug ++ "/" ++ tpl pull_request_id.

(** [data.<side>.commit.hash]: reading through a missing [source],
    [destination] or [commit] throws; a missing [hash] is [undefined]. *)
Definition commit_hash (side : option Endpoint) : M (option string) :=
  match side with
  | None => throw (TypeError (cannot_read "commit"))
  | Some e =>
      match commit e with
      | None => throw (TypeError (cannot_read "hash"))
      | Some c => ret (hash c)
      end
  end.

Definition diff_url (workspace repo_slug : option string)
    (sourceCommit destinationCommit pull_request_id : option string) : string :=
  "/repositories/" ++ tpl workspace ++ "/" ++ tpl repo_slug ++ "/diff/"
    ++ tpl workspace ++ "/" ++ tpl repo_slug ++ ":" ++ tpl sourceCommit ++ "%0D"
    ++ tpl destinationCommit ++ "?from_pullrequest_id=" ++ tpl pull_request_id
    ++ "&topic=true".

Definition diff_request (diffUrl : string) : Request :=
  {| req_method := GET; req_url := diffUrl; req_params := [];
     req_headers := [("Accept", "text/plain")];
     req_responseType := Some "text";
     req_maxRedirects := Some 5;
     req_data := None |}.

Definition getPullRequestDiff (workspace repo_slug pull_request_id : option string)
    : M ToolResult :=
  try_catch
    (prResponse <- api_request SPullRequest
       (get_request (pullrequest_url workspace repo_slug pull_request_id)) ;;
     sourceCommit <- commit_hash (source prResponse) ;;
     destinationCommit <- commit_hash (destination prResponse) ;;
     let diffUrl :=
       diff_url workspace repo_slug sourceCommit destinationCommit pull_request_id in
     response <- api_request SText (diff_request diffUrl) ;;
     ret (text_result (TextRaw response)))
    (rethrow_internal "Failed to get pull request diff").

(** *** addPullRequestComment, addPendingPullRequestComment *)

Definition comments_url (workspace repo_slug pull_request_id : option string) : string :=
  pullrequest_url workspace repo_slug pull_request_id ++ "/comments".

Definition opt_num_field (key : string) (x : option Z) : list (string * jsval) :=
  match x with
  | Some n => [(key, JNum n)]
  | None => []
  end.

(** [commentData], after the conditional assignments. *)
Definition commentData (content : option string) (inline : option Inline)
    (pending : option bool) : jsval :=
  JObj ([("content", JObj [("raw", of_opt_string content)])]
        ++ match pending with
           | Some b => [("pending", JBool b)]
           | None => []
           end
        ++ match inline with
           | Some i =>
               [("inline",
                 JObj ([("path", of_opt_string (inline_path i))]
                       ++ opt_num_field "from" (inline_from i)
                       ++ opt_num_field "to" (inline_to i)))]
           | None => []
           end).

Definition addPullRequestComment (workspace repo_slug pull_request_id content : option string)
    (inline : option Inline) (pending : option bool) : M ToolResult :=
  try_catch
    (response <- api_request SJson
       (post_request (comments_url workspace repo_slug pull_request_id)
          (commentData content inline pending)) ;;
     ret (text_result (TextJson response)))
    (rethrow_internal "Failed to add pull request comment").

Definition addPendingPullRequestComment
    (workspace repo_slug pull_request_id content : option string)
    (inline : option Inline) : M ToolResult :=
  try_catch
    (addPullRequestComment workspace repo_slug pull_request_id content inline (Some true))
    (rethrow_internal "Failed to add pending pull request comment").

(** *** publishPendingComments *)

(** [comment.pending === true] *)
Definition is_pending (c : Comment) : bool :=
  match comment_pending c with
  | Some true => true
  | _ => false
  end.

Definition comment_url (workspace repo_slug pull_request_id : option string)
    (c : Comment) : string :=
  comments_url workspace repo_slug pull_request_id ++ "/" ++ tpl_num (comment_id c).

(** [{ content, pending: false, ...(comment.inline && { inline }) }] *)
Definition publish_body (c : Comment) : jsval :=
  JObj ([("content", comment_content c); ("pending", JBool false)]
        ++ match comment_inline c with
           | Some i => [("inline", i)]
           | None => []
           end).

(** One turn of the publishing loop, with its own [try]/[catch]. *)
Definition publish_one (workspace repo_slug pull_request_id : option string)
    (c : Comment) : M PublishItem :=
  try_catch
    (updateResponse <- api_request SJson
       (put_request (comment_url workspace repo_slug pull_request_id c) (publish_body c)) ;;
     ret (Published (comment_id c) updateResponse))
    (fun error => ret (PublishFailed (comment_id c) (error_message error))).

Definition publishPendingComments (workspace repo_slug pull_request_id : option string)
    : M ToolResult :=
  try_catch
    (commentsResponse <- api_request SComments
       (get_request (comments_url workspace repo_slug pull_request_id)) ;;
     let comments :=
       match values commentsResponse with Some l => l | None => [] end in
     let pendingComments := filter is_pending comments in
     match pendingComments with
     | [] => ret (text_result (TextRaw "No pending comments found to publish."))
     | _ :: _ =>
         publishResults <-
           map_all (publish_one workspace repo_slug pull_request_id) pendingComments ;;
         ret (text_result (TextPublishReport
                {| publish_message :=
                     "Published " ++ tpl_num (Z.of_nat (length pendingComments))
                       ++ " pending comments";
                   publish_results := publishResults |}))
     end)
    (rethrow_internal "Failed to publish pending comments").

(** *** getPendingReviewPRs *)

Definition values_fields : string :=
  "values.id,values.title,values.description,values.state,values.created_on,values.updated_on,values.author,values.source,values.destination,values.participants.user.nickname,values.participants.role,values.participants.approved,values.links".

Definition workspace_url (wsName : string) : string :=
  "/repositories/" ++ wsName.

(** The listing of the workspace's repositories. *)
Definition workspace_listing_request (wsName : string) : Request :=
  get_request_with (workspace_url wsName) [("pagelen", JNum 100)].

(** The open pull requests of one repository. *)
Definition open_pullrequests_request (wsName : string) (limit : Z) (repoSlug : string)
    : Request :=
  get_request_with
    ("/repositories/" ++ wsName ++ "/" ++ repoSlug ++ "/pullrequests")
    [ ("state", JStr "OPEN");
      ("pagelen", JNum (Z.min limit 50));
      ("fields", JStr values_fields) ].

(** The callback of [participants.find]. *)
Definition is_pending_reviewer (currentUserNickname : string) (p : Participant) : bool :=
  match user p with
  | Some u =>
      match nickname u with
      | Some n => String.eqb n currentUserNickname
      | None => false
      end
  | None => false
  end
  && match role p with
     | Some r => String.eqb r "REVIEWER"
     | None => false
     end
  && match approved p with
     | Some false => true
     | _ => false
     end.

(** The callback of [values.filter]: a pull request without a
    participants array is dropped, otherwise [!!userParticipant]. *)
Definition awaits_review (currentUserNickname : string) (p : PullRequest) : bool :=
  match participants p with
  | None => false
  | Some ps =>
      match find (is_pending_reviewer currentUserNickname) ps with
      | Some _ => true
      | None => false
      end
  end.

Definition with_repository (wsName repoSlug : string) (p : PullRequest) : PendingPR :=
  {| pr := p;
     repository := {| repo_name := repoSlug;
                      full_name := wsName ++ "/" ++ repoSlug |} |}.

(** What a settled per-repository request contributes. *)
Definition repository_pending (wsName currentUserNickname repoSlug : string)
    (prsResponse : Page PullRequest) : list PendingPR :=
  match values prsResponse with
  | None => []
  | Some vs =>
      map (with_repository wsName repoSlug) (filter (awaits_review currentUserNickname) vs)
  end.

(** The async callback of [batch.map]: it never rejects. *)
Definition check_repository (wsName currentUserNickname : string) (limit : Z)
    (repoSlug : string) : M (list PendingPR) :=
  try_catch
    (prsResponse <- api_request SPullRequests
       (open_pullrequests_request wsName limit repoSlug) ;;
     ret (repository_pending wsName currentUserNickname repoSlug prsResponse))
    (fun _ => ret []).

Definition reached (limit : Z) (pendingPRs : list PendingPR) : bool :=
  Z.of_nat (length pendingPRs) >=? limit.

(** [for (const repoPRs of batchResults) { push; if (length >= limit) break }] *)
Fixpoint push_results (limit : Z) (batchResults : list (list PendingPR))
    (pendingPRs : list PendingPR) : list PendingPR :=
  match batchResults with
  | [] => pendingPRs
  | repoPRs :: rest =>
      let pendingPRs' := (pendingPRs ++ repoPRs)%list in
      if reached limit pendingPRs' then pendingPRs'
      else push_results limit rest pendingPRs'
  end.

Definition batchSize : Z := 5.

(** The loop over batches, from index [i]; [fuel] bounds the number of
    turns ([scan_batches_fuel] shows that the length of the list is enough). *)
Fixpoint scan_batches (wsName currentUserNickname : string) (limit : Z)
    (repositoriesToCheck : list string) (fuel : nat) (i : Z)
    (pendingPRs : list PendingPR) : M (list PendingPR) :=
  match fuel with
  | O => ret pendingPRs
  | S fuel' =>
      if i <? Z.of_nat (length repositoriesToCheck) then
        let batch := slice i (i + batchSize) repositoriesToCheck in
        batchResults <- map_all (check_repository wsName currentUserNickname limit) batch ;;
        let pendingPRs' := push_results limit batchResults pendingPRs in
        if reached limit pendingPRs' then ret pendingPRs'
        else scan_batches wsName currentUserNickname limit repositoriesToCheck
               fuel' (i + batchSize) pendingPRs'
      else ret pendingPRs
  end.

(** The comparator of the final sort,
    [new Date(b.updated_on).getTime() - new Date(a.updated_on).getTime()].
    The difference is [NaN] when either instant is, and the sort reads a
    comparator result of [NaN] as [+0]. *)
Definition by_updated_desc (a b : PendingPR) : Z :=
  match updated_on (pr b), updated_on (pr a) with
  | Some tb, Some ta => tb - ta
  | _, _ => 0
  end.

Definition finalResults (limit : Z) (pendingPRs : list PendingPR) : list PendingPR :=
  sort by_updated_desc (slice 0 limit pendingPRs).

(** Step one: the repositories to look at. *)
Definition resolve_repositories (wsName : string) (repositoryList : option (list string))
    : M (list string) :=
  match repositoryList with
  | Some (r :: rest) => ret (r :: rest)
  | _ =>
      reposResponse <- api_request SRepositories (workspace_listing_request wsName) ;;
      match values reposResponse with
      | None => throw (McpError InternalError "Failed to fetch repositories")
      | Some vs => ret (map name vs)
      end
  end.

(** The default parameter [limit = 50]. *)
Definition limit_or_default (limit_arg : option Z) : Z :=
  match limit_arg with
  | Some n => n
  | None => 50
  end.

Definition getPendingReviewPRs (workspace : option string) (limit_arg : option Z)
    (repositoryList : option (list string)) : M ToolResult :=
  let limit := limit_or_default limit_arg in
  try_catch
    (let wsName := or_string workspace (defaultWorkspace config) in
     if negb (truthy_string wsName) then
       throw (McpError InvalidParams
         "Workspace must be provided either as a parameter or through BITBUCKET_WORKSPACE environment variable")
     else
     let currentUserNickname := username config in
     if negb (truthy_string currentUserNickname) then
       throw (McpError InvalidParams
         "Username must be provided through BITBUCKET_USERNAME environment variable")
     else
     repositoriesToCheck <- resolve_repositories (tpl wsName) repositoryList ;;
     pendingPRs <- scan_batches (tpl wsName) (tpl currentUserNickname) limit
                     repositoriesToCheck (length repositoriesToCheck) 0 [] ;;
     let final := finalResults limit pendingPRs in
     ret (text_result (TextPendingReview
            {| pending_review_prs := final;
               total_found := length final;
               searched_repositories := length repositoriesToCheck;
               review_user := tpl currentUserNickname;
               review_workspace := tpl wsName |})))
    (rethrow_internal "Failed to get pending review PRs").

(** *** The call-tool dispatcher *)

Definition dispatch (tool : Tool) (args : Args) : M ToolResult :=
  match tool with
  | GetRepository =>
      getRepository (arg_workspace args) (arg_repo_slug args)
  | CreatePullRequest =>
      createPullRequest (arg_workspace args) (arg_repo_slug args) (arg_title args)
        (arg_description args) (arg_sourceBranch args) (arg_targetBranch args)
        (arg_reviewers args) (arg_draft args)
  | GetPullRequestDiff =>
      getPullRequestDiff (arg_workspace args) (arg_repo_slug args)
        (arg_pull_request_id args)
  | AddPullRequestComment =>
      addPullRequestComment (arg_workspace args) (arg_repo_slug args)
        (arg_pull_request_id args) (arg_content args) (arg_inline args) (arg_pending args)
  | AddPendingPullRequestComment =>
      addPendingPullRequestComment (arg_workspace args) (arg_repo_slug args)
        (arg_pull_request_id args) (arg_content args) (arg_inline args)
  | PublishPendingComments =>
      publishPendingComments (arg_workspace args) (arg_repo_slug args)
        (arg_pull_request_id args)
  | CreateDraftPullRequest =>
      createDraftPullRequest (arg_workspace args) (arg_repo_slug args) (arg_title args)
        (arg_description args) (arg_sourceBranch args) (arg_targetBranch args)
        (arg_reviewers args)
  | GetPendingReviewPRs =>
      getPendingReviewPRs (arg_workspace args) (arg_limit args) (arg_repositoryList args)
  end.

(** The handler registered for [CallToolRequestSchema]: an axios error
    that escapes is rewrapped, anything else is thrown on. *)
Definition callTool (tool : Tool) (args : Args) : M ToolResult :=
  try_catch (dispatch tool args)
    (fun error =>
       match error with
       | AxiosError message response_message =>
           throw (McpError InternalError
                    ("Bitbucket API error: "
                     ++ match response_message with Some m => m | None => message end))
       | _ => throw error
       end).

End Handlers.

(** ** Sample environments *)

Module Samples.

(** The message format of the SDK's [McpError] constructor. *)
Definition code_number (c : ErrorCode) : string :=
  match c with
  | InvalidParams => "-32602"
  | InternalError => "-32603"
  | MethodNotFound => "-32601"
  end.

Definition sdk : Sdk :=
  {| McpError_message c m := "MCP error " ++ code_number c ++ ": " ++ m |}.

(** A remote without state, given by its answers. *)
Definition stateless (answer : forall k : Shape, Request -> Reply (data_of k)) : Remote :=
  {| Service := unit; respond := fun k s r => (answer k r, s) |}.

Definition start (R : Remote) (s : @Service R) : @World R :=
  {| service := s; trace := [] |}.

Definition alice_config : Config :=
  {| baseUrl := "https://api.bitbucket.org/2.0";
     token := None;
     username := Some "alice";
     password := Some "app-password";
     defaultWorkspace := Some "acme" |}.

(** Token authentication, no user name. *)
Definition token_config : Config :=
  {| baseUrl := "https://api.bitbucket.org/2.0";
     token := Some "secret";
     username := None;
     password := None;
     defaultWorkspace := Some "acme" |}.

Definition reviewer (n : string) (ok : bool) : Participant :=
  {| user := Some {| nickname := Some n |};
     role := Some "REVIEWER";
     approved := Some ok |}.

Definition pull_request (n t : Z) (ps : list Participant) : PullRequest :=
  {| id := n; title := "change"; state := "OPEN"; created_on := 0;
     updated_on := Some t; participants := Some ps |}.

Definition unavailable {A} : Reply A := Rejected "Request failed with status code 500" None.

(** Every repository has the same two pull requests that wait for alice,
    one that she approved and one without a participants array; the
    workspace has the repositories [api] and [web]. *)
Definition busy_answer (k : Shape) (r : Request) : Reply (data_of k) :=
  match k return Reply (data_of k) with
  | SPullRequests =>
      Resolved {| values := Some [ pull_request 1 100 [reviewer "alice" false];
                                   pull_request 2 300 [reviewer "bob" false;
                                                       reviewer "alice" false];
                                   pull_request 3 200 [reviewer "alice" true];
                                   {| id := 4; title := "bare"; state := "OPEN";
                                      created_on := 0; updated_on := Some 400;
                                      participants := None |} ] |}
  | SRepositories =>
      Resolved {| values := Some [ {| name := "api" |}; {| name := "web" |} ] |}
  | _ => unavailable
  end.

Definition busy : Remote := stateless busy_answer.



(** As [busy], but the pull requests of [api] cannot be fetched. *)
Definition flaky_answer (k : Shape) (r : Request) : Reply (data_of k) :=
  if String.eqb (req_url r) "/repositories/acme/api/pullrequests" then unavailable
  else busy_answer k r.

Definition flaky : Remote := stateless flaky_answer.

(** Nothing can be fetched. *)
Definition down : Remote := stateless (fun _ _ => unavailable).

(** Every request is answered; a pull request resource carries the commit
    hashes [abc123] and [def456]. *)
Definition healthy_answer (k : Shape) (r : Request) : Reply (data_of k) :=
  match k return Reply (data_of k) with
  | SPullRequest =>
      Resolved {| source := Some {| commit := Some {| hash := Some "abc123" |} |};
                  destination := Some {| commit := Some {| hash := Some "def456" |} |} |}
  | SText => Resolved "diff --git a/f b/f"
  | SJson => Resolved (JObj [("ok", JBool true)])
  | SComments => Resolved {| values := Some [] |}
  | SPullRequests => busy_answer SPullRequests r
  | SRepositories => busy_answer SRepositories r
  end.

Definition healthy : Remote := stateless healthy_answer.

(** The comments of pull request 7 of [acme/api]: the listing reads them,
    a [PUT] on a comment's URL takes its new body. *)
Definition store_url : string := "/repositories/acme/api/pullrequests/7/comments".

Definition update_comment (r : Request) (c : Comment) : Comment :=
  if String.eqb (req_url r) (store_url ++ "/" ++ tpl_num (comment_id c)) then
    {| comment_id := comment_id c;
       comment_content :=
         match req_data r with
         | Some body =>
             match get_field "content" body with
             | Some v => v
             | None => comment_content c
             end
         | None => comment_content c
         end;
       comment_pending := Some false;
       comment_inline := comment_inline c |}
  else c.

Definition comment_store : Remote :=
  {| Service := list Comment;
     respond := fun k s r =>
       match req_method r with
       | GET =>
           (match k return Reply (data_of k) with
            | SComments =>
                if String.eqb (req_url r) store_url
                then Resolved {| values := Some s |}
                else unavailable
            | _ => unavailable
            end, s)
       | PUT =>
           (match k return Reply (data_of k) with
            | SJson => Resolved (JObj [("pending", JBool false)])
            | _ => unavailable
            end, map (update_comment r) s)
       | POST => (unavailable, s)
       end |}.

(** Arguments that name the workspace and nothing else. *)
Definition workspace_only : Args :=
  {| arg_workspace := Some "acme"; arg_repo_slug := None;
     arg_pull_request_id := None; arg_title := None; arg_description := None;
     arg_sourceBranch := None; arg_targetBranch := None; arg_reviewers := None;
     arg_draft := None; arg_content := None; arg_inline := None;
     arg_pending := None; arg_limit := None; arg_repositoryList := None |}.

Definition comment (n : Z) (p : option bool) : Comment :=
  {| comment_id := n; comment_content := JObj [("raw", JStr "looks good")];
     comment_pending := p; comment_inline := None |}.

End Samples.

(** ** Vocabulary of the properties *)


(** What [is_pending_reviewer] decides. *)
Definition pending_reviewer (currentUserNickname : string) (p : Participant) : Prop :=
  (exists u, user p = Some u /\ nickname u = Some currentUserNickname)
  /\ role p = Some "REVIEWER"
  /\ approved p = Some false.

(** Every entry of a list passed the filter for the user [cur]. *)
Definition all_await (cur : string) (l : list PendingPR) : Prop :=
  Forall (fun e => awaits_review cur (pr e) = true) l.

(** What one repository contributes, from the reply to its request. *)
Definition contribution (wsName cur slug : string) (reply : Reply (Page PullRequest))
    : list PendingPR :=
  match reply with
  | Resolved page => repository_pending wsName cur slug page
  | Rejected _ _ => []
  end.


(** What the repositories [slugs] contribute when they are asked one after
    the other from the state [s] of the remote, and the state they leave:
    one list per repository, in order; the empty list for a repository whose
    request is rejected, and for one that answers the pull requests of its
    page that wait for the user, tagged with the repository. *)
Fixpoint settle `{Remote} (wsName cur : string) (limit : Z) (s : Service)
    (slugs : list string) : list (list PendingPR) * Service :=
  match slugs with
  | [] => ([], s)
  | slug :: rest =>
      let settled := respond SPullRequests s (open_pullrequests_request wsName limit slug) in
      let later := settle wsName cur limit (snd settled) rest in
      (contribution wsName cur slug (fst settled) :: fst later, snd later)
  end.

Definition contributions `{Remote} (wsName cur : string) (limit : Z) (s : Service)
    (slugs : list string) : list (list PendingPR) :=
  fst (settle wsName cur limit s slugs).

(** The answers of the remote to the requests for pull requests do not
    depend on its state. *)
Definition steady `{Remote} : Prop :=
  forall (s s' : Service) (q : Request),
    fst (respond SPullRequests s q) = fst (respond SPullRequests s' q).

(** No repository list was given: absent, or empty. *)
Definition no_repository_list (repositoryList : option (list string)) : Prop :=
  repositoryList = None \/ repositoryList = Some [].

(** The object that [getPendingReviewPRs] serialises. *)
Definition report (wsName cur : string) (limit : Z) (repos : list string)
    (pendingPRs : list PendingPR) : PendingReview :=
  {| pending_review_prs := finalResults limit pendingPRs;
     total_found := length (finalResults limit pendingPRs);
     searched_repositories := length repos;
     review_user := cur;
     review_workspace := wsName |}.

(** The requests a computation sends when started in [w]. *)
Definition issued_by `{Remote} {A} (m : M A) (w : World) : list Request :=
  skipn (length (trace w)) (trace (snd (m w))).

(** The remote [R], except that a rejected listing of pull requests is
    answered with an empty page instead. *)
Definition forgiving (R : Remote) : Remote :=
  {| Service := @Service R;
     respond := fun k =>
       match k return @Service R -> Request -> Reply (data_of k) * @Service R with
       | SPullRequests => fun s r =>
           match @respond R SPullRequests s r with
           | (Rejected _ _, s') => (Resolved {| values := Some [] |}, s')
           | settled => settled
           end
       | k' => @respond R k'
       end |}.

(** A world of [R], seen as a world of [forgiving R]. *)
Definition as_forgiving {R : Remote} (w : @World R) : @World (forgiving R) :=
  @Build_World (forgiving R) (service w) (trace w).

(** [m'] does against [forgiving R] what [m] does against [R]. *)
Definition same_run {R : Remote} {A} (m : @M R A) (m' : @M (forgiving R) A) : Prop :=
  forall w : @World R, m' (as_forgiving w) = (fst (m w), as_forgiving (snd (m w))).

(** ** Further handlers *)

(** V8's message for a property read on [null]. *)
Definition cannot_read_null (prop : string) : string :=
  "Cannot read properties of null (reading '" ++ prop ++ "')".

(** Truthiness of a number or undefined. *)
Definition truthy_number (x : option Z) : bool :=
  match x with
  | Some n => negb (n =? 0)
  | None => false
  end.

(** [target] of [runPipeline]. *)
Record PipelineTarget : Type := {
  ref_type : option string;
  ref_name : option string;
  target_commit_hash : option string;
  selector_type : option string;
  selector_pattern : option string
}.

(** An element of [variables] of [runPipeline]. *)
Record PipelineVariable : Type := {
  var_key : option string;
  var_value : option string;
  var_secured : option bool
}.

Section FurtherHandlers.
Context `{Sdk} `{Remote}.
Variable config : Config.

(** [response.data.values] on a body that was parsed from JSON.  Reading a
    property of [null] or [undefined] throws; on an array [values] is a
    method, which [JSON.stringify] serialises like [undefined]. *)
Definition read_values (data : jsval) : M jsval :=
  match data with
  | JUndefined => throw (TypeError (cannot_read "values"))
  | JNull => throw (TypeError (cannot_read_null "values"))
  | JObj fields =>
      ret (match assoc "values" fields with Some v => v | None => JUndefined end)
  | _ => ret JUndefined
  end.

(** *** listRepositories *)

(** The one-character string that holds a double quote (code 34). *)
Definition double_quote : string :=
  String (Ascii.Ascii false true false false false true false false) EmptyString.

(** [params]: [{ limit }], and [q] set to the name between double quotes
    after [name~] when a name is given. *)
Definition repositories_params (limit : Z) (name : option string)
    : list (string * jsval) :=
  [("limit", JNum limit)]
  ++ (if truthy_string name
      then [("q", JStr ("name~" ++ double_quote ++ tpl name ++ double_quote))]
      else []).

Definition listRepositories (workspace : option string) (limit_arg : option Z)
    (name : option string) : M ToolResult :=
  let limit := match limit_arg with Some n => n | None => 10 end in
  try_catch
    (let wsName := or_string workspace (defaultWorkspace config) in
     if negb (truthy_string wsName) then
       throw (McpError InvalidParams
         "Workspace must be provided either as a parameter or through BITBUCKET_WORKSPACE environment variable")
     else
     response <- api_request SJson
       (get_request_with (workspace_url (tpl wsName)) (repositories_params limit name)) ;;
     repositories <- read_values response ;;
     ret (text_result (TextJson repositories)))
    (rethrow_internal "Failed to list repositories").

(** *** updatePullRequest, declinePullRequest, mergePullRequest *)

(** A property that is assigned when the argument [!== undefined]. *)
Definition when_defined (key : string) (x : option string) : list (string * jsval) :=
  match x with
  | Some s => [(key, JStr s)]
  | None => []
  end.

(** A property that is assigned when the argument is truthy. *)
Definition when_truthy (key : string) (x : option string) : list (string * jsval) :=
  if truthy_string x then [(key, JStr (tpl x))] else [].

Definition updatePullRequest (workspace repo_slug pull_request_id title description
    : option string) : M ToolResult :=
  try_catch
    (let updateData :=
       JObj (when_defined "title" title ++ when_defined "description" description) in
     response <- api_request SJson
       (put_request (pullrequest_url workspace repo_slug pull_request_id) updateData) ;;
     ret (text_result (TextJson response)))
    (rethrow_internal "Failed to update pull request").

Definition declinePullRequest (workspace repo_slug pull_request_id message
    : option string) : M ToolResult :=
  try_catch
    (let data := JObj (when_truthy "message" message) in
     response <- api_request SJson
       (post_request
          (pullrequest_url workspace repo_slug pull_request_id ++ "/decline") data) ;;
     ret (text_result (TextJson response)))
    (rethrow_internal "Failed to decline pull request").

Definition mergePullRequest (workspace repo_slug pull_request_id message strategy
    : option string) : M ToolResult :=
  try_catch
    (let data :=
       JObj (when_truthy "message" message ++ when_truthy "merge_strategy" strategy) in
     response <- api_request SJson
       (post_request
          (pullrequest_url workspace repo_slug pull_request_id ++ "/merge") data) ;;
     ret (text_result (TextJson response)))
    (rethrow_internal "Failed to merge pull request").

(** *** listPipelineRuns, runPipeline *)

Definition pipelines_url (workspace repo_slug : option string) : string :=
  "/repositories/" ++ tpl workspace ++ "/" ++ tpl repo_slug ++ "/pipelines".

Definition pipeline_params (limit : option Z) (status target_branch trigger_type
    : option string) : list (string * jsval) :=
  (if truthy_number limit
   then [("pagelen", JNum (match limit with Some n => n | None => 0 end))]
   else [])
  ++ when_truthy "status" status
  ++ when_truthy "target.branch" target_branch
  ++ when_truthy "trigger_type" trigger_type.

Definition listPipelineRuns (workspace repo_slug : option string) (limit : option Z)
    (status target_branch trigger_type : option string) : M ToolResult :=
  try_catch
    (response <- api_request SJson
       (get_request_with (pipelines_url workspace repo_slug)
          (pipeline_params limit status target_branch trigger_type)) ;;
     runs <- read_values response ;;
     ret (text_result (TextJson runs)))
    (rethrow_internal "Failed to list pipeline runs").

(** [pipelineTarget], after the conditional assignments. *)
Definition pipelineTarget (target : PipelineTarget) : jsval :=
  JObj ([ ("type",
           JStr (if truthy_string (target_commit_hash target)
                 then "pipeline_commit_target"
                 else "pipeline_ref_target"));
          ("ref_type", of_opt_string (ref_type target));
          ("ref_name", of_opt_string (ref_name target)) ]
        ++ (if truthy_string (target_commit_hash target)
            then [("commit",
                   JObj [ ("type", JStr "commit");
                          ("hash", of_opt_string (target_commit_hash target)) ])]
            else [])
        ++ (if truthy_string (selector_type target)
               && truthy_string (selector_pattern target)
            then [("selector",
                   JObj [ ("type", of_opt_string (selector_type target));
                          ("pattern", of_opt_string (selector_pattern target)) ])]
            else [])).

(** The callback of [variables.map]; [secured || false]. *)
Definition pipeline_variable (v : PipelineVariable) : jsval :=
  JObj [ ("key", of_opt_string (var_key v));
         ("value", of_opt_string (var_value v));
         ("secured", JBool (match var_secured v with Some true => true | _ => false end)) ].

Definition pipeline_requestData (target : PipelineTarget)
    (variables : option (list PipelineVariable)) : jsval :=
  JObj ([("target", pipelineTarget target)]
        ++ match variables with
           | Some (v :: vs) => [("variables", JArr (map pipeline_variable (v :: vs)))]
           | _ => []
           end).

(** [target.commit_hash] is read first: without a target that throws. *)
Definition runPipeline (workspace repo_slug : option string)
    (target : option PipelineTarget) (variables : option (list PipelineVariable))
    : M ToolResult :=
  try_catch
    (match target with
     | None => throw (TypeError (cannot_read "commit_hash"))
     | Some t =>
         response <- api_request SJson
           (post_request (pipelines_url workspace repo_slug)
              (pipeline_requestData t variables)) ;;
         ret (text_result (TextJson response))
     end)
    (rethrow_internal "Failed to run pipeline").

End FurtherHandlers.

(** ** The constructor *)

(** The variables the constructor reads from [process.env]. *)
Record Env : Type := {
  BITBUCKET_URL : option string;
  BITBUCKET_TOKEN : option string;
  BITBUCKET_USERNAME : option string;
  BITBUCKET_PASSWORD : option string;
  BITBUCKET_WORKSPACE : option string
}.

(** [this.config]; [??] replaces only a missing URL. *)
Definition config_of_env (env : Env) : Config :=
  {| baseUrl := match BITBUCKET_URL env with
                | Some u => u
                | None => "https://api.bitbucket.org/2.0"
                end;
     token := BITBUCKET_TOKEN env;
     username := BITBUCKET_USERNAME env;
     password := BITBUCKET_PASSWORD env;
     defaultWorkspace := BITBUCKET_WORKSPACE env |}.

(** The argument of [axios.create]. *)
Record AxiosDefaults : Type := {
  baseURL : string;
  default_headers : list (string * string);
  auth : option (string * string)
}.

(** The constructor up to [axios.create]: the message of the [Error] it
    throws, or the configuration and the settings of the axios instance. *)
Definition construct (env : Env) : string + Config * AxiosDefaults :=
  let config := config_of_env env in
  if String.eqb (baseUrl config) "" then
    inl "BITBUCKET_URL is required"
  else if negb (truthy_string (token config))
          && negb (truthy_string (username config) && truthy_string (password config))
  then inl "Either BITBUCKET_TOKEN or BITBUCKET_USERNAME/PASSWORD is required"
  else
    inr (config,
         {| baseURL := baseUrl config;
            default_headers :=
              if truthy_string (token config)
              then [("Authorization", "Bearer " ++ tpl (token config))]
              else [("Content-Type", "application/json")];
            auth :=
              if truthy_string (username config) && truthy_string (password config)
              then Some (tpl (username config), tpl (password config))
              else None |}).

(** ** Vocabulary of the further properties *)

(** The repository an entry is tagged with. *)
Definition tagged (wsName slug : string) (e : PendingPR) : Prop :=
  repository e = {| repo_name := slug; full_name := wsName ++ "/" ++ slug |}.

(** The entry [e] carries a pull request of a page that the remote returned
    for a repository of [repos], and is tagged with that repository. *)
Definition fetched_from `{Remote} (wsName : string) (limit : Z) (repos : list string)
    (e : PendingPR) : Prop :=
  exists slug s page vs,
    In slug repos
    /\ tagged wsName slug e
    /\ fst (respond SPullRequests s (open_pullrequests_request wsName limit slug))
       = Resolved page
    /\ values page = Some vs
    /\ In (pr e) vs.

(** The [PUT] that publishes a pending comment. *)
Definition publish_request (workspace repo_slug pull_request_id : option string)
    (c : Comment) : Request :=
  put_request (comment_url workspace repo_slug pull_request_id c) (publish_body c).

Definition published_id (i : PublishItem) : Z :=
  match i with
  | Published n _ => n
  | PublishFailed n _ => n
  end.

(** How an item of the report relates to the comment it is about: it has
    the id of the comment and records how the remote settled the PUT. *)
Definition item_of `{Remote} (workspace repo_slug pull_request_id : option string)
    (c : Comment) (i : PublishItem) : Prop :=
  published_id i = comment_id c
  /\ exists s,
       i = match fst (respond SJson s
                        (publish_request workspace repo_slug pull_request_id c)) with
           | Resolved data => Published (comment_id c) data
           | Rejected message _ => PublishFailed (comment_id c) message
           end.

(** A side of a pull request resource has a commit object. *)
Definition has_commit (side : option Endpoint) : bool :=
  match side with
  | Some e => match commit e with Some _ => true | None => false end
  | None => false
  end.

(** The hash of the commit of a side, when there is one. *)
Definition side_hash (side : option Endpoint) : option string :=
  match side with
  | Some e => match commit e with Some c => hash c | None => None end
  | None => None
  end.

(** Further sample environments. *)
Module MoreSamples.

(** The workspace has seven repositories; each has one pull request that
    waits for alice. *)
Definition seven : list string := ["r1"; "r2"; "r3"; "r4"; "r5"; "r6"; "r7"].

Definition seven_answer (k : Shape) (r : Request) : Reply (data_of k) :=
  match k return Reply (data_of k) with
  | SPullRequests =>
      Resolved {| values := Some [Samples.pull_request 1 100
                                    [Samples.reviewer "alice" false]] |}
  | SRepositories => Resolved {| values := Some (map (fun n => {| name := n |}) seven) |}
  | _ => Samples.unavailable
  end.

Definition seven_repos : Remote := Samples.stateless seven_answer.

(** A workspace without repositories, and a listing without [values]. *)
Definition empty_answer (k : Shape) (r : Request) : Reply (data_of k) :=
  match k return Reply (data_of k) with
  | SRepositories => Resolved {| values := Some [] |}
  | _ => Samples.unavailable
  end.

Definition empty_workspace : Remote := Samples.stateless empty_answer.

(** The listing of comments is answered, every [PUT] is rejected. *)
Definition read_only_store : Remote :=
  {| Service := list Comment;
     respond := fun k s r =>
       (match k return Reply (data_of k) with
        | SComments =>
            match req_method r with
            | GET => Resolved {| values := Some s |}
            | _ => Samples.unavailable
            end
        | _ => Samples.unavailable
        end, s) |}.

(** A pull request resource without commits. *)
Definition bare_answer (k : Shape) (r : Request) : Reply (data_of k) :=
  match k return Reply (data_of k) with
  | SPullRequest =>
      Resolved {| source := Some {| commit := None |}; destination := None |}
  | SText => Resolved "never read"
  | _ => Samples.unavailable
  end.

Definition bare : Remote := Samples.stateless bare_answer.

(** A pull request resource whose commits have no hash. *)
Definition hashless_answer (k : Shape) (r : Request) : Reply (data_of k) :=
  match k return Reply (data_of k) with
  | SPullRequest =>
      Resolved {| source := Some {| commit := Some {| hash := None |} |};
                  destination := Some {| commit := Some {| hash := None |} |} |}
  | SText => Resolved "no changes"
  | _ => Samples.unavailable
  end.

Definition hashless : Remote := Samples.stateless hashless_answer.

Definition env_of (c : Config) : Env :=
  {| BITBUCKET_URL := Some (baseUrl c);
     BITBUCKET_TOKEN := token c;
     BITBUCKET_USERNAME := username c;
     BITBUCKET_PASSWORD := password c;
     BITBUCKET_WORKSPACE := defaultWorkspace c |}.

Definition branch_target : PipelineTarget :=
  {| ref_type := Some "branch"; ref_name := Some "main";
     target_commit_hash := None; selector_type := Some "custom";
     selector_pattern := Some "deploy" |}.

End MoreSamples.

(** * Properties *)

Local Open Scope list_scope.

(** ** Arrays and strings *)

Lemma string_length_append (a b : string) :
  String.length (a ++ b)%string = (String.length a + String.length b)%nat.
Proof.
  induction a as [|c a IH]; simpl; [reflexivity|].
  now rewrite IH.
Qed.

Lemma In_firstn {A} (n : nat) (l : list A) (x : A) :
  In x (firstn n l) -> In x l.
Proof.
  intros Hin. rewrite <- (firstn_skipn n l). apply in_or_app. now left.
Qed.

Lemma In_skipn {A} (n : nat) (l : list A) (x : A) :
  In x (skipn n l) -> In x l.
Proof.
  intros Hin. rewrite <- (firstn_skipn n l). apply in_or_app. now right.
Qed.

Lemma slice_incl {A} (from to : Z) (l : list A) (x : A) :
  In x (slice from to l) -> In x l.
Proof.
  unfold slice. intros Hin.
  apply In_firstn in Hin. now apply In_skipn in Hin.
Qed.

(** [l.slice(0, n)] keeps at most [n] elements when [n] is not negative. *)
Lemma slice_prefix_length {A} (n : Z) (l : list A) :
  0 <= n -> Z.of_nat (length (slice 0 n l)) <= n.
Proof.
  intros Hn. unfold slice.
  pose proof (firstn_le_length
                (Z.to_nat (rel_index (Z.of_nat (length l)) n
                           - rel_index (Z.of_nat (length l)) 0))
                (skipn (Z.to_nat (rel_index (Z.of_nat (length l)) 0)) l)) as Hle.
  assert (Hk : rel_index (Z.of_nat (length l)) 0 = 0).
  { unfold rel_index. simpl. lia. }
  assert (Hf : rel_index (Z.of_nat (length l)) n <= n).
  { unfold rel_index. destruct (n <? 0) eqn:E; [apply Z.ltb_lt in E|]; lia. }
  rewrite Hk in *. lia.
Qed.

(** With a negative end, [slice] drops elements from the end instead. *)
Lemma slice_negative_end {A} (n : Z) (l : list A) :
  n < 0 ->
  slice 0 n l = firstn (Z.to_nat (Z.of_nat (length l) + n)) l.
Proof.
  intros Hn. unfold slice, rel_index.
  apply Z.ltb_lt in Hn. rewrite Hn.
  change (0 <? 0) with false. cbv iota.
  rewrite Z.min_l by lia. change (Z.to_nat 0) with O. cbn [skipn].
  replace (Z.to_nat (Z.max (Z.of_nat (length l) + n) 0 - 0))
    with (Z.to_nat (Z.of_nat (length l) + n)) by lia.
  reflexivity.
Qed.

(** A batch is the next five elements, or what is left of the list. *)
Lemma slice_batch {A} (l : list A) (i : Z) :
  0 <= i -> i < Z.of_nat (length l) ->
  slice i (i + batchSize) l = firstn 5 (skipn (Z.to_nat i) l).
Proof.
  intros Hi Hlen. unfold slice, rel_index, batchSize.
  replace (i <? 0) with false by (symmetry; apply Z.ltb_ge; lia).
  replace (i + 5 <? 0) with false by (symmetry; apply Z.ltb_ge; lia).
  rewrite (Z.min_l i) by lia.
  destruct (Z.le_gt_cases (i + 5) (Z.of_nat (length l))) as [Hfull | Hshort].
  - rewrite Z.min_l by lia. f_equal. lia.
  - rewrite Z.min_r by lia.
    assert (Hrest : length (skipn (Z.to_nat i) l) = Z.to_nat (Z.of_nat (length l) - i)).
    { rewrite length_skipn. lia. }
    rewrite !firstn_all2; [reflexivity | lia | lia].
Qed.

Lemma firstn_add {A} (a n : nat) (l : list A) :
  firstn (a + n) l = firstn a l ++ firstn n (skipn a l).
Proof.
  revert l. induction a as [|a IH]; intros l; [reflexivity|].
  destruct l as [|x l]; simpl.
  - now rewrite firstn_nil.
  - now rewrite IH.
Qed.

Lemma slice_nil {A} (from to : Z) : slice from to (@nil A) = [].
Proof. unfold slice. now rewrite skipn_nil, firstn_nil. Qed.

Lemma slice_empty_prefix {A} (l : list A) : slice 0 0 l = [].
Proof.
  unfold slice, rel_index. simpl (0 <? 0). cbv iota.
  rewrite Z.min_l by lia. reflexivity.
Qed.

Lemma slice_prefix_firstn {A} (n : Z) (l : list A) :
  0 <= n -> slice 0 n l = firstn (Z.to_nat n) l.
Proof.
  intros Hn. unfold slice, rel_index.
  replace (n <? 0) with false by (symmetry; apply Z.ltb_ge; lia).
  change (0 <? 0) with false. cbv iota.
  rewrite (Z.min_l 0) by lia. change (Z.to_nat 0) with O. cbn [skipn].
  rewrite Z.sub_0_r.
  destruct (Z.le_gt_cases n (Z.of_nat (length l))).
  - now rewrite Z.min_l by lia.
  - rewrite Z.min_r by lia. rewrite !firstn_all2; [reflexivity | lia | lia].
Qed.

Section Sorting.
Context {A : Type} (cmp : A -> A -> Z).

Lemma insert_perm (x : A) (l : list A) : Permutation (insert cmp x l) (x :: l).
Proof.
  induction l as [|y l IH]; simpl; [reflexivity|].
  destruct (cmp x y <=? 0); [reflexivity|].
  rewrite IH. apply perm_swap.
Qed.

Lemma sort_perm (l : list A) : Permutation (sort cmp l) l.
Proof.
  induction l as [|x l IH]; simpl; [reflexivity|].
  unfold sort in *. simpl. rewrite insert_perm. now constructor.
Qed.

Lemma sort_length (l : list A) : length (sort cmp l) = length l.
Proof. apply Permutation_length, sort_perm. Qed.

Lemma sort_In (l : list A) (x : A) : In x (sort cmp l) <-> In x l.
Proof.
  split; apply Permutation_in; [apply sort_perm | symmetry; apply sort_perm].
Qed.

(** A comparator that never wants both [a] after [b] and [b] after [a]. *)
Hypothesis cmp_asym : forall a b, 0 < cmp a b -> cmp b a <= 0.




End Sorting.


(** ** The pending-review scan *)

Lemma truthy_string_Some (x : option string) :
  truthy_string x = true -> x = Some (tpl x).
Proof. destruct x; simpl; [reflexivity | discriminate]. Qed.

Lemma is_pending_reviewer_spec (cur : string) (p : Participant) :
  is_pending_reviewer cur p = true <-> pending_reviewer cur p.
Proof.
  unfold is_pending_reviewer, pending_reviewer. split.
  - intros Hb.
    apply andb_true_iff in Hb as [Hb Ha]. apply andb_true_iff in Hb as [Hu Hr].
    destruct (user p) as [u|]; [|discriminate].
    destruct (nickname u) as [n|] eqn:En; [|discriminate].
    destruct (role p) as [r|]; [|discriminate].
    destruct (approved p) as [[|]|]; try discriminate.
    apply String.eqb_eq in Hu, Hr. subst.
    split; [exists u; split; auto | split; reflexivity].
  - intros [[u [Hu Hn]] [Hr Ha]].
    rewrite Hu, Hn, Hr, Ha. now rewrite !String.eqb_refl.
Qed.

Lemma awaits_review_spec (cur : string) (p : PullRequest) :
  awaits_review cur p = true <->
  exists ps x, participants p = Some ps /\ In x ps /\ pending_reviewer cur x.
Proof.
  unfold awaits_review. destruct (participants p) as [ps|].
  - destruct (find (is_pending_reviewer cur) ps) as [x|] eqn:F; split.
    + intros _. apply find_some in F as [Hin Hx].
      exists ps, x. split; [reflexivity|]. split; [exact Hin|].
      now apply is_pending_reviewer_spec.
    + reflexivity.
    + discriminate.
    + intros (ps' & x & E & Hin & Hx). injection E as <-.
      apply is_pending_reviewer_spec in Hx.
      now rewrite (find_none _ _ F x Hin) in Hx.
  - split; [discriminate | intros (ps & x & E & _); discriminate].
Qed.

Section Scan.
Context `{Sdk} `{Remote}.
Variables (wsName cur : string) (limit : Z).

Lemma repository_pending_await (slug : string) (page : Page PullRequest) :
  all_await cur (repository_pending wsName cur slug page).
Proof.
  unfold all_await, repository_pending. destruct (values page) as [vs|]; [|constructor].
  apply Forall_forall. intros e Hin.
  apply in_map_iff in Hin as (p & <- & Hp). simpl.
  now apply filter_In in Hp.
Qed.

Lemma contribution_await slug reply : all_await cur (contribution wsName cur slug reply).
Proof.
  destruct reply; simpl; [apply repository_pending_await | constructor].
Qed.

(** [check_repository] always returns: it sends one request and turns a
    rejection into the empty list. *)
Lemma check_repository_eq (slug : string) (w : World) :
  check_repository wsName cur limit slug w =
  (Return (contribution wsName cur slug
             (fst (respond SPullRequests (service w)
                     (open_pullrequests_request wsName limit slug)))),
   {| service := snd (respond SPullRequests (service w)
                        (open_pullrequests_request wsName limit slug));
      trace := trace w ++ [open_pullrequests_request wsName limit slug] |}).
Proof.
  unfold check_repository, try_catch, bind, api_request, ret.
  destruct (respond SPullRequests (service w) _) as [[page|m rm] s']; reflexivity.
Qed.

Lemma map_all_check (batch : list string) (w : World) :
  exists ls w',
    map_all (check_repository wsName cur limit) batch w = (Return ls, w')
    /\ Forall (all_await cur) ls
    /\ trace w' = trace w ++ map (open_pullrequests_request wsName limit) batch.
Proof.
  revert w. induction batch as [|slug batch IH]; intros w; simpl.
  - exists [], w. unfold ret. rewrite app_nil_r. repeat split; constructor.
  - unfold bind at 1. rewrite check_repository_eq.
    set (w1 := {| service := _; trace := _ |}).
    destruct (IH w1) as (ls & w' & E & Hls & Ht).
    unfold bind at 1. rewrite E. unfold ret.
    eexists; eexists; split; [reflexivity|]. split.
    + constructor; [apply contribution_await | exact Hls].
    + rewrite Ht. simpl. now rewrite <- app_assoc.
Qed.

Lemma push_results_await (batchResults : list (list PendingPR)) (acc : list PendingPR) :
  Forall (all_await cur) batchResults -> all_await cur acc ->
  all_await cur (push_results limit batchResults acc).
Proof.
  revert acc. induction batchResults as [|r rest IH]; intros acc Hb Hacc; simpl; auto.
  inversion Hb; subst.
  assert (all_await cur (acc ++ r)) by (apply Forall_app; split; assumption).
  destruct (reached limit (acc ++ r)); auto.
Qed.

(** The loop always returns; what it accumulated passed the filter, and
    it only asked for pull requests of repositories in scope. *)
Lemma scan_batches_spec (repos : list string) (fuel : nat) :
  forall (i : Z) (acc : list PendingPR) (w : World),
    all_await cur acc ->
    exists acc' w' slugs,
      scan_batches wsName cur limit repos fuel i acc w = (Return acc', w')
      /\ all_await cur acc'
      /\ trace w' = trace w ++ map (open_pullrequests_request wsName limit) slugs
      /\ incl slugs repos.
Proof.
  induction fuel as [|fuel IH]; intros i acc w Hacc; simpl.
  - exists acc, w, []. unfold ret. simpl. rewrite app_nil_r.
    repeat split; auto. intros x [].
  - destruct (i <? Z.of_nat (length repos)).
    + destruct (map_all_check (slice i (i + batchSize) repos) w)
        as (ls & w1 & E & Hls & Ht).
      unfold bind. rewrite E.
      pose proof (push_results_await ls acc Hls Hacc) as Hacc'.
      destruct (reached limit (push_results limit ls acc)).
      * exists (push_results limit ls acc), w1, (slice i (i + batchSize) repos).
        unfold ret. repeat split; auto.
        intros x Hx. eapply slice_incl; eauto.
      * destruct (IH (i + batchSize) _ w1 Hacc') as (acc' & w' & slugs & E' & Ha & Ht' & Hi).
        exists acc', w', (slice i (i + batchSize) repos ++ slugs)%list.
        repeat split; auto.
        -- rewrite Ht', Ht, map_app. now rewrite app_assoc.
        -- apply incl_app; auto. intros x Hx. eapply slice_incl; eauto.
    + exists acc, w, []. unfold ret. simpl. rewrite app_nil_r.
      repeat split; auto. intros x [].
Qed.

(** More fuel than the length of the list changes nothing: the loop is
    over once the index has passed the end. *)
Lemma scan_batches_fuel (repos : list string) (fuel : nat) :
  forall (extra : nat) (i : Z) (acc : list PendingPR) (w : World),
    0 <= i ->
    Z.of_nat (length repos) <= i + batchSize * Z.of_nat fuel ->
    scan_batches wsName cur limit repos (fuel + extra) i acc w =
    scan_batches wsName cur limit repos fuel i acc w.
Proof.
  unfold batchSize.
  induction fuel as [|fuel IH]; intros extra i acc w Hi Hlen.
  - simpl. destruct extra as [|extra]; simpl; [reflexivity|].
    destruct (i <? Z.of_nat (length repos)) eqn:E; [|reflexivity].
    apply Z.ltb_lt in E. lia.
  - simpl. destruct (i <? Z.of_nat (length repos)); [|reflexivity].
    unfold bind.
    destruct (map_all _ _ w) as [[ls|e] w1]; [|reflexivity].
    destruct (reached limit _); [reflexivity|].
    apply IH; unfold batchSize; lia.
Qed.

End Scan.

(** ** getPendingReviewPRs as a whole *)

Section PendingReview.
Context `{Sdk} `{Remote}.
Variable config : Config.

Lemma resolve_given (wsName r : string) (rest : list string) (w : World) :
  resolve_repositories wsName (Some (r :: rest)) w = (Return (r :: rest), w).
Proof. reflexivity. Qed.

(** Without a repository list the workspace listing is requested, once. *)
Lemma resolve_listing (wsName : string) (repositoryList : option (list string)) (w : World) :
  no_repository_list repositoryList ->
  resolve_repositories wsName repositoryList w =
  (match fst (respond SRepositories (service w) (workspace_listing_request wsName)) with
   | Resolved page =>
       match values page with
       | Some vs => Return (map name vs)
       | None => Throw (McpError InternalError "Failed to fetch repositories")
       end
   | Rejected message response_message => Throw (AxiosError message response_message)
   end,
   {| service := snd (respond SRepositories (service w) (workspace_listing_request wsName));
      trace := trace w ++ [workspace_listing_request wsName] |}).
Proof.
  intros [-> | ->]; unfold resolve_repositories, bind, api_request;
    destruct (respond SRepositories (service w) _) as [[page|m rm] s']; simpl;
    try reflexivity; destruct (values page); reflexivity.
Qed.

(** Once the workspace, the user and the repositories in scope are known,
    the operation returns, whatever the replies to the per-repository
    requests are. *)
Lemma getPendingReviewPRs_resolved workspace limit_arg repositoryList (w w1 : World)
    (repos : list string) :
  truthy_string (or_string workspace (defaultWorkspace config)) = true ->
  truthy_string (username config) = true ->
  resolve_repositories (tpl (or_string workspace (defaultWorkspace config)))
    repositoryList w = (Return repos, w1) ->
  exists pendingPRs w' slugs,
    getPendingReviewPRs config workspace limit_arg repositoryList w =
      (Return (text_result (TextPendingReview
                 (report (tpl (or_string workspace (defaultWorkspace config)))
                    (tpl (username config))
                    (limit_or_default limit_arg) repos pendingPRs))), w')
    /\ all_await (tpl (username config)) pendingPRs
    /\ trace w' = trace w1
                   ++ map (open_pullrequests_request
                             (tpl (or_string workspace (defaultWorkspace config)))
                             (limit_or_default limit_arg)) slugs
    /\ incl slugs repos.
Proof.
  intros Hws Hu Hres.
  destruct (scan_batches_spec (tpl (or_string workspace (defaultWorkspace config)))
              (tpl (username config))
              (limit_or_default limit_arg) repos (length repos) 0 [] w1)
    as (acc & w' & slugs & E & Hacc & Ht & Hincl); [constructor|].
  exists acc, w', slugs. repeat split; auto.
  unfold getPendingReviewPRs, try_catch. cbv zeta.
  rewrite Hws, Hu. cbn [negb].
  unfold bind at 1. rewrite Hres.
  unfold bind at 1. rewrite E. reflexivity.
Qed.

(** A scope that cannot be resolved fails the operation. *)
Lemma getPendingReviewPRs_unresolved workspace limit_arg repositoryList (w w1 : World)
    (e : exn) :
  truthy_string (or_string workspace (defaultWorkspace config)) = true ->
  truthy_string (username config) = true ->
  resolve_repositories (tpl (or_string workspace (defaultWorkspace config)))
    repositoryList w = (Throw e, w1) ->
  getPendingReviewPRs config workspace limit_arg repositoryList w =
    (Throw (McpError InternalError
              ("Failed to get pending review PRs: " ++ error_message e)), w1).
Proof.
  intros Hws Hu Hres.
  unfold getPendingReviewPRs, try_catch. cbv zeta.
  rewrite Hws, Hu. cbn [negb].
  unfold bind at 1. rewrite Hres. reflexivity.
Qed.

(** Without a workspace or without a user name nothing is requested. *)
Lemma getPendingReviewPRs_unconfigured workspace limit_arg repositoryList (w : World) :
  truthy_string (or_string workspace (defaultWorkspace config)) = false
  \/ truthy_string (username config) = false ->
  exists message,
    getPendingReviewPRs config workspace limit_arg repositoryList w =
      (Throw (McpError InternalError message), w).
Proof.
  intros Hcfg. unfold getPendingReviewPRs, try_catch.
  destruct (truthy_string (or_string workspace (defaultWorkspace config))) eqn:Hws.
  - destruct Hcfg as [Hcfg | Hcfg]; [discriminate|]. rewrite Hcfg.
    eexists. reflexivity.
  - eexists. reflexivity.
Qed.

(** Whenever the operation returns, it went through all three steps. *)
Lemma getPendingReviewPRs_returns workspace limit_arg repositoryList (w w' : World)
    (r : ToolResult) :
  getPendingReviewPRs config workspace limit_arg repositoryList w = (Return r, w') ->
  exists wsName cur repos w1 pendingPRs slugs,
    or_string workspace (defaultWorkspace config) = Some wsName
    /\ truthy_string (Some wsName) = true
    /\ username config = Some cur
    /\ truthy_string (Some cur) = true
    /\ resolve_repositories wsName repositoryList w = (Return repos, w1)
    /\ r = text_result (TextPendingReview
              (report wsName cur (limit_or_default limit_arg) repos pendingPRs))
    /\ all_await cur pendingPRs
    /\ trace w' = trace w1
                   ++ map (open_pullrequests_request wsName (limit_or_default limit_arg))
                        slugs
    /\ incl slugs repos.
Proof.
  intros Hrun.
  destruct (truthy_string (or_string workspace (defaultWorkspace config))) eqn:Hws.
  2:{ destruct (getPendingReviewPRs_unconfigured workspace limit_arg repositoryList w)
        as [m Hm]; [now left|]. congruence. }
  destruct (truthy_string (username config)) eqn:Hu.
  2:{ destruct (getPendingReviewPRs_unconfigured workspace limit_arg repositoryList w)
        as [m Hm]; [now right|]. congruence. }
  destruct (resolve_repositories (tpl (or_string workspace (defaultWorkspace config)))
              repositoryList w) as [[repos|e] w1] eqn:Hres.
  2:{ rewrite (getPendingReviewPRs_unresolved _ limit_arg _ _ _ _ Hws Hu Hres) in Hrun.
      discriminate. }
  destruct (getPendingReviewPRs_resolved _ limit_arg _ _ _ _ Hws Hu Hres)
    as (acc & w2 & slugs & E & Hacc & Ht & Hincl).
  rewrite E in Hrun. injection Hrun as <- <-.
  pose proof (truthy_string_Some _ Hws) as Ews.
  pose proof (truthy_string_Some _ Hu) as Eu.
  exists (tpl (or_string workspace (defaultWorkspace config))),
         (tpl (username config)), repos, w1, acc, slugs.
  rewrite <- Ews, <- Eu. repeat split; auto.
Qed.

End PendingReview.

(** ** The result list of getPendingReviewPRs *)

(** C1, as amended: for every limit [N] that is not negative (50 when the
    argument is absent) and whatever the remote answers, a call of
    [getPendingReviewPRs] that returns puts at most [N] entries into
    [pending_review_prs], and [total_found] is their number. *)
Theorem pending_review_within_limit `{Sdk} `{Remote} (config : Config)
    (workspace : option string) (limit_arg : option Z)
    (repositoryList : option (list string)) (w w' : World) (r : ToolResult) :
  0 <= limit_or_default limit_arg ->
  getPendingReviewPRs config workspace limit_arg repositoryList w = (Return r, w') ->
  exists rep,
    r = text_result (TextPendingReview rep)
    /\ Z.of_nat (length (pending_review_prs rep)) <= limit_or_default limit_arg
    /\ total_found rep = length (pending_review_prs rep)
    /\ (limit_arg = None -> Z.of_nat (length (pending_review_prs rep)) <= 50).
Proof.
  intros Hlimit Hrun.
  apply getPendingReviewPRs_returns in Hrun
    as (wsName & cur & repos & w1 & acc & slugs & _ & _ & _ & _ & _ & -> & _).
  eexists. split; [reflexivity|].
  assert (Hlen : Z.of_nat (length (finalResults (limit_or_default limit_arg) acc))
                 <= limit_or_default limit_arg).
  { unfold finalResults. rewrite sort_length. now apply slice_prefix_length. }
  simpl. repeat split; auto.
  intros ->. exact Hlen.
Qed.

Lemma pending_review_within_limit_witness :
  0 <= limit_or_default (Some 3)
  /\ exists r w',
       @getPendingReviewPRs Samples.sdk Samples.busy Samples.alice_config
         None (Some 3) None (Samples.start Samples.busy tt) = (Return r, w')
       /\ exists rep,
            r = text_result (TextPendingReview rep)
            /\ Z.of_nat (length (pending_review_prs rep)) <= limit_or_default (Some 3)
            /\ total_found rep = length (pending_review_prs rep)
            /\ (Some 3 = None -> Z.of_nat (length (pending_review_prs rep)) <= 50).
Proof.
  split; [discriminate|].
  eexists; eexists; split; [vm_compute; reflexivity|].
  eapply (@pending_review_within_limit Samples.sdk Samples.busy Samples.alice_config
           None (Some 3) None (Samples.start Samples.busy tt)).
  - discriminate.
  - vm_compute; reflexivity.
Defined.

(** C1 as stated fails for a negative limit: [slice(0, -1)] drops only the
    last accumulated entry, so with limit [-1] and two waiting pull requests
    in the one repository in scope, one entry is returned. *)
Lemma negative_limit_returns_an_entry :
  exists rep w',
    @getPendingReviewPRs Samples.sdk Samples.busy Samples.alice_config
      None (Some (-1)) (Some ["api"%string]) (Samples.start Samples.busy tt)
    = (Return (text_result (TextPendingReview rep)), w')
    /\ length (pending_review_prs rep) = 1%nat
    /\ ~ (Z.of_nat (length (pending_review_prs rep)) <= limit_or_default (Some (-1))).
Proof.
  eexists; eexists; split; [vm_compute; reflexivity|].
  split; [reflexivity|]. simpl. lia.
Qed.

(** C2: every entry of the returned list has a participants array with a
    participant whose user nickname is the configured user name, whose role
    is REVIEWER and whose approved flag is false; a pull request without
    such a participant, or without a participants array, is in no entry. *)
Theorem pending_review_entries_await_user `{Sdk} `{Remote} (config : Config)
    (workspace : option string) (limit_arg : option Z)
    (repositoryList : option (list string)) (w w' : World) (r : ToolResult) :
  getPendingReviewPRs config workspace limit_arg repositoryList w = (Return r, w') ->
  exists cur rep,
    username config = Some cur
    /\ r = text_result (TextPendingReview rep)
    /\ (forall e, In e (pending_review_prs rep) ->
          exists ps x,
            participants (pr e) = Some ps /\ In x ps /\ pending_reviewer cur x)
    /\ (forall q : PullRequest,
          (participants q = None
           \/ forall ps x, participants q = Some ps -> In x ps -> ~ pending_reviewer cur x) ->
          forall e, In e (pending_review_prs rep) -> pr e <> q).
Proof.
  intros Hrun.
  apply getPendingReviewPRs_returns in Hrun
    as (wsName & cur & repos & w1 & acc & slugs & _ & _ & Hu & _ & _ & -> & Hacc & _).
  exists cur. eexists. split; [exact Hu|]. split; [reflexivity|].
  assert (Hall : forall e, In e (finalResults (limit_or_default limit_arg) acc) ->
                           awaits_review cur (pr e) = true).
  { intros e Hin. unfold finalResults in Hin.
    apply sort_In in Hin. apply slice_incl in Hin.
    unfold all_await in Hacc. rewrite Forall_forall in Hacc. now apply Hacc. }
  simpl. split.
  - intros e Hin. apply awaits_review_spec. now apply Hall.
  - intros q Hq e Hin Eq. subst q. apply Hall in Hin.
    apply awaits_review_spec in Hin as (ps & x & Eps & Hx & Hp).
    destruct Hq as [Hnone | Hnone]; [congruence|].
    exact (Hnone ps x Eps Hx Hp).
Qed.

Lemma pending_review_entries_await_user_witness :
  exists r w',
    @getPendingReviewPRs Samples.sdk Samples.busy Samples.alice_config
      None None None (Samples.start Samples.busy tt) = (Return r, w')
    /\ exists cur rep,
         username Samples.alice_config = Some cur
         /\ r = text_result (TextPendingReview rep)
         /\ (forall e, In e (pending_review_prs rep) ->
               exists ps x,
                 participants (pr e) = Some ps /\ In x ps /\ pending_reviewer cur x)
         /\ (forall q : PullRequest,
               (participants q = None
                \/ forall ps x, participants q = Some ps -> In x ps ->
                                ~ pending_reviewer cur x) ->
               forall e, In e (pending_review_prs rep) -> pr e <> q).
Proof.
  eexists; eexists; split; [vm_compute; reflexivity|].
  eapply (@pending_review_entries_await_user Samples.sdk Samples.busy Samples.alice_config
           None None None (Samples.start Samples.busy tt)).
  vm_compute; reflexivity.
Defined.






(** ** Failures, and the requests that are sent *)

Lemma issued_by_app `{Remote} {A} (m : M A) (w : World) (l : list Request) :
  trace (snd (m w)) = trace w ++ l -> issued_by m w = l.
Proof.
  intros E. unfold issued_by. rewrite E.
  rewrite skipn_app, skipn_all, Nat.sub_diag. reflexivity.
Qed.

(** The request for a repository's pull requests is never the listing of
    a workspace, and does not go to the URL of the listing of [wsName]. *)
Lemma open_pullrequests_not_listing (wsName : string) (limit : Z) (slug : string) :
  req_url (open_pullrequests_request wsName limit slug) <> workspace_url wsName
  /\ forall ws', open_pullrequests_request wsName limit slug <> workspace_listing_request ws'.
Proof.
  split.
  - unfold open_pullrequests_request, workspace_url, get_request_with. cbn [req_url].
    intros E. apply (f_equal String.length) in E.
    rewrite !string_length_append in E. simpl in E. lia.
  - intros ws' E. apply (f_equal req_params) in E. discriminate.
Qed.

Lemma scan_requests_not_listing (wsName : string) (limit : Z) (slugs : list string)
    (q : Request) :
  In q (map (open_pullrequests_request wsName limit) slugs) ->
  req_url q <> workspace_url wsName /\ forall ws', q <> workspace_listing_request ws'.
Proof.
  intros Hin. apply in_map_iff in Hin as (slug & <- & _).
  apply open_pullrequests_not_listing.
Qed.

Section Forgiving.
Context `{Sdk} (R : Remote).

Lemma same_run_ret {A} (a : A) : same_run (@ret R A a) (@ret (forgiving R) A a).
Proof. intros w. reflexivity. Qed.

Lemma same_run_throw {A} (e : exn) : same_run (@throw R A e) (@throw (forgiving R) A e).
Proof. intros w. reflexivity. Qed.

Lemma same_run_bind {A B} (m : @M R A) m' (f : A -> @M R B) f' :
  same_run m m' -> (forall a, same_run (f a) (f' a)) ->
  same_run (bind m f) (bind m' f').
Proof.
  intros Hm Hf w. unfold bind. rewrite Hm.
  destruct (m w) as [[a|e] w1]; simpl; [apply Hf | reflexivity].
Qed.

Lemma same_run_try_catch {A} (m : @M R A) m' (h : exn -> @M R A) h' :
  same_run m m' -> (forall e, same_run (h e) (h' e)) ->
  same_run (try_catch m h) (try_catch m' h').
Proof.
  intros Hm Hh w. unfold try_catch. rewrite Hm.
  destruct (m w) as [[a|e] w1]; simpl; [reflexivity | apply Hh].
Qed.

Lemma same_run_listing (wsName : string) :
  same_run (@api_request R SRepositories (workspace_listing_request wsName))
           (@api_request (forgiving R) SRepositories (workspace_listing_request wsName)).
Proof.
  intros w. unfold api_request. simpl.
  destruct (@respond R SRepositories (service w) _) as [[page|m rm] s']; reflexivity.
Qed.

Lemma same_run_check_repository (wsName cur : string) (limit : Z) (slug : string) :
  same_run (@check_repository R wsName cur limit slug)
           (@check_repository (forgiving R) wsName cur limit slug).
Proof.
  intros w. unfold check_repository, try_catch, bind, api_request, ret. simpl.
  destruct (@respond R SPullRequests (service w) _) as [[page|m rm] s']; reflexivity.
Qed.

Lemma same_run_map_all {A B} (f : A -> @M R B) f' (xs : list A) :
  (forall x, same_run (f x) (f' x)) -> same_run (map_all f xs) (map_all f' xs).
Proof.
  intros Hf. induction xs as [|x xs IH]; simpl.
  - apply same_run_ret.
  - apply same_run_bind; [apply Hf|]. intros y.
    apply same_run_bind; [exact IH|]. intros ys. apply same_run_ret.
Qed.

Lemma same_run_scan_batches (wsName cur : string) (limit : Z) (repos : list string)
    (fuel : nat) :
  forall i acc,
    same_run (@scan_batches R wsName cur limit repos fuel i acc)
             (@scan_batches (forgiving R) wsName cur limit repos fuel i acc).
Proof.
  induction fuel as [|fuel IH]; intros i acc; simpl.
  - apply same_run_ret.
  - destruct (i <? Z.of_nat (length repos)); [|apply same_run_ret].
    apply same_run_bind.
    + apply same_run_map_all. intros slug. apply same_run_check_repository.
    + intros ls. destruct (reached limit _); [apply same_run_ret | apply IH].
Qed.

Lemma same_run_resolve (wsName : string) (repositoryList : option (list string)) :
  same_run (@resolve_repositories R wsName repositoryList)
           (@resolve_repositories (forgiving R) wsName repositoryList).
Proof.
  assert (Hlisting : same_run
            (reposResponse <- @api_request R SRepositories (workspace_listing_request wsName) ;;
             match values reposResponse with
             | None => throw (McpError InternalError "Failed to fetch repositories")
             | Some vs => ret (map name vs)
             end)
            (reposResponse <- @api_request (forgiving R) SRepositories
                                (workspace_listing_request wsName) ;;
             match values reposResponse with
             | None => throw (McpError InternalError "Failed to fetch repositories")
             | Some vs => ret (map name vs)
             end)).
  { apply same_run_bind; [apply same_run_listing|].
    intros page. destruct (values page); [apply same_run_ret | apply same_run_throw]. }
  unfold resolve_repositories.
  destruct repositoryList as [[|r rest]|]; auto. apply same_run_ret.
Qed.

(** Against [forgiving R] the operation does what it does against [R]:
    a rejected per-repository request counts as an empty page. *)
Lemma same_run_getPendingReviewPRs (config : Config) workspace limit_arg repositoryList :
  same_run (@getPendingReviewPRs _ R config workspace limit_arg repositoryList)
           (@getPendingReviewPRs _ (forgiving R) config workspace limit_arg repositoryList).
Proof.
  unfold getPendingReviewPRs. cbv zeta.
  apply same_run_try_catch; [|intros e; apply same_run_throw].
  destruct (negb (truthy_string (or_string workspace (defaultWorkspace config))));
    [apply same_run_throw|].
  destruct (negb (truthy_string (username config))); [apply same_run_throw|].
  apply same_run_bind; [apply same_run_resolve|]. intros repos.
  apply same_run_bind; [apply same_run_scan_batches|]. intros acc.
  apply same_run_ret.
Qed.

End Forgiving.

Lemma resolve_listing_trace `{Remote} (wsName : string)
    (repositoryList : option (list string)) (w : World) :
  no_repository_list repositoryList ->
  trace (snd (resolve_repositories wsName repositoryList w))
  = trace w ++ [workspace_listing_request wsName].
Proof.
  intros Hno. now rewrite (resolve_listing wsName repositoryList w Hno).
Qed.

(** ** What the loop accumulates *)

Lemma concat_firstn_length {A} (j : nat) (l : list (list A)) :
  (length (concat (firstn j l)) <= length (concat l))%nat.
Proof.
  revert j. induction l as [|x l IH]; intros [|j]; simpl; try lia.
  rewrite !length_app. specialize (IH j). lia.
Qed.

Section Accumulation.
Context `{Sdk} `{Remote}.
Variables (wsName cur : string) (limit : Z).

Lemma settle_length (s : Service) (slugs : list string) :
  length (fst (settle wsName cur limit s slugs)) = length slugs.
Proof.
  revert s. induction slugs as [|slug rest IH]; intros s; simpl; [reflexivity|].
  now rewrite IH.
Qed.

Lemma settle_app (s : Service) (l1 l2 : list string) :
  settle wsName cur limit s (l1 ++ l2)
  = (fst (settle wsName cur limit s l1)
     ++ fst (settle wsName cur limit (snd (settle wsName cur limit s l1)) l2),
     snd (settle wsName cur limit (snd (settle wsName cur limit s l1)) l2)).
Proof.
  revert s. induction l1 as [|slug l1 IH]; intros s; simpl.
  - now destruct (settle wsName cur limit s l2).
  - now rewrite IH.
Qed.

Lemma settle_firstn (n : nat) (s : Service) (slugs : list string) :
  fst (settle wsName cur limit s (firstn n slugs))
  = firstn n (fst (settle wsName cur limit s slugs)).
Proof.
  revert n s. induction slugs as [|slug rest IH]; intros [|n] s; simpl; try reflexivity.
  now rewrite IH.
Qed.

(** The callbacks of a batch yield what its repositories contribute. *)
Lemma map_all_check_settle (batch : list string) (w : World) :
  map_all (check_repository wsName cur limit) batch w
  = (Return (fst (settle wsName cur limit (service w) batch)),
     {| service := snd (settle wsName cur limit (service w) batch);
        trace := trace w ++ map (open_pullrequests_request wsName limit) batch |}).
Proof.
  revert w. induction batch as [|slug batch IH]; intros w; simpl.
  - unfold ret. rewrite app_nil_r. now destruct w.
  - unfold bind at 1. rewrite check_repository_eq.
    unfold bind at 1. rewrite IH. unfold ret. cbn [service trace].
    now rewrite <- app_assoc.
Qed.

(** The inner loop pushes the lists of a batch in order, up to the one
    with which the limit is reached. *)
Lemma push_results_spec (batchResults : list (list PendingPR)) (acc : list PendingPR) :
  exists j : nat,
    push_results limit batchResults acc = acc ++ concat (firstn j batchResults)
    /\ (reached limit (push_results limit batchResults acc) = true
        \/ j = length batchResults).
Proof.
  revert acc. induction batchResults as [|r rest IH]; intros acc; simpl.
  - exists 0%nat. simpl. rewrite app_nil_r. auto.
  - destruct (reached limit (acc ++ r)) eqn:Hreached.
    + exists 1%nat. simpl. rewrite app_nil_r. auto.
    + destruct (IH (acc ++ r)) as (j & E & Hj).
      exists (S j). simpl. rewrite E, app_assoc. split; [reflexivity|].
      destruct Hj as [Hj | ->]; [left | right]; [rewrite <- E; exact Hj | reflexivity].
Qed.

(** The outer loop: it asks the first [5 * k] repositories from [i] on and
    accumulates the first [j] of their contributions; it stops short of the
    end only when the limit is reached. *)
Lemma scan_batches_accumulates (repos : list string) (fuel : nat) :
  forall (i : Z) (acc : list PendingPR) (w : World),
    0 <= i ->
    Z.of_nat (length repos) <= i + 5 * Z.of_nat fuel ->
    exists (k j : nat) (queried : list string),
      queried = firstn (5 * k) (skipn (Z.to_nat i) repos)
      /\ scan_batches wsName cur limit repos fuel i acc w
         = (Return (acc ++ concat (firstn j (contributions wsName cur limit (service w)
                                               queried))),
            {| service := snd (settle wsName cur limit (service w) queried);
               trace := trace w ++ map (open_pullrequests_request wsName limit) queried |})
      /\ (reached limit (acc ++ concat (firstn j (contributions wsName cur limit
                                                   (service w) queried))) = true
          \/ (queried = skipn (Z.to_nat i) repos /\ j = length queried)).
Proof.
  unfold contributions.
  induction fuel as [|fuel IH]; intros i acc w Hi Hfuel; cbn [scan_batches].
  - exists 0%nat, 0%nat, []. unfold ret. simpl.
    rewrite !app_nil_r. split; [reflexivity|]. split; [now destruct w|].
    right. split; [|reflexivity]. symmetry. apply skipn_all2. lia.
  - destruct (i <? Z.of_nat (length repos)) eqn:Hlt.
    + apply Z.ltb_lt in Hlt.
      unfold bind. rewrite map_all_check_settle.
      rewrite (slice_batch repos i Hi Hlt).
      set (batch := firstn 5 (skipn (Z.to_nat i) repos)).
      set (ls := fst (settle wsName cur limit (service w) batch)).
      set (w1 := {| service := snd (settle wsName cur limit (service w) batch);
                    trace := trace w ++ map (open_pullrequests_request wsName limit) batch |}).
      destruct (push_results_spec ls acc) as (j1 & Epush & Hj1).
      destruct (reached limit (push_results limit ls acc)) eqn:Hreached.
      * exists 1%nat, j1, batch. unfold ret. fold ls. rewrite <- Epush.
        split; [reflexivity|]. split; [reflexivity|]. left. exact Hreached.
      * destruct Hj1 as [Hj1 | ->]; [discriminate|].
        rewrite firstn_all in Epush.
        destruct (IH (i + batchSize) (push_results limit ls acc) w1)
          as (k & j & queried & Equeried & Escan & Hend);
          [unfold batchSize; lia | unfold batchSize; lia |].
        assert (Hskip : skipn (Z.to_nat (i + batchSize)) repos
                        = skipn 5 (skipn (Z.to_nat i) repos)).
        { rewrite skipn_skipn. f_equal. unfold batchSize. lia. }
        assert (Hall : firstn (5 * S k) (skipn (Z.to_nat i) repos) = batch ++ queried).
        { replace (5 * S k)%nat with (5 + 5 * k)%nat by lia.
          rewrite firstn_add. fold batch. now rewrite Equeried, Hskip. }
        assert (Hlen : length ls = length batch) by apply settle_length.
        exists (S k), (length batch + j)%nat, (batch ++ queried).
        split; [now rewrite Hall|].
        rewrite settle_app. cbn [fst snd]. fold ls.
        replace (snd (settle wsName cur limit (service w) batch)) with (service w1)
          by reflexivity.
        rewrite <- Hlen, firstn_app_2, concat_app, app_assoc, <- Epush.
        split.
        -- rewrite Escan. f_equal. unfold w1 at 2. cbn [trace].
           now rewrite map_app, app_assoc.
        -- destruct Hend as [Hend | [Hq Hj]]; [now left | right].
           split.
           ++ rewrite Hq, Hskip. unfold batch. now rewrite firstn_skipn.
           ++ rewrite length_app. lia.
    + exists 0%nat, 0%nat, []. unfold ret. simpl.
      rewrite !app_nil_r. split; [reflexivity|]. split; [now destruct w|].
      right. split; [|reflexivity]. symmetry. apply skipn_all2.
      apply Z.ltb_ge in Hlt. lia.
Qed.

(** For a remote whose answers do not depend on its state, a pull request
    that waits for the user in the page of a repository is among what the
    repositories contribute. *)
Lemma contributions_complete (s0 : Service) (slugs : list string) :
  steady ->
  forall slug s page vs p,
    In slug slugs ->
    fst (respond SPullRequests s (open_pullrequests_request wsName limit slug))
      = Resolved page ->
    values page = Some vs ->
    In p vs ->
    awaits_review cur p = true ->
    In (with_repository wsName slug p) (concat (contributions wsName cur limit s0 slugs)).
Proof.
  intros Hsteady slug s page vs p Hin Hpage Hvs Hp Hawaits.
  unfold contributions. revert s0.
  induction slugs as [|x rest IH]; intros s0; [destruct Hin|].
  simpl. apply in_or_app. destruct Hin as [-> | Hin]; [left | right; apply IH; auto].
  rewrite (Hsteady s0 s), Hpage. simpl. unfold repository_pending. rewrite Hvs.
  apply in_map. apply filter_In. auto.
Qed.

End Accumulation.

(** C5: with the workspace and the user name configured,
    (1) a rejected workspace listing makes the whole operation fail with an
    error;
    (2) once the repositories in scope are known the operation returns,
    whatever the per-repository requests do: for some [k] and [j] it asks the
    first [5 * k] repositories and returns, cut to the limit and sorted, the
    first [j] of the lists they contribute, where it stops short of the whole
    scope only when the limit is reached; it returns the same against a
    remote that answers every rejected per-repository request with an empty
    page;
    (3) when the contributions of the whole scope stay below the limit,
    every repository is asked and the result is the sorted concatenation of
    all contributions, so that, for a remote whose answers do not depend on
    its state, every pull request that has the user as a reviewer who has
    not approved, in the page of a repository that answers, is returned with
    the name of that repository, next to repositories that fail;
    (4) a repository whose request is rejected contributes the empty list,
    and the callback of such a repository yields the empty list. *)
Theorem pending_review_failure_semantics `{Sdk} (R : Remote) (config : Config)
    (workspace : option string) (limit_arg : option Z)
    (repositoryList : option (list string)) (w : @World R) :
  truthy_string (or_string workspace (defaultWorkspace config)) = true ->
  truthy_string (username config) = true ->
  (forall message response_message,
      no_repository_list repositoryList ->
      fst (respond SRepositories (service w)
             (workspace_listing_request (tpl (or_string workspace (defaultWorkspace config)))))
        = Rejected message response_message ->
      fst (getPendingReviewPRs config workspace limit_arg repositoryList w)
        = Throw (McpError InternalError
                   ("Failed to get pending review PRs: " ++ message)))
  /\ (forall repos w1,
        resolve_repositories (tpl (or_string workspace (defaultWorkspace config)))
          repositoryList w = (Return repos, w1) ->
        exists rep w' (k j : nat),
          getPendingReviewPRs config workspace limit_arg repositoryList w
            = (Return (text_result (TextPendingReview rep)), w')
          /\ pending_review_prs rep
             = finalResults (limit_or_default limit_arg)
                 (concat (firstn j
                    (contributions (tpl (or_string workspace (defaultWorkspace config)))
                       (tpl (username config)) (limit_or_default limit_arg)
                       (service w1) (firstn (5 * k) repos))))
          /\ trace w'
             = trace w1
               ++ map (open_pullrequests_request
                         (tpl (or_string workspace (defaultWorkspace config)))
                         (limit_or_default limit_arg)) (firstn (5 * k) repos)
          /\ (reached (limit_or_default limit_arg)
                (concat (firstn j
                   (contributions (tpl (or_string workspace (defaultWorkspace config)))
                      (tpl (username config)) (limit_or_default limit_arg)
                      (service w1) (firstn (5 * k) repos)))) = true
              \/ (firstn (5 * k) repos = repos /\ j = length repos))
          /\ @getPendingReviewPRs _ (forgiving R) config workspace limit_arg repositoryList
               (as_forgiving w)
             = (Return (text_result (TextPendingReview rep)), as_forgiving w'))
  /\ (forall repos w1,
        resolve_repositories (tpl (or_string workspace (defaultWorkspace config)))
          repositoryList w = (Return repos, w1) ->
        Z.of_nat (length (concat
                    (contributions (tpl (or_string workspace (defaultWorkspace config)))
                       (tpl (username config)) (limit_or_default limit_arg)
                       (service w1) repos)))
          < limit_or_default limit_arg ->
        exists rep,
          fst (getPendingReviewPRs config workspace limit_arg repositoryList w)
            = Return (text_result (TextPendingReview rep))
          /\ pending_review_prs rep
             = sort by_updated_desc
                 (concat (contributions
                            (tpl (or_string workspace (defaultWorkspace config)))
                            (tpl (username config)) (limit_or_default limit_arg)
                            (service w1) repos))
          /\ trace (snd (getPendingReviewPRs config workspace limit_arg repositoryList w))
             = trace w1
               ++ map (open_pullrequests_request
                         (tpl (or_string workspace (defaultWorkspace config)))
                         (limit_or_default limit_arg)) repos
          /\ (steady ->
              forall slug s page vs p ps x,
                In slug repos ->
                fst (respond SPullRequests s
                       (open_pullrequests_request
                          (tpl (or_string workspace (defaultWorkspace config)))
                          (limit_or_default limit_arg) slug)) = Resolved page ->
                values page = Some vs ->
                In p vs ->
                participants p = Some ps ->
                In x ps ->
                pending_reviewer (tpl (username config)) x ->
                exists e,
                  In e (pending_review_prs rep)
                  /\ pr e = p
                  /\ repo_name (repository e) = slug
                  /\ full_name (repository e)
                     = (tpl (or_string workspace (defaultWorkspace config)) ++ "/" ++ slug)
                         %string))
  /\ (forall slug rest (s : @Service R) message response_message,
        fst (respond SPullRequests s
               (open_pullrequests_request
                  (tpl (or_string workspace (defaultWorkspace config)))
                  (limit_or_default limit_arg) slug))
          = Rejected message response_message ->
        contributions (tpl (or_string workspace (defaultWorkspace config)))
          (tpl (username config)) (limit_or_default limit_arg) s (slug :: rest)
        = [] :: contributions (tpl (or_string workspace (defaultWorkspace config)))
                  (tpl (username config)) (limit_or_default limit_arg)
                  (snd (respond SPullRequests s
                          (open_pullrequests_request
                             (tpl (or_string workspace (defaultWorkspace config)))
                             (limit_or_default limit_arg) slug)))
                  rest)
  /\ (forall slug (w0 : @World R) message response_message,
        fst (respond SPullRequests (service w0)
               (open_pullrequests_request
                  (tpl (or_string workspace (defaultWorkspace config)))
                  (limit_or_default limit_arg) slug))
          = Rejected message response_message ->
        fst (check_repository (tpl (or_string workspace (defaultWorkspace config)))
               (tpl (username config)) (limit_or_default limit_arg) slug w0)
          = Return []).
Proof.
  intros Hws Hu.
  set (wsName := tpl (or_string workspace (defaultWorkspace config))).
  set (cur := tpl (username config)).
  set (limit := limit_or_default limit_arg).
  assert (Hrun : forall repos w1,
            resolve_repositories wsName repositoryList w = (Return repos, w1) ->
            exists (k j : nat),
              getPendingReviewPRs config workspace limit_arg repositoryList w
              = (Return (text_result (TextPendingReview
                           (report wsName cur limit repos
                              (concat (firstn j (contributions wsName cur limit (service w1)
                                                   (firstn (5 * k) repos))))))),
                 {| service := snd (settle wsName cur limit (service w1)
                                      (firstn (5 * k) repos));
                    trace := trace w1
                             ++ map (open_pullrequests_request wsName limit)
                                  (firstn (5 * k) repos) |})
              /\ (reached limit
                    (concat (firstn j (contributions wsName cur limit (service w1)
                                         (firstn (5 * k) repos)))) = true
                  \/ (firstn (5 * k) repos = repos /\ j = length repos))).
  { intros repos w1 Hres.
    destruct (scan_batches_accumulates wsName cur limit repos (length repos) 0 [] w1)
      as (k & j & queried & Equeried & Escan & Hend); [lia | lia |].
    change (skipn (Z.to_nat 0) repos) with repos in Equeried, Hend.
    cbn [app] in Escan, Hend. subst queried.
    exists k, j. split.
    - unfold getPendingReviewPRs, try_catch. cbv zeta.
      rewrite Hws, Hu. cbn [negb]. fold wsName cur limit.
      unfold bind at 1. rewrite Hres.
      unfold bind at 1. rewrite Escan. reflexivity.
    - destruct Hend as [Hend | [Hq Hj]]; [now left | right].
      split; [exact Hq|]. rewrite Hj. now rewrite Hq. }
  split; [|split; [|split; [|split]]].
  - intros message rm Hno Hrej.
    pose proof (resolve_listing wsName repositoryList w Hno) as Hres.
    rewrite Hrej in Hres.
    now rewrite (getPendingReviewPRs_unresolved config workspace limit_arg
                   repositoryList w _ _ Hws Hu Hres).
  - intros repos w1 Hres.
    destruct (Hrun repos w1 Hres) as (k & j & E & Hend).
    eexists; eexists; exists k, j. split; [exact E|].
    split; [reflexivity|]. split; [reflexivity|]. split; [exact Hend|].
    rewrite (same_run_getPendingReviewPRs R config workspace limit_arg repositoryList w).
    now rewrite E.
  - intros repos w1 Hres Hbelow.
    destruct (Hrun repos w1 Hres) as (k & j & E & Hend).
    assert (Hall : firstn (5 * k) repos = repos /\ j = length repos).
    { destruct Hend as [Hreached | Hall]; [exfalso | exact Hall].
      unfold reached in Hreached. apply Z.geb_le in Hreached.
      unfold contributions in Hreached, Hbelow.
      rewrite settle_firstn, firstn_firstn in Hreached.
      pose proof (concat_firstn_length (Nat.min j (5 * k))
                    (fst (settle wsName cur limit (service w1) repos))).
      lia. }
    destruct Hall as [Hq ->]. rewrite Hq in E.
    assert (Hfull : firstn (length repos) (contributions wsName cur limit (service w1) repos)
                    = contributions wsName cur limit (service w1) repos).
    { apply firstn_all2. unfold contributions. now rewrite settle_length. }
    rewrite Hfull in E. rewrite E. cbn [fst snd trace].
    assert (Hfinal : finalResults limit
                       (concat (contributions wsName cur limit (service w1) repos))
                     = sort by_updated_desc
                         (concat (contributions wsName cur limit (service w1) repos))).
    { unfold finalResults. rewrite slice_prefix_firstn by lia.
      now rewrite firstn_all2 by lia. }
    eexists. split; [reflexivity|]. cbn [report pending_review_prs].
    split; [exact Hfinal|]. split; [reflexivity|].
    intros Hsteady slug s page vs p ps x Hin Hpage Hvs Hp Hps Hx Hpending.
    exists (with_repository wsName slug p). split; [|now split].
    rewrite Hfinal. apply sort_In.
    eapply contributions_complete; eauto.
    apply awaits_review_spec. now exists ps, x.
  - intros slug rest s message rm Hrej.
    unfold contributions. cbn [settle fst snd]. now rewrite Hrej.
  - intros slug w0 message rm Hrej.
    rewrite check_repository_eq. cbn [fst]. now rewrite Hrej.
Qed.

Lemma pending_review_failure_semantics_witness :
  truthy_string (or_string None (defaultWorkspace Samples.alice_config)) = true
  /\ truthy_string (username Samples.alice_config) = true
  /\ fst (@getPendingReviewPRs Samples.sdk Samples.down Samples.alice_config
            None None None (Samples.start Samples.down tt))
     = Throw (McpError InternalError
                "Failed to get pending review PRs: Request failed with status code 500")
  /\ (exists rep,
        fst (@getPendingReviewPRs Samples.sdk Samples.flaky Samples.alice_config
               None None None (Samples.start Samples.flaky tt))
        = Return (text_result (TextPendingReview rep))
        /\ exists e,
             In e (pending_review_prs rep)
             /\ pr e = Samples.pull_request 1 100 [Samples.reviewer "alice" false]
             /\ repo_name (repository e) = "web"
             /\ full_name (repository e) = "acme/web")
  /\ fst (@check_repository Samples.flaky "acme" "alice" 50 "api"
            (Samples.start Samples.flaky tt)) = Return [].
Proof.
  destruct (@pending_review_failure_semantics Samples.sdk Samples.down
              Samples.alice_config None None None (Samples.start Samples.down tt)
              eq_refl eq_refl) as [Hfatal _].
  destruct (@pending_review_failure_semantics Samples.sdk Samples.flaky
              Samples.alice_config None None None (Samples.start Samples.flaky tt)
              eq_refl eq_refl) as (_ & _ & Hbelow & _ & Hempty).
  split; [reflexivity|]. split; [reflexivity|]. split; [|split].
  - apply (Hfatal _ None); [now left | reflexivity].
  - edestruct (Hbelow ["api"; "web"]%string) as (rep & Hrep & _ & _ & Hreturned);
      [vm_compute; reflexivity | vm_compute; reflexivity |].
    exists rep. split; [exact Hrep|].
    eapply Hreturned with (slug := "web"%string) (s := tt)
                          (x := Samples.reviewer "alice" false).
    + intros s s' q. reflexivity.
    + right. now left.
    + vm_compute. reflexivity.
    + reflexivity.
    + now left.
    + reflexivity.
    + now left.
    + split; [eexists; split; reflexivity | split; reflexivity].
  - eapply (Hempty "api"%string). vm_compute. reflexivity.
Defined.

(** The repository [api] cannot be read, the entries of [web] are returned. *)
Example flaky_returns_the_other_repository :
  exists rep w',
    @getPendingReviewPRs Samples.sdk Samples.flaky Samples.alice_config
      None None None (Samples.start Samples.flaky tt)
    = (Return (text_result (TextPendingReview rep)), w')
    /\ map (fun e => (repo_name (repository e), id (pr e))) (pending_review_prs rep)
       = [("web"%string, 2); ("web"%string, 1)].
Proof.
  eexists; eexists; split; [vm_compute; reflexivity | reflexivity].
Qed.

(** C6, as amended: (1) when a repository list with at least one element is
    given, no request of the operation goes to the listing of the workspace;
    (2) when the list is absent or empty and both the workspace and the user
    name are configured, the first request is the listing of the workspace,
    asking for a page of 100, and no later request goes there. *)
Theorem workspace_listing_requests `{Sdk} `{Remote} (config : Config)
    (workspace : option string) (limit_arg : option Z)
    (repositoryList : option (list string)) (w : World) :
  (forall r rest,
      repositoryList = Some (r :: rest) ->
      forall q,
        In q (issued_by (getPendingReviewPRs config workspace limit_arg repositoryList) w) ->
        req_url q <> workspace_url (tpl (or_string workspace (defaultWorkspace config)))
        /\ forall ws', q <> workspace_listing_request ws')
  /\ (no_repository_list repositoryList ->
      truthy_string (or_string workspace (defaultWorkspace config)) = true ->
      truthy_string (username config) = true ->
      exists others,
        issued_by (getPendingReviewPRs config workspace limit_arg repositoryList) w
        = workspace_listing_request (tpl (or_string workspace (defaultWorkspace config)))
          :: others
        /\ (forall q, In q others ->
              req_url q <> workspace_url (tpl (or_string workspace (defaultWorkspace config)))
              /\ forall ws', q <> workspace_listing_request ws')
        /\ assoc "pagelen"
             (req_params (workspace_listing_request
                            (tpl (or_string workspace (defaultWorkspace config)))))
           = Some (JNum 100)).
Proof.
  split.
  - intros r rest -> q Hq.
    destruct (truthy_string (or_string workspace (defaultWorkspace config))) eqn:Hws;
      [destruct (truthy_string (username config)) eqn:Hu|].
    + destruct (getPendingReviewPRs_resolved config workspace limit_arg (Some (r :: rest))
                  w w (r :: rest) Hws Hu (resolve_given _ _ _ _))
        as (acc & w' & slugs & E & _ & Ht & _).
      rewrite (issued_by_app _ w _ (eq_trans (f_equal (fun o => trace (snd o)) E) Ht)) in Hq.
      eapply scan_requests_not_listing; eauto.
    + destruct (getPendingReviewPRs_unconfigured config workspace limit_arg
                  (Some (r :: rest)) w (or_intror Hu)) as [m E].
      rewrite (issued_by_app _ w []) in Hq by (rewrite E; simpl; now rewrite app_nil_r).
      destruct Hq.
    + destruct (getPendingReviewPRs_unconfigured config workspace limit_arg
                  (Some (r :: rest)) w (or_introl Hws)) as [m E].
      rewrite (issued_by_app _ w []) in Hq by (rewrite E; simpl; now rewrite app_nil_r).
      destruct Hq.
  - intros Hno Hws Hu.
    pose proof (resolve_listing_trace (tpl (or_string workspace (defaultWorkspace config)))
                  repositoryList w Hno) as Ht1.
    destruct (resolve_repositories (tpl (or_string workspace (defaultWorkspace config)))
                repositoryList w) as [[repos|e] w1] eqn:Hres; simpl in Ht1.
    + destruct (getPendingReviewPRs_resolved config workspace limit_arg repositoryList
                  w w1 repos Hws Hu Hres) as (acc & w' & slugs & E & _ & Ht & _).
      exists (map (open_pullrequests_request
                     (tpl (or_string workspace (defaultWorkspace config)))
                     (limit_or_default limit_arg)) slugs).
      split; [|split; [|reflexivity]].
      * apply issued_by_app. rewrite E. simpl. rewrite Ht, Ht1.
        now rewrite <- app_assoc.
      * intros q Hq. eapply scan_requests_not_listing; eauto.
    + exists []. split; [|split; [|reflexivity]].
      * apply issued_by_app.
        now rewrite (getPendingReviewPRs_unresolved config workspace limit_arg
                       repositoryList w _ _ Hws Hu Hres).
      * intros q [].
Qed.

Lemma workspace_listing_requests_witness :
  (forall q,
      In q (issued_by (@getPendingReviewPRs Samples.sdk Samples.busy Samples.alice_config
                         None None (Some ["api"%string; "web"%string]))
              (Samples.start Samples.busy tt)) ->
      req_url q <> workspace_url "acme")
  /\ exists others,
       issued_by (@getPendingReviewPRs Samples.sdk Samples.busy Samples.alice_config
                    None None None) (Samples.start Samples.busy tt)
       = workspace_listing_request "acme" :: others
       /\ forall q, In q others -> req_url q <> workspace_url "acme".
Proof.
  split.
  - intros q Hq.
    destruct (@workspace_listing_requests Samples.sdk Samples.busy Samples.alice_config
                None None (Some ["api"%string; "web"%string])
                (Samples.start Samples.busy tt)) as [Hnever _].
    exact (proj1 (Hnever _ _ eq_refl q Hq)).
  - destruct (@workspace_listing_requests Samples.sdk Samples.busy Samples.alice_config
                None None None (Samples.start Samples.busy tt)) as [_ Honce].
    destruct (Honce (or_introl eq_refl) eq_refl eq_refl) as (others & E & Hothers & _).
    exists others. split; [exact E|].
    intros q Hq. exact (proj1 (Hothers q Hq)).
Defined.

(** C6 as stated fails when no user name is configured (a token is enough
    for the constructor): without a repository list the operation stops
    before it has requested anything. *)
Lemma no_username_no_listing_request :
  valid_config Samples.token_config = true
  /\ no_repository_list None
  /\ issued_by (@getPendingReviewPRs Samples.sdk Samples.busy Samples.token_config
                  None None None) (Samples.start Samples.busy tt) = []
  /\ ~ In (workspace_listing_request "acme")
          (trace (snd (@getPendingReviewPRs Samples.sdk Samples.busy Samples.token_config
                         None None None (Samples.start Samples.busy tt)))).
Proof.
  split; [reflexivity|]. split; [now left|]. split; [reflexivity|].
  intros [].
Qed.

(** ** Passthrough tools *)

Section Passthrough.
Context `{Sdk} `{Remote}.

Lemma api_request_run (k : Shape) (q : Request) (w : World) :
  api_request k q w
  = (match fst (respond k (service w) q) with
     | Resolved d => Return d
     | Rejected message response_message => Throw (AxiosError message response_message)
     end,
     {| service := snd (respond k (service w) q); trace := trace w ++ [q] |}).
Proof.
  unfold api_request. destruct (respond k (service w) q) as [[d|m rm] s']; reflexivity.
Qed.

(** A handler that sends one request and wraps its failure. *)
Lemma single_request_run (k : Shape) (wrap : data_of k -> ToolText) (q : Request)
    (what : string) (w : World) :
  try_catch (response <- api_request k q ;; ret (text_result (wrap response)))
    (rethrow_internal what) w
  = (match fst (respond k (service w) q) with
     | Resolved d => Return (text_result (wrap d))
     | Rejected message _ =>
         Throw (McpError InternalError (what ++ ": " ++ message))
     end,
     {| service := snd (respond k (service w) q); trace := trace w ++ [q] |}).
Proof.
  unfold try_catch, bind, api_request, ret, rethrow_internal, throw.
  destruct (respond k (service w) q) as [[d|m rm] s']; reflexivity.
Qed.

Lemma getRepository_run (workspace repo_slug : option string) (w : World) :
  getRepository workspace repo_slug w
  = (match fst (respond SJson (service w)
                  (get_request (repository_url workspace repo_slug))) with
     | Resolved d => Return (text_result (TextJson d))
     | Rejected message _ =>
         Throw (McpError InternalError ("Failed to get repository: " ++ message))
     end,
     {| service := snd (respond SJson (service w)
                          (get_request (repository_url workspace repo_slug)));
        trace := trace w ++ [get_request (repository_url workspace repo_slug)] |}).
Proof. apply (single_request_run SJson TextJson). Qed.

Lemma createPullRequest_run workspace repo_slug title description sourceBranch
    targetBranch reviewers draft (w : World) :
  createPullRequest workspace repo_slug title description sourceBranch targetBranch
    reviewers draft w
  = (match fst (respond SJson (service w)
                  (post_request (pullrequests_url workspace repo_slug)
                     (pull_request_body title description sourceBranch targetBranch
                        reviewers draft))) with
     | Resolved d => Return (text_result (TextJson d))
     | Rejected message _ =>
         Throw (McpError InternalError ("Failed to create pull request: " ++ message))
     end,
     {| service := snd (respond SJson (service w)
                          (post_request (pullrequests_url workspace repo_slug)
                             (pull_request_body title description sourceBranch
                                targetBranch reviewers draft)));
        trace := trace w
                 ++ [post_request (pullrequests_url workspace repo_slug)
                       (pull_request_body title description sourceBranch targetBranch
                          reviewers draft)] |}).
Proof. apply (single_request_run SJson TextJson). Qed.

Lemma addPullRequestComment_run workspace repo_slug pull_request_id content inline
    pending (w : World) :
  addPullRequestComment workspace repo_slug pull_request_id content inline pending w
  = (match fst (respond SJson (service w)
                  (post_request (comments_url workspace repo_slug pull_request_id)
                     (commentData content inline pending))) with
     | Resolved d => Return (text_result (TextJson d))
     | Rejected message _ =>
         Throw (McpError InternalError ("Failed to add pull request comment: " ++ message))
     end,
     {| service := snd (respond SJson (service w)
                          (post_request (comments_url workspace repo_slug pull_request_id)
                             (commentData content inline pending)));
        trace := trace w
                 ++ [post_request (comments_url workspace repo_slug pull_request_id)
                       (commentData content inline pending)] |}).
Proof. apply (single_request_run SJson TextJson). Qed.

(** A handler that wraps another one adds no request. *)
Lemma wrapped_run {A} (m : M A) (what : string) (w : World) :
  try_catch m (rethrow_internal what) w
  = (match fst (m w) with
     | Return a => Return a
     | Throw e => Throw (McpError InternalError (what ++ ": " ++ error_message e))
     end, snd (m w)).
Proof.
  unfold try_catch, rethrow_internal, throw.
  destruct (m w) as [[a|e] w1]; reflexivity.
Qed.

(** The dispatcher hands on what a handler throws when it is an [McpError]. *)
Lemma callTool_mcp (config : Config) (tool : Tool) (args : Args) (w : World) :
  (forall e, fst (dispatch config tool args w) = Throw e -> exists c m, e = McpError c m) ->
  callTool config tool args w = dispatch config tool args w.
Proof.
  intros Hmcp. unfold callTool, try_catch.
  destruct (dispatch config tool args w) as [[r|e] w1] eqn:E; [reflexivity|].
  destruct (Hmcp e eq_refl) as (c & m & ->). reflexivity.
Qed.

End Passthrough.

(** C3, as amended: a passthrough tool does not check its required
    arguments before it sends its request.  Called through the dispatcher
    with any arguments, [getRepository] sends exactly one request, a GET on
    [/repositories/{workspace}/{repo_slug}] in which a missing argument reads
    [undefined]; it returns the answer if there is one, and otherwise fails
    with [InternalError]. *)
Theorem getRepository_requests_unchecked `{Sdk} `{Remote} (config : Config)
    (args : Args) (w : World) :
  issued_by (callTool config GetRepository args) w
  = [get_request (repository_url (arg_workspace args) (arg_repo_slug args))]
  /\ (arg_repo_slug args = None ->
      repository_url (arg_workspace args) (arg_repo_slug args)
      = ("/repositories/" ++ tpl (arg_workspace args) ++ "/undefined")%string)
  /\ match fst (callTool config GetRepository args w) with
     | Return r =>
         exists data,
           fst (respond SJson (service w)
                  (get_request (repository_url (arg_workspace args) (arg_repo_slug args))))
           = Resolved data
           /\ r = text_result (TextJson data)
     | Throw e =>
         exists message response_message,
           fst (respond SJson (service w)
                  (get_request (repository_url (arg_workspace args) (arg_repo_slug args))))
           = Rejected message response_message
           /\ e = McpError InternalError ("Failed to get repository: " ++ message)
     end.
Proof.
  assert (E : callTool config GetRepository args w
              = getRepository (arg_workspace args) (arg_repo_slug args) w).
  { rewrite callTool_mcp; [reflexivity|].
    intros e. simpl. rewrite getRepository_run. cbn [fst].
    destruct (fst (respond SJson _ _)); [discriminate|].
    intros [= <-]. eauto. }
  split; [|split].
  - apply issued_by_app. rewrite E, getRepository_run. reflexivity.
  - intros ->. reflexivity.
  - rewrite E, getRepository_run. cbn [fst].
    destruct (fst (respond SJson _ _)) as [d|m rm]; eauto.
Qed.

Lemma getRepository_requests_unchecked_witness :
  arg_repo_slug Samples.workspace_only = None
  /\ issued_by (@callTool Samples.sdk Samples.down Samples.alice_config GetRepository
                  Samples.workspace_only) (Samples.start Samples.down tt)
     = [get_request "/repositories/acme/undefined"].
Proof.
  split; [reflexivity|].
  exact (proj1 (@getRepository_requests_unchecked Samples.sdk Samples.down
                  Samples.alice_config Samples.workspace_only
                  (Samples.start Samples.down tt))).
Defined.

(** C3 as stated fails: [getRepository] called without [repo_slug] sends
    [GET /repositories/acme/undefined] and returns the answer; when the
    request is rejected the error is an [InternalError]. *)
Lemma getRepository_without_repo_slug :
  arg_repo_slug Samples.workspace_only = None
  /\ @callTool Samples.sdk Samples.healthy Samples.alice_config GetRepository
       Samples.workspace_only (Samples.start Samples.healthy tt)
     = (Return (text_result (TextJson (JObj [("ok"%string, JBool true)]))),
        @Build_World Samples.healthy tt [get_request "/repositories/acme/undefined"])
  /\ @callTool Samples.sdk Samples.down Samples.alice_config GetRepository
       Samples.workspace_only (Samples.start Samples.down tt)
     = (Throw (McpError InternalError
                 "Failed to get repository: Request failed with status code 500"),
        @Build_World Samples.down tt [get_request "/repositories/acme/undefined"]).
Proof. repeat split; reflexivity. Qed.

(** C9: whatever the arguments, [createPullRequest] and
    [createDraftPullRequest], called directly or through the dispatcher,
    send exactly one request, a POST whose body has [close_source_branch]
    set to [true]; no argument reaches that field. *)
Theorem pull_request_closes_source_branch `{Sdk} `{Remote} (config : Config)
    (args : Args) (w : World) :
  let body draft :=
    pull_request_body (arg_title args) (arg_description args) (arg_sourceBranch args)
      (arg_targetBranch args) (arg_reviewers args) draft in
  let url := pullrequests_url (arg_workspace args) (arg_repo_slug args) in
  issued_by (createPullRequest (arg_workspace args) (arg_repo_slug args) (arg_title args)
               (arg_description args) (arg_sourceBranch args) (arg_targetBranch args)
               (arg_reviewers args) (arg_draft args)) w
  = [post_request url (body (arg_draft args))]
  /\ issued_by (callTool config CreatePullRequest args) w
     = [post_request url (body (arg_draft args))]
  /\ issued_by (createDraftPullRequest (arg_workspace args) (arg_repo_slug args)
                  (arg_title args) (arg_description args) (arg_sourceBranch args)
                  (arg_targetBranch args) (arg_reviewers args)) w
     = [post_request url (body (Some true))]
  /\ issued_by (callTool config CreateDraftPullRequest args) w
     = [post_request url (body (Some true))]
  /\ forall draft, get_field "close_source_branch" (body draft) = Some (JBool true).
Proof.
  intros body url.
  assert (Hcreate : forall draft,
            trace (snd (createPullRequest (arg_workspace args) (arg_repo_slug args)
                          (arg_title args) (arg_description args) (arg_sourceBranch args)
                          (arg_targetBranch args) (arg_reviewers args) draft w))
            = trace w ++ [post_request url (body draft)]).
  { intros draft. now rewrite createPullRequest_run. }
  assert (Hdraft :
            trace (snd (createDraftPullRequest (arg_workspace args) (arg_repo_slug args)
                          (arg_title args) (arg_description args) (arg_sourceBranch args)
                          (arg_targetBranch args) (arg_reviewers args) w))
            = trace w ++ [post_request url (body (Some true))]).
  { unfold createDraftPullRequest. rewrite wrapped_run. cbn [snd]. apply Hcreate. }
  repeat split.
  - apply issued_by_app, Hcreate.
  - apply issued_by_app. rewrite callTool_mcp; [apply Hcreate|].
    intros e. simpl. rewrite createPullRequest_run. cbn [fst].
    destruct (fst (respond SJson _ _)); [discriminate|]. intros [= <-]. eauto.
  - apply issued_by_app, Hdraft.
  - apply issued_by_app. rewrite callTool_mcp; [apply Hdraft|].
    intros e. simpl. unfold createDraftPullRequest. rewrite wrapped_run. cbn [fst].
    destruct (fst (createPullRequest _ _ _ _ _ _ _ _ w)); [discriminate|].
    intros [= <-]. eauto.
Qed.

(** C10, as amended: [addPendingPullRequestComment] sends the request that
    [addPullRequestComment] sends with [pending = true] and leaves the same
    world; when the latter returns, the former returns the same result; when
    the latter throws, the former throws an [InternalError] whose message is
    the latter's error message behind one more prefix. *)
Theorem pending_comment_refines_comment `{Sdk} `{Remote}
    (workspace repo_slug pull_request_id content : option string)
    (inline : option Inline) (w : World) :
  snd (addPendingPullRequestComment workspace repo_slug pull_request_id content inline w)
  = snd (addPullRequestComment workspace repo_slug pull_request_id content inline
           (Some true) w)
  /\ issued_by (addPendingPullRequestComment workspace repo_slug pull_request_id content
                  inline) w
     = [post_request (comments_url workspace repo_slug pull_request_id)
          (commentData content inline (Some true))]
  /\ issued_by (addPullRequestComment workspace repo_slug pull_request_id content inline
                  (Some true)) w
     = [post_request (comments_url workspace repo_slug pull_request_id)
          (commentData content inline (Some true))]
  /\ get_field "pending" (commentData content inline (Some true)) = Some (JBool true)
  /\ match fst (addPullRequestComment workspace repo_slug pull_request_id content inline
                  (Some true) w) with
     | Return r =>
         fst (addPendingPullRequestComment workspace repo_slug pull_request_id content
                inline w) = Return r
     | Throw e =>
         fst (addPendingPullRequestComment workspace repo_slug pull_request_id content
                inline w)
         = Throw (McpError InternalError
                    ("Failed to add pending pull request comment: " ++ error_message e))
     end.
Proof.
  unfold addPendingPullRequestComment. rewrite wrapped_run. cbn [fst snd].
  split; [reflexivity|]. split; [|split; [|split]].
  - apply issued_by_app. rewrite wrapped_run. cbn [snd].
    now rewrite addPullRequestComment_run.
  - apply issued_by_app. now rewrite addPullRequestComment_run.
  - reflexivity.
  - destruct (fst (addPullRequestComment _ _ _ _ _ _ w)); reflexivity.
Qed.

(** C10 as stated fails when the request is rejected: the two operations
    throw errors with different messages. *)
Lemma pending_comment_error_differs :
  fst (@addPendingPullRequestComment Samples.sdk Samples.down
         (Some "acme") (Some "api") (Some "7") (Some "please rename") None
         (Samples.start Samples.down tt))
  = Throw (McpError InternalError
             "Failed to add pending pull request comment: MCP error -32603: Failed to add pull request comment: Request failed with status code 500")
  /\ fst (@addPullRequestComment Samples.sdk Samples.down
            (Some "acme") (Some "api") (Some "7") (Some "please rename") None (Some true)
            (Samples.start Samples.down tt))
     = Throw (McpError InternalError
                "Failed to add pull request comment: Request failed with status code 500")
  /\ fst (@addPendingPullRequestComment Samples.sdk Samples.down
            (Some "acme") (Some "api") (Some "7") (Some "please rename") None
            (Samples.start Samples.down tt))
     <> fst (@addPullRequestComment Samples.sdk Samples.down
               (Some "acme") (Some "api") (Some "7") (Some "please rename") None
               (Some true) (Samples.start Samples.down tt)).
Proof.
  split; [reflexivity|]. split; [reflexivity|].
  vm_compute. discriminate.
Qed.

(** ** Diff retrieval and publication of pending comments *)

(** C7: when the pull request resource that the first request fetches
    carries the source commit hash [S] and the destination commit hash [D],
    [getPullRequestDiff] sends exactly one more request: a GET whose URL
    holds [S], [%0D], [D] and then the query [from_pullrequest_id] with the
    pull request id, with the header [Accept: text/plain] and at most 5
    redirects; the body of the answer to it is the text of the result. *)
Theorem diff_request_from_commit_hashes `{Sdk} `{Remote}
    (workspace repo_slug pull_request_id : option string) (w : World)
    (resource : PullRequestResource) (S D : string) :
  fst (respond SPullRequest (service w)
         (get_request (pullrequest_url workspace repo_slug pull_request_id)))
    = Resolved resource ->
  source resource = Some {| commit := Some {| hash := Some S |} |} ->
  destination resource = Some {| commit := Some {| hash := Some D |} |} ->
  exists second,
    issued_by (getPullRequestDiff workspace repo_slug pull_request_id) w
    = [get_request (pullrequest_url workspace repo_slug pull_request_id); second]
    /\ req_method second = GET
    /\ req_url second
       = ("/repositories/" ++ tpl workspace ++ "/" ++ tpl repo_slug ++ "/diff/"
          ++ tpl workspace ++ "/" ++ tpl repo_slug ++ ":" ++ S ++ "%0D" ++ D
          ++ "?from_pullrequest_id=" ++ tpl pull_request_id ++ "&topic=true")%string
    /\ req_headers second = [("Accept", "text/plain")]%string
    /\ req_maxRedirects second = Some 5
    /\ req_responseType second = Some "text"%string
    /\ forall body,
         fst (respond SText
                (snd (respond SPullRequest (service w)
                        (get_request (pullrequest_url workspace repo_slug pull_request_id))))
                second) = Resolved body ->
         fst (getPullRequestDiff workspace repo_slug pull_request_id w)
         = Return (text_result (TextRaw body)).
Proof.
  intros Hfirst Hsrc Hdst.
  exists (diff_request (diff_url workspace repo_slug (Some S) (Some D) pull_request_id)).
  set (first := get_request (pullrequest_url workspace repo_slug pull_request_id)) in *.
  set (second := diff_request
                   (diff_url workspace repo_slug (Some S) (Some D) pull_request_id)).
  assert (Hrun : getPullRequestDiff workspace repo_slug pull_request_id w
                 = (match fst (respond SText (snd (respond SPullRequest (service w) first))
                                 second) with
                    | Resolved body => Return (text_result (TextRaw body))
                    | Rejected message _ =>
                        Throw (McpError InternalError
                                 ("Failed to get pull request diff: " ++ message))
                    end,
                    {| service := snd (respond SText
                                         (snd (respond SPullRequest (service w) first))
                                         second);
                       trace := (trace w ++ [first]) ++ [second] |})).
  { unfold getPullRequestDiff, try_catch. fold first.
    unfold bind at 1. rewrite api_request_run, Hfirst.
    unfold bind at 1. rewrite Hsrc. cbn [commit_hash commit hash]. unfold ret at 1.
    unfold bind at 1. rewrite Hdst. cbn [commit_hash commit hash]. unfold ret at 1.
    fold second. unfold bind at 1. rewrite api_request_run. cbn [service trace].
    destruct (fst (respond SText _ second)); reflexivity. }
  repeat split.
  - apply issued_by_app. rewrite Hrun. cbn [snd trace]. now rewrite <- app_assoc.
  - intros body Hbody. rewrite Hrun. cbn [fst]. now rewrite Hbody.
Qed.

Lemma diff_request_from_commit_hashes_witness :
  exists second,
    issued_by (@getPullRequestDiff Samples.sdk Samples.healthy
                 (Some "acme") (Some "api") (Some "7")) (Samples.start Samples.healthy tt)
    = [get_request "/repositories/acme/api/pullrequests/7"; second]
    /\ req_url second
       = "/repositories/acme/api/diff/acme/api:abc123%0Ddef456?from_pullrequest_id=7&topic=true"%string
    /\ fst (@getPullRequestDiff Samples.sdk Samples.healthy
              (Some "acme") (Some "api") (Some "7") (Samples.start Samples.healthy tt))
       = Return (text_result (TextRaw "diff --git a/f b/f")).
Proof.
  destruct (@diff_request_from_commit_hashes Samples.sdk Samples.healthy
              (Some "acme"%string) (Some "api"%string) (Some "7"%string)
              (Samples.start Samples.healthy tt) _ "abc123" "def456"
              eq_refl eq_refl eq_refl)
    as (second & Hissued & _ & Hurl & _ & _ & _ & Hbody).
  exists second. split; [exact Hissued|]. split; [exact Hurl|].
  apply Hbody. reflexivity.
Defined.

(** C8: when the listing of a pull request's comments has no comment with
    [pending = true], [publishPendingComments] returns the message that
    there was nothing to publish; the listing is the only request it sends,
    so it sends no PUT; and the remote is in the state in which the listing
    left it, which is the initial state for a remote whose GET requests
    change nothing. *)
Theorem publish_without_pending_comments `{Sdk} `{Remote}
    (workspace repo_slug pull_request_id : option string) (w : World)
    (page : Page Comment) :
  fst (respond SComments (service w)
         (get_request (comments_url workspace repo_slug pull_request_id)))
    = Resolved page ->
  filter is_pending (match values page with Some l => l | None => [] end) = [] ->
  fst (publishPendingComments workspace repo_slug pull_request_id w)
    = Return (text_result (TextRaw "No pending comments found to publish."))
  /\ issued_by (publishPendingComments workspace repo_slug pull_request_id) w
     = [get_request (comments_url workspace repo_slug pull_request_id)]
  /\ (forall q,
        In q (issued_by (publishPendingComments workspace repo_slug pull_request_id) w) ->
        is_put q = false)
  /\ service (snd (publishPendingComments workspace repo_slug pull_request_id w))
     = snd (respond SComments (service w)
              (get_request (comments_url workspace repo_slug pull_request_id)))
  /\ ((forall k s q, req_method q = GET -> snd (respond k s q) = s) ->
      service (snd (publishPendingComments workspace repo_slug pull_request_id w))
      = service w).
Proof.
  intros Hlisting Hnone.
  assert (Hrun : publishPendingComments workspace repo_slug pull_request_id w
                 = (Return (text_result (TextRaw "No pending comments found to publish.")),
                    {| service :=
                         snd (respond SComments (service w)
                                (get_request (comments_url workspace repo_slug
                                                pull_request_id)));
                       trace := trace w
                                ++ [get_request (comments_url workspace repo_slug
                                                   pull_request_id)] |})).
  { unfold publishPendingComments, try_catch.
    unfold bind at 1. rewrite api_request_run, Hlisting.
    cbv zeta. rewrite Hnone. reflexivity. }
  assert (Hissued : issued_by (publishPendingComments workspace repo_slug pull_request_id) w
                    = [get_request (comments_url workspace repo_slug pull_request_id)]).
  { apply issued_by_app. now rewrite Hrun. }
  split; [now rewrite Hrun|]. split; [exact Hissued|]. split; [|split].
  - rewrite Hissued. intros q [<- | []]. reflexivity.
  - now rewrite Hrun.
  - intros Hread. rewrite Hrun. cbn [snd service]. now apply Hread.
Qed.

Lemma publish_without_pending_comments_witness :
  let comments := [Samples.comment 1 (Some false); Samples.comment 2 None] in
  filter is_pending comments = []
  /\ fst (@publishPendingComments Samples.sdk Samples.comment_store
            (Some "acme") (Some "api") (Some "7")
            (Samples.start Samples.comment_store comments))
     = Return (text_result (TextRaw "No pending comments found to publish."))
  /\ issued_by (@publishPendingComments Samples.sdk Samples.comment_store
                  (Some "acme") (Some "api") (Some "7"))
       (Samples.start Samples.comment_store comments)
     = [get_request "/repositories/acme/api/pullrequests/7/comments"]
  /\ service (snd (@publishPendingComments Samples.sdk Samples.comment_store
                     (Some "acme") (Some "api") (Some "7")
                     (Samples.start Samples.comment_store comments)))
     = comments.
Proof.
  intros comments.
  destruct (@publish_without_pending_comments Samples.sdk Samples.comment_store
              (Some "acme"%string) (Some "api"%string) (Some "7"%string)
              (Samples.start Samples.comment_store comments)
              {| values := Some comments |} eq_refl eq_refl)
    as (Hresult & Hissued & _ & _ & Hstate).
  split; [reflexivity|]. split; [exact Hresult|]. split; [exact Hissued|].
  apply Hstate. intros k s q Hq. simpl. now rewrite Hq.
Defined.

(** With a pending comment the same call does send a PUT, and the comment
    is published on the remote. *)
Example publish_one_pending_comment :
  let comments := [Samples.comment 1 (Some true); Samples.comment 2 None] in
  map is_put
    (issued_by (@publishPendingComments Samples.sdk Samples.comment_store
                  (Some "acme") (Some "api") (Some "7"))
       (Samples.start Samples.comment_store comments))
  = [false; true]
  /\ service (snd (@publishPendingComments Samples.sdk Samples.comment_store
                     (Some "acme") (Some "api") (Some "7")
                     (Samples.start Samples.comment_store comments)))
     = [Samples.comment 1 (Some false); Samples.comment 2 None].
Proof. split; reflexivity. Qed.

(** * Further properties *)

(** ** The scan of getPendingReviewPRs, in more detail *)

Section ScanDetail.
Context `{Sdk} `{Remote}.
Variables (wsName cur : string) (limit : Z).

(** What the callbacks of a batch yield: one list per repository, each
    made of what the reply to its request contributes. *)
Lemma map_all_check_inv (P : PendingPR -> Prop) (batch : list string) (w : World) :
  (forall slug s,
      In slug batch ->
      Forall P (contribution wsName cur slug
                  (fst (respond SPullRequests s
                          (open_pullrequests_request wsName limit slug))))) ->
  exists ls w',
    map_all (check_repository wsName cur limit) batch w = (Return ls, w')
    /\ Forall (Forall P) ls
    /\ length ls = length batch
    /\ trace w' = trace w ++ map (open_pullrequests_request wsName limit) batch.
Proof.
  revert w. induction batch as [|slug batch IH]; intros w HP; simpl.
  - exists [], w. unfold ret. rewrite app_nil_r. repeat split; constructor.
  - unfold bind at 1. rewrite check_repository_eq.
    set (w1 := {| service := _; trace := _ |}).
    destruct (IH w1) as (ls & w' & E & Hls & Hlen & Ht).
    { intros slug' s Hin. apply HP. now right. }
    unfold bind at 1. rewrite E. unfold ret.
    eexists; eexists; split; [reflexivity|]. split; [|split].
    + constructor; [apply HP; now left | exact Hls].
    + simpl. now rewrite Hlen.
    + rewrite Ht. simpl. now rewrite <- app_assoc.
Qed.

Lemma push_results_Forall (P : PendingPR -> Prop) (batchResults : list (list PendingPR))
    (acc : list PendingPR) :
  Forall (Forall P) batchResults -> Forall P acc ->
  Forall P (push_results limit batchResults acc).
Proof.
  revert acc. induction batchResults as [|r rest IH]; intros acc Hb Hacc; simpl; auto.
  inversion Hb; subst.
  assert (Forall P (acc ++ r)) by (apply Forall_app; split; assumption).
  destruct (reached limit (acc ++ r)); auto.
Qed.

(** With a limit that is not positive the first push already reaches it. *)
Lemma push_results_reached (batchResults : list (list PendingPR)) (acc : list PendingPR) :
  limit <= 0 -> batchResults <> [] ->
  reached limit (push_results limit batchResults acc) = true.
Proof.
  intros Hlimit Hne. destruct batchResults as [|r rest]; [congruence|]. simpl.
  assert (Hr : reached limit (acc ++ r) = true).
  { unfold reached. apply Z.geb_le. lia. }
  now rewrite Hr.
Qed.

(** An invariant of the entries is kept by the whole loop. *)
Lemma scan_batches_Forall (P : PendingPR -> Prop) (repos : list string) (fuel : nat) :
  (forall slug s,
      In slug repos ->
      Forall P (contribution wsName cur slug
                  (fst (respond SPullRequests s
                          (open_pullrequests_request wsName limit slug))))) ->
  forall (i : Z) (acc : list PendingPR) (w : World),
    Forall P acc ->
    exists acc' w',
      scan_batches wsName cur limit repos fuel i acc w = (Return acc', w')
      /\ Forall P acc'.
Proof.
  intros HP. induction fuel as [|fuel IH]; intros i acc w Hacc; simpl.
  - exists acc, w. split; [reflexivity | assumption].
  - destruct (i <? Z.of_nat (length repos)).
    + destruct (map_all_check_inv P (slice i (i + batchSize) repos) w)
        as (ls & w1 & E & Hls & _ & _).
      { intros slug s Hin. apply HP. eapply slice_incl; eauto. }
      unfold bind. rewrite E.
      pose proof (push_results_Forall P ls acc Hls Hacc) as Hacc'.
      destruct (reached limit (push_results limit ls acc)).
      * eexists; eexists; split; [reflexivity | assumption].
      * apply IH. assumption.
    + exists acc, w. split; [reflexivity | assumption].
Qed.

(** The loop asks for the pull requests of whole batches, in the order of
    the list: after [k] turns, of the first [5 * k] repositories from [i]. *)
Lemma scan_batches_prefix (repos : list string) (fuel : nat) :
  forall (i : Z) (acc : list PendingPR) (w : World),
    0 <= i ->
    exists acc' w' (k : nat),
      scan_batches wsName cur limit repos fuel i acc w = (Return acc', w')
      /\ trace w' = trace w
                    ++ map (open_pullrequests_request wsName limit)
                         (firstn (5 * k) (skipn (Z.to_nat i) repos))
      /\ (i < Z.of_nat (length repos) -> (1 <= fuel)%nat -> (1 <= k)%nat)
      /\ (limit <= 0 -> (k <= 1)%nat)
      /\ (k = 0%nat \/ i + 5 * (Z.of_nat k - 1) < Z.of_nat (length repos)).
Proof.
  induction fuel as [|fuel IH]; intros i acc w Hi; cbn [scan_batches].
  - exists acc, w, 0%nat. unfold ret. simpl. rewrite app_nil_r.
    repeat split; auto; lia.
  - destruct (i <? Z.of_nat (length repos)) eqn:Hlt.
    + apply Z.ltb_lt in Hlt.
      destruct (map_all_check_inv (fun _ => True) (slice i (i + batchSize) repos) w)
        as (ls & w1 & E & _ & Hlen & Ht).
      { intros slug s _. apply Forall_forall. auto. }
      unfold bind. rewrite E.
      rewrite (slice_batch repos i Hi Hlt) in Ht, Hlen.
      assert (Hne : ls <> []).
      { intros ->. simpl in Hlen. symmetry in Hlen.
        apply length_zero_iff_nil in Hlen.
        assert (Hs : length (skipn (Z.to_nat i) repos) <> 0%nat)
          by (rewrite length_skipn; lia).
        destruct (skipn (Z.to_nat i) repos); [now apply Hs | discriminate]. }
      destruct (reached limit (push_results limit ls acc)) eqn:Hreached.
      * exists (push_results limit ls acc), w1, 1%nat. unfold ret.
        split; [reflexivity|]. split; [exact Ht|].
        split; [intros; lia|]. split; [intros; lia|]. right. lia.
      * destruct (IH (i + batchSize) (push_results limit ls acc) w1)
          as (acc' & w' & k & E' & Ht' & _ & _ & Hlast); [unfold batchSize; lia|].
        exists acc', w', (S k). split; [exact E'|]. split; [|split; [|split]].
        -- rewrite Ht', Ht, <- app_assoc, <- map_app. do 2 f_equal.
           replace (5 * S k)%nat with (5 + 5 * k)%nat by lia.
           rewrite firstn_add, skipn_skipn. do 3 f_equal. unfold batchSize. lia.
        -- lia.
        -- intros Hlimit. rewrite push_results_reached in Hreached by assumption.
           discriminate.
        -- right. unfold batchSize in Hlast. lia.
    + exists acc, w, 0%nat. unfold ret. simpl. rewrite app_nil_r.
      apply Z.ltb_ge in Hlt. repeat split; auto; lia.
Qed.

End ScanDetail.

Section PendingReviewDetail.
Context `{Sdk} `{Remote}.
Variable config : Config.

(** The operation returns the report made from what the loop accumulated. *)
Lemma getPendingReviewPRs_scan workspace limit_arg repositoryList (w w1 w' : World)
    (repos : list string) (acc : list PendingPR) :
  truthy_string (or_string workspace (defaultWorkspace config)) = true ->
  truthy_string (username config) = true ->
  resolve_repositories (tpl (or_string workspace (defaultWorkspace config)))
    repositoryList w = (Return repos, w1) ->
  scan_batches (tpl (or_string workspace (defaultWorkspace config)))
    (tpl (username config)) (limit_or_default limit_arg) repos (length repos) 0 [] w1
    = (Return acc, w') ->
  getPendingReviewPRs config workspace limit_arg repositoryList w
  = (Return (text_result (TextPendingReview
               (report (tpl (or_string workspace (defaultWorkspace config)))
                  (tpl (username config)) (limit_or_default limit_arg) repos acc))), w').
Proof.
  intros Hws Hu Hres Hscan.
  unfold getPendingReviewPRs, try_catch. cbv zeta.
  rewrite Hws, Hu. cbn [negb].
  unfold bind at 1. rewrite Hres.
  unfold bind at 1. rewrite Hscan. reflexivity.
Qed.

Lemma contribution_fetched (wsName cur : string) (limit : Z) (repos : list string)
    (slug : string) (s : Service) :
  In slug repos ->
  Forall (fetched_from wsName limit repos)
    (contribution wsName cur slug
       (fst (respond SPullRequests s (open_pullrequests_request wsName limit slug)))).
Proof.
  intros Hin.
  destruct (fst (respond SPullRequests s _)) as [page|m rm] eqn:E; simpl; [|constructor].
  unfold repository_pending. destruct (values page) as [vs|] eqn:Ev; [|constructor].
  apply Forall_forall. intros e He.
  apply in_map_iff in He as (p & <- & Hp). apply filter_In in Hp as [Hp _].
  exists slug, s, page, vs. repeat split; auto.
Qed.

End PendingReviewDetail.

(** X1: without a workspace (neither the argument nor the default) or
    without a configured user name, [getPendingReviewPRs] requests nothing
    and leaves the world as it is; the [InvalidParams] error of the guard
    does not reach the caller, who gets an [InternalError] whose message
    wraps the message of that error. *)
Theorem pending_review_unconfigured `{Sdk} `{Remote} (config : Config)
    (workspace : option string) (limit_arg : option Z)
    (repositoryList : option (list string)) (w : World) :
  truthy_string (or_string workspace (defaultWorkspace config)) = false
  \/ truthy_string (username config) = false ->
  snd (getPendingReviewPRs config workspace limit_arg repositoryList w) = w
  /\ issued_by (getPendingReviewPRs config workspace limit_arg repositoryList) w = []
  /\ exists guard,
       fst (getPendingReviewPRs config workspace limit_arg repositoryList w)
       = Throw (McpError InternalError
                  ("Failed to get pending review PRs: "
                   ++ McpError_message InvalidParams guard)).
Proof.
  intros Hcfg.
  assert (E : exists guard,
            getPendingReviewPRs config workspace limit_arg repositoryList w
            = (Throw (McpError InternalError
                        ("Failed to get pending review PRs: "
                         ++ McpError_message InvalidParams guard)), w)).
  { unfold getPendingReviewPRs, try_catch. cbv zeta.
    destruct (truthy_string (or_string workspace (defaultWorkspace config))) eqn:Hws.
    - destruct Hcfg as [Hcfg | Hcfg]; [discriminate|]. rewrite Hcfg.
      eexists. reflexivity.
    - eexists. reflexivity. }
  destruct E as [guard E]. rewrite E. split; [reflexivity|]. split.
  - apply issued_by_app. rewrite E. simpl. now rewrite app_nil_r.
  - now exists guard.
Qed.

Lemma pending_review_unconfigured_witness :
  truthy_string (username Samples.token_config) = false
  /\ issued_by (@getPendingReviewPRs Samples.sdk Samples.busy Samples.token_config
                  (Some "acme") None (Some ["api"%string]))
       (Samples.start Samples.busy tt) = [].
Proof.
  split; [reflexivity|].
  exact (proj1 (proj2 (@pending_review_unconfigured Samples.sdk Samples.busy
                         Samples.token_config (Some "acme"%string) None
                         (Some ["api"%string]) (Samples.start Samples.busy tt)
                         (or_intror eq_refl)))).
Defined.

(** X2: once the repositories in scope are known, the requests for pull
    requests go to a prefix of the scope, in the order of the scope, one
    request per repository, in whole batches of five: for some [k], to the
    first [5 * k] repositories.  A scope that is not empty gets at least one
    batch, no batch starts beyond the end of the scope, and with a limit that
    is not positive there is no second batch. *)
Theorem pending_review_queries_prefix `{Sdk} `{Remote} (config : Config)
    (workspace : option string) (limit_arg : option Z)
    (repositoryList : option (list string)) (w w1 : World) (repos : list string) :
  truthy_string (or_string workspace (defaultWorkspace config)) = true ->
  truthy_string (username config) = true ->
  resolve_repositories (tpl (or_string workspace (defaultWorkspace config)))
    repositoryList w = (Return repos, w1) ->
  exists k : nat,
    trace (snd (getPendingReviewPRs config workspace limit_arg repositoryList w))
    = trace w1
      ++ map (open_pullrequests_request
                (tpl (or_string workspace (defaultWorkspace config)))
                (limit_or_default limit_arg))
           (firstn (5 * k) repos)
    /\ (repos <> [] -> (1 <= k)%nat)
    /\ (k = 0%nat \/ (5 * (k - 1) < length repos)%nat)
    /\ (limit_or_default limit_arg <= 0 -> (k <= 1)%nat).
Proof.
  intros Hws Hu Hres.
  destruct (scan_batches_prefix (tpl (or_string workspace (defaultWorkspace config)))
              (tpl (username config)) (limit_or_default limit_arg) repos (length repos)
              0 [] w1 (Z.le_refl 0))
    as (acc & w' & k & Hscan & Ht & Hfirst & Hzero & Hlast).
  exists k.
  rewrite (getPendingReviewPRs_scan config workspace limit_arg repositoryList
             w w1 w' repos acc Hws Hu Hres Hscan).
  split; [exact Ht|]. split; [|split].
  - intros Hne. destruct repos as [|r rest]; [congruence|].
    apply Hfirst; simpl length; lia.
  - destruct k as [|k]; [now left|].
    destruct Hlast as [Hk | Hlast]; [discriminate | right; lia].
  - exact Hzero.
Qed.

Lemma pending_review_queries_prefix_witness :
  exists w1 (k : nat),
    @resolve_repositories MoreSamples.seven_repos "acme" None
      (Samples.start MoreSamples.seven_repos tt)
    = (Return MoreSamples.seven, w1)
    /\ trace (snd (@getPendingReviewPRs Samples.sdk MoreSamples.seven_repos
                     Samples.alice_config None (Some 1) None
                     (Samples.start MoreSamples.seven_repos tt)))
       = trace w1
         ++ map (open_pullrequests_request "acme" 1) (firstn (5 * k) MoreSamples.seven)
    /\ (1 <= k)%nat.
Proof.
  eexists.
  destruct (@pending_review_queries_prefix Samples.sdk MoreSamples.seven_repos
              Samples.alice_config None (Some 1) None
              (Samples.start MoreSamples.seven_repos tt) _ MoreSamples.seven
              eq_refl eq_refl eq_refl) as (k & Ht & Hfirst & _).
  exists k. split; [reflexivity|]. split; [exact Ht|].
  apply Hfirst. discriminate.
Defined.

(** Seven repositories are in scope and counted as searched; the limit of
    one is reached in the first batch, so five of them are asked. *)
Example seven_in_scope_five_asked :
  exists rep w',
    @getPendingReviewPRs Samples.sdk MoreSamples.seven_repos Samples.alice_config
      None (Some 1) None (Samples.start MoreSamples.seven_repos tt)
    = (Return (text_result (TextPendingReview rep)), w')
    /\ searched_repositories rep = 7%nat
    /\ total_found rep = 1%nat
    /\ map req_url (trace w')
       = ["/repositories/acme"; "/repositories/acme/r1/pullrequests";
          "/repositories/acme/r2/pullrequests"; "/repositories/acme/r3/pullrequests";
          "/repositories/acme/r4/pullrequests"; "/repositories/acme/r5/pullrequests"]%string.
Proof.
  eexists; eexists; split; [vm_compute; reflexivity|]. repeat split.
Qed.

(** X3: a limit of zero does not spare the requests: the first batch of up
    to five repositories is still asked, and the list returned is empty. *)
Theorem pending_review_limit_zero `{Sdk} `{Remote} (config : Config)
    (workspace : option string) (repositoryList : option (list string))
    (w w1 : World) (repos : list string) :
  truthy_string (or_string workspace (defaultWorkspace config)) = true ->
  truthy_string (username config) = true ->
  resolve_repositories (tpl (or_string workspace (defaultWorkspace config)))
    repositoryList w = (Return repos, w1) ->
  trace (snd (getPendingReviewPRs config workspace (Some 0) repositoryList w))
  = trace w1
    ++ map (open_pullrequests_request
              (tpl (or_string workspace (defaultWorkspace config))) 0)
         (firstn 5 repos)
  /\ exists rep,
       fst (getPendingReviewPRs config workspace (Some 0) repositoryList w)
       = Return (text_result (TextPendingReview rep))
       /\ pending_review_prs rep = []
       /\ total_found rep = 0%nat.
Proof.
  intros Hws Hu Hres.
  destruct (scan_batches_prefix (tpl (or_string workspace (defaultWorkspace config)))
              (tpl (username config)) 0 repos (length repos) 0 [] w1 (Z.le_refl 0))
    as (acc & w' & k & Hscan & Ht & Hfirst & Hzero & _).
  rewrite (getPendingReviewPRs_scan config workspace (Some 0) repositoryList
             w w1 w' repos acc Hws Hu Hres Hscan).
  cbn [fst snd limit_or_default]. split.
  - rewrite Ht. do 2 f_equal. change (skipn (Z.to_nat 0) repos) with repos.
    destruct repos as [|r rest]; [now rewrite !firstn_nil|].
    assert (k = 1%nat) as ->.
    { specialize (Hzero (Z.le_refl 0)). assert (1 <= k)%nat by (apply Hfirst; simpl; lia).
      lia. }
    reflexivity.
  - eexists. split; [reflexivity|].
    unfold report, finalResults. cbn [pending_review_prs total_found].
    rewrite slice_empty_prefix. split; reflexivity.
Qed.

Lemma pending_review_limit_zero_witness :
  exists w1,
    @resolve_repositories MoreSamples.seven_repos "acme" None
      (Samples.start MoreSamples.seven_repos tt)
    = (Return MoreSamples.seven, w1)
    /\ length (trace (snd (@getPendingReviewPRs Samples.sdk MoreSamples.seven_repos
                             Samples.alice_config None (Some 0) None
                             (Samples.start MoreSamples.seven_repos tt))))
       = 6%nat.
Proof.
  eexists. split; [reflexivity|].
  rewrite (proj1 (@pending_review_limit_zero Samples.sdk MoreSamples.seven_repos
                    Samples.alice_config None None
                    (Samples.start MoreSamples.seven_repos tt) _ MoreSamples.seven
                    eq_refl eq_refl eq_refl)).
  reflexivity.
Defined.

(** X4: every entry that is returned carries a pull request of a page that
    the remote returned for a repository of the scope, and is tagged with
    that repository: its [name] is the repository and its [full_name] is
    the workspace, a slash, and the repository. *)
Theorem pending_review_entries_fetched `{Sdk} `{Remote} (config : Config)
    (workspace : option string) (limit_arg : option Z)
    (repositoryList : option (list string)) (w w1 : World) (repos : list string) :
  truthy_string (or_string workspace (defaultWorkspace config)) = true ->
  truthy_string (username config) = true ->
  resolve_repositories (tpl (or_string workspace (defaultWorkspace config)))
    repositoryList w = (Return repos, w1) ->
  exists rep,
    fst (getPendingReviewPRs config workspace limit_arg repositoryList w)
    = Return (text_result (TextPendingReview rep))
    /\ forall e,
         In e (pending_review_prs rep) ->
         fetched_from (tpl (or_string workspace (defaultWorkspace config)))
           (limit_or_default limit_arg) repos e.
Proof.
  intros Hws Hu Hres.
  destruct (scan_batches_Forall (tpl (or_string workspace (defaultWorkspace config)))
              (tpl (username config)) (limit_or_default limit_arg)
              (fetched_from (tpl (or_string workspace (defaultWorkspace config)))
                 (limit_or_default limit_arg) repos)
              repos (length repos)
              (fun slug s Hin => contribution_fetched _ _ _ repos slug s Hin)
              0 [] w1 (Forall_nil _))
    as (acc & w' & Hscan & Hacc).
  rewrite (getPendingReviewPRs_scan config workspace limit_arg repositoryList
             w w1 w' repos acc Hws Hu Hres Hscan).
  eexists. split; [reflexivity|].
  cbn [pending_review_prs report]. intros e He.
  unfold finalResults in He. apply sort_In in He. apply slice_incl in He.
  rewrite Forall_forall in Hacc. now apply Hacc.
Qed.

Lemma pending_review_entries_fetched_witness :
  exists rep,
    fst (@getPendingReviewPRs Samples.sdk Samples.busy Samples.alice_config
           None None (Some ["web"%string]) (Samples.start Samples.busy tt))
    = Return (text_result (TextPendingReview rep))
    /\ forall e,
         In e (pending_review_prs rep) ->
         @fetched_from Samples.busy "acme" 50 ["web"%string] e.
Proof.
  exact (@pending_review_entries_fetched Samples.sdk Samples.busy Samples.alice_config
           None None (Some ["web"%string]) (Samples.start Samples.busy tt)
           (Samples.start Samples.busy tt) ["web"%string] eq_refl eq_refl eq_refl).
Defined.

(** X5: the cut comes before the sort, so which entries are returned depends
    on the order of accumulation and not on the dates: for a limit that is
    not negative the result is a rearrangement of the first [limit]
    accumulated entries, and for a negative limit of all but the last
    [-limit] of them. *)
Theorem finalResults_keeps_prefix (limit : Z) (pendingPRs : list PendingPR) :
  (0 <= limit ->
   Permutation (finalResults limit pendingPRs) (firstn (Z.to_nat limit) pendingPRs))
  /\ (limit < 0 ->
      Permutation (finalResults limit pendingPRs)
        (firstn (length pendingPRs - Z.to_nat (- limit)) pendingPRs)).
Proof.
  unfold finalResults. split; intros Hlimit.
  - rewrite sort_perm. now rewrite slice_prefix_firstn.
  - rewrite sort_perm, slice_negative_end by assumption.
    replace (Z.to_nat (Z.of_nat (length pendingPRs) + limit))
      with (length pendingPRs - Z.to_nat (- limit))%nat by lia.
    reflexivity.
Qed.

(** Of three accumulated entries updated at 100, 200 and 300, a limit of two
    keeps the first two and returns them as 200, 100: the entry updated last
    is cut. *)
Example finalResults_cuts_the_newest :
  let entry t := with_repository "acme" "api" (Samples.pull_request t t []) in
  map (fun e => updated_on (pr e)) (finalResults 2 [entry 100; entry 200; entry 300])
  = [Some 200; Some 100].
Proof. reflexivity. Qed.

Lemma finalResults_keeps_prefix_witness :
  let entry t := with_repository "acme" "api" (Samples.pull_request t t []) in
  0 <= 2
  /\ Permutation (finalResults 2 [entry 100; entry 200; entry 300])
       [entry 100; entry 200]
  /\ -1 < 0
  /\ Permutation (finalResults (-1) [entry 100; entry 200; entry 300])
       [entry 100; entry 200].
Proof.
  intros entry.
  split; [discriminate|]. split.
  - exact (proj1 (finalResults_keeps_prefix 2 [entry 100; entry 200; entry 300])
             ltac:(discriminate)).
  - split; [reflexivity|].
    exact (proj2 (finalResults_keeps_prefix (-1) [entry 100; entry 200; entry 300])
             eq_refl).
Defined.

(** X6: in the report of a call that returns, [workspace] is the argument
    when that is a non-empty string and the configured default otherwise,
    [user] is the configured user name, [total_found] is the length of the
    list, and [searched_repositories] is the size of the scope (of the given
    list, when one with elements is given), whether or not every repository
    of it was asked. *)
Theorem pending_review_report_metadata `{Sdk} `{Remote} (config : Config)
    (workspace : option string) (limit_arg : option Z)
    (repositoryList : option (list string)) (w w' : World) (r : ToolResult) :
  getPendingReviewPRs config workspace limit_arg repositoryList w = (Return r, w') ->
  exists rep,
    r = text_result (TextPendingReview rep)
    /\ (truthy_string workspace = true -> workspace = Some (review_workspace rep))
    /\ (truthy_string workspace = false ->
        defaultWorkspace config = Some (review_workspace rep))
    /\ username config = Some (review_user rep)
    /\ total_found rep = length (pending_review_prs rep)
    /\ (forall repos w1,
          resolve_repositories (review_workspace rep) repositoryList w = (Return repos, w1) ->
          searched_repositories rep = length repos)
    /\ (forall slug rest,
          repositoryList = Some (slug :: rest) ->
          searched_repositories rep = length (slug :: rest)).
Proof.
  intros Hrun.
  apply getPendingReviewPRs_returns in Hrun
    as (wsName & cur & repos & w1 & acc & slugs & Hws & _ & Hu & _ & Hres & -> & _).
  eexists. split; [reflexivity|]. cbn [report review_workspace review_user total_found
                                        pending_review_prs searched_repositories].
  unfold or_string in Hws.
  split; [|split; [|split; [|split; [|split]]]].
  - intros Ht. now rewrite Ht in Hws.
  - intros Ht. now rewrite Ht in Hws.
  - exact Hu.
  - reflexivity.
  - intros repos' w1' Hres'. congruence.
  - intros slug rest ->. rewrite resolve_given in Hres. congruence.
Qed.

Lemma pending_review_report_metadata_witness :
  exists r w' rep,
    @getPendingReviewPRs Samples.sdk MoreSamples.seven_repos Samples.alice_config
      (Some ""%string) (Some 1) None (Samples.start MoreSamples.seven_repos tt)
    = (Return r, w')
    /\ r = text_result (TextPendingReview rep)
    /\ defaultWorkspace Samples.alice_config = Some (review_workspace rep)
    /\ username Samples.alice_config = Some (review_user rep).
Proof.
  eexists; eexists.
  destruct (@pending_review_report_metadata Samples.sdk MoreSamples.seven_repos
              Samples.alice_config (Some ""%string) (Some 1) None
              (Samples.start MoreSamples.seven_repos tt) _ _
              ltac:(vm_compute; reflexivity))
    as (rep & Hr & _ & Hdefault & Huser & _).
  exists rep. split; [reflexivity|]. split; [exact Hr|].
  split; [apply Hdefault; reflexivity | exact Huser].
Defined.

(** X7: the edge cases of the workspace listing.  When no repository list
    is given and the listing is answered without [values], the operation
    fails after that one request with the error of the guard, wrapped; when
    the listing is answered with no repositories, the operation returns an
    empty report after that one request. *)
Theorem pending_review_listing_edges `{Sdk} `{Remote} (config : Config)
    (workspace : option string) (limit_arg : option Z)
    (repositoryList : option (list string)) (w : World) (page : Page Repository) :
  no_repository_list repositoryList ->
  truthy_string (or_string workspace (defaultWorkspace config)) = true ->
  truthy_string (username config) = true ->
  fst (respond SRepositories (service w)
         (workspace_listing_request (tpl (or_string workspace (defaultWorkspace config)))))
    = Resolved page ->
  (values page = None ->
   issued_by (getPendingReviewPRs config workspace limit_arg repositoryList) w
   = [workspace_listing_request (tpl (or_string workspace (defaultWorkspace config)))]
   /\ fst (getPendingReviewPRs config workspace limit_arg repositoryList w)
      = Throw (McpError InternalError
                 ("Failed to get pending review PRs: "
                  ++ McpError_message InternalError "Failed to fetch repositories")))
  /\ (values page = Some [] ->
      issued_by (getPendingReviewPRs config workspace limit_arg repositoryList) w
      = [workspace_listing_request (tpl (or_string workspace (defaultWorkspace config)))]
      /\ exists rep,
           fst (getPendingReviewPRs config workspace limit_arg repositoryList w)
           = Return (text_result (TextPendingReview rep))
           /\ pending_review_prs rep = []
           /\ total_found rep = 0%nat
           /\ searched_repositories rep = 0%nat).
Proof.
  intros Hno Hws Hu Hpage.
  pose proof (resolve_listing (tpl (or_string workspace (defaultWorkspace config)))
                repositoryList w Hno) as Hres.
  rewrite Hpage in Hres. split; intros Hvalues; rewrite Hvalues in Hres.
  - assert (Hrun := getPendingReviewPRs_unresolved config workspace limit_arg
                      repositoryList w _ _ Hws Hu Hres).
    split; [apply issued_by_app|]; now rewrite Hrun.
  - assert (Hrun := getPendingReviewPRs_scan config workspace limit_arg repositoryList
                      w _ _ [] [] Hws Hu Hres eq_refl).
    split; [apply issued_by_app; now rewrite Hrun|].
    rewrite Hrun. eexists. split; [reflexivity|].
    unfold report, finalResults. cbn [pending_review_prs total_found searched_repositories].
    rewrite slice_nil. repeat split.
Qed.

Lemma pending_review_listing_edges_witness :
  no_repository_list (Some [])
  /\ issued_by (@getPendingReviewPRs Samples.sdk MoreSamples.empty_workspace
                  Samples.alice_config None None (Some []))
       (Samples.start MoreSamples.empty_workspace tt)
     = [workspace_listing_request "acme"]
  /\ exists rep,
       fst (@getPendingReviewPRs Samples.sdk MoreSamples.empty_workspace
              Samples.alice_config None None (Some [])
              (Samples.start MoreSamples.empty_workspace tt))
       = Return (text_result (TextPendingReview rep))
       /\ pending_review_prs rep = []
       /\ total_found rep = 0%nat
       /\ searched_repositories rep = 0%nat.
Proof.
  split; [now right|].
  exact (proj2 (@pending_review_listing_edges Samples.sdk MoreSamples.empty_workspace
                  Samples.alice_config None None (Some [])
                  (Samples.start MoreSamples.empty_workspace tt)
                  {| values := Some [] |} (or_intror eq_refl) eq_refl eq_refl eq_refl)
           eq_refl).
Defined.

(** ** Publication of pending comments, in more detail *)

Section PublishDetail.
Context `{Sdk} `{Remote}.
Variables workspace repo_slug pull_request_id : option string.

(** One turn of the loop: it sends the PUT and never throws. *)
Lemma publish_one_run (c : Comment) (w : World) :
  publish_one workspace repo_slug pull_request_id c w
  = (Return (match fst (respond SJson (service w)
                          (publish_request workspace repo_slug pull_request_id c)) with
             | Resolved data => Published (comment_id c) data
             | Rejected message _ => PublishFailed (comment_id c) message
             end),
     {| service := snd (respond SJson (service w)
                          (publish_request workspace repo_slug pull_request_id c));
        trace := trace w ++ [publish_request workspace repo_slug pull_request_id c] |}).
Proof.
  unfold publish_one, try_catch, bind. rewrite api_request_run.
  unfold publish_request.
  destruct (fst (respond SJson (service w) _)); reflexivity.
Qed.

Lemma publish_all_run (cs : list Comment) (w : World) :
  exists items w',
    map_all (publish_one workspace repo_slug pull_request_id) cs w = (Return items, w')
    /\ Forall2 (item_of workspace repo_slug pull_request_id) cs items
    /\ trace w' = trace w
                  ++ map (publish_request workspace repo_slug pull_request_id) cs.
Proof.
  revert w. induction cs as [|c cs IH]; intros w; simpl.
  - exists [], w. unfold ret. rewrite app_nil_r. repeat split. constructor.
  - unfold bind at 1. rewrite publish_one_run.
    set (w1 := {| service := _; trace := _ |}).
    destruct (IH w1) as (items & w' & E & Hitems & Ht).
    unfold bind at 1. rewrite E. unfold ret.
    eexists; eexists; split; [reflexivity|]. split.
    + constructor; [|exact Hitems]. split.
      * destruct (fst (respond SJson (service w) _)); reflexivity.
      * exists (service w). reflexivity.
    + rewrite Ht. simpl. now rewrite <- app_assoc.
Qed.

(** The whole operation, once the listing is answered. *)
Lemma publishPendingComments_run (w : World) (page : Page Comment) :
  fst (respond SComments (service w)
         (get_request (comments_url workspace repo_slug pull_request_id)))
    = Resolved page ->
  let pending := filter is_pending (match values page with Some l => l | None => [] end) in
  exists items w',
    Forall2 (item_of workspace repo_slug pull_request_id) pending items
    /\ trace w' = trace w
                  ++ get_request (comments_url workspace repo_slug pull_request_id)
                     :: map (publish_request workspace repo_slug pull_request_id) pending
    /\ publishPendingComments workspace repo_slug pull_request_id w
       = (Return (text_result
                    (match pending with
                     | [] => TextRaw "No pending comments found to publish."
                     | _ :: _ =>
                         TextPublishReport
                           {| publish_message :=
                                ("Published " ++ tpl_num (Z.of_nat (length pending))
                                 ++ " pending comments")%string;
                              publish_results := items |}
                     end)), w').
Proof.
  intros Hlisting pending.
  set (w1 := {| service := snd (respond SComments (service w)
                                  (get_request (comments_url workspace repo_slug
                                                  pull_request_id)));
                trace := trace w
                         ++ [get_request (comments_url workspace repo_slug
                                            pull_request_id)] |}).
  destruct (publish_all_run pending w1) as (items & w' & E & Hitems & Ht).
  exists items, w'. split; [exact Hitems|]. split.
  - rewrite Ht. unfold w1. cbn [trace]. rewrite <- app_assoc. reflexivity.
  - unfold publishPendingComments, try_catch.
    unfold bind at 1. rewrite api_request_run, Hlisting. fold w1. cbv zeta.
    fold pending. destruct pending as [|c cs] eqn:Hp.
    + simpl in E. unfold ret in E. injection E as <- <-. reflexivity.
    + unfold bind at 1. rewrite E. reflexivity.
Qed.

End PublishDetail.

Lemma Forall2_map_eq {A B C} (f : A -> C) (g : B -> C) (R : A -> B -> Prop)
    (l : list A) (l' : list B) :
  (forall a b, R a b -> g b = f a) -> Forall2 R l l' -> map g l' = map f l.
Proof.
  intros HR. induction 1; simpl; [reflexivity|]. f_equal; auto.
Qed.

(** X8: when the listing of comments is answered with a page of comments,
    that is a body whose [values] is missing or an array of comment objects,
    and the ids of the comments whose [pending] is [true] are safe integers,
    [publishPendingComments] returns.  After the listing it sends one PUT
    per comment whose [pending] is [true], in the order of the listing and to
    the URL of that comment, and nothing else; the report has one item per
    such comment, in the same order and with its id, and its message counts
    them.  (A body that is not a page, such as [null], is not covered: the
    read of [values] then throws and the operation fails.) *)
Theorem publish_pending_comments_requests `{Sdk} `{Remote}
    (workspace repo_slug pull_request_id : option string) (w : World)
    (page : Page Comment) :
  fst (respond SComments (service w)
         (get_request (comments_url workspace repo_slug pull_request_id)))
    = Resolved page ->
  let pending := filter is_pending (match values page with Some l => l | None => [] end) in
  Forall (fun c => safe_integer (comment_id c)) pending ->
  issued_by (publishPendingComments workspace repo_slug pull_request_id) w
  = get_request (comments_url workspace repo_slug pull_request_id)
    :: map (publish_request workspace repo_slug pull_request_id) pending
  /\ (exists r,
        fst (publishPendingComments workspace repo_slug pull_request_id w) = Return r)
  /\ (pending <> [] ->
      exists rep,
        fst (publishPendingComments workspace repo_slug pull_request_id w)
        = Return (text_result (TextPublishReport rep))
        /\ map published_id (publish_results rep) = map comment_id pending
        /\ publish_message rep
           = ("Published " ++ tpl_num (Z.of_nat (length pending))
              ++ " pending comments")%string).
Proof.
  intros Hlisting pending _.
  destruct (publishPendingComments_run workspace repo_slug pull_request_id w page Hlisting)
    as (items & w' & Hitems & Ht & Hrun).
  fold pending in Hitems, Ht, Hrun.
  split; [|split].
  - apply issued_by_app. now rewrite Hrun.
  - rewrite Hrun. eexists. reflexivity.
  - intros Hne. rewrite Hrun. destruct pending as [|c cs]; [congruence|].
    eexists. split; [reflexivity|]. split; [|reflexivity].
    cbn [publish_results].
    apply (Forall2_map_eq comment_id published_id
             (item_of workspace repo_slug pull_request_id)); [|exact Hitems].
    intros a b [Hid _]. exact Hid.
Qed.

Lemma publish_pending_comments_requests_witness :
  let comments := [Samples.comment 1 (Some true); Samples.comment 2 None;
                   Samples.comment 3 (Some true)] in
  map req_url
    (issued_by (@publishPendingComments Samples.sdk Samples.comment_store
                  (Some "acme") (Some "api") (Some "7"))
       (Samples.start Samples.comment_store comments))
  = ["/repositories/acme/api/pullrequests/7/comments";
     "/repositories/acme/api/pullrequests/7/comments/1";
     "/repositories/acme/api/pullrequests/7/comments/3"]%string.
Proof.
  intros comments.
  rewrite (proj1 (@publish_pending_comments_requests Samples.sdk Samples.comment_store
                    (Some "acme"%string) (Some "api"%string) (Some "7"%string)
                    (Samples.start Samples.comment_store comments)
                    {| values := Some comments |} eq_refl
                    ltac:(repeat constructor; unfold safe_integer; simpl; lia))).
  reflexivity.
Defined.

(** X9: the failures of the updates are itemised and not raised.  Against a
    remote that rejects every PUT, the operation still returns: every item
    of the report is a failure with the id of its comment, and the message
    still says that the pending comments were published. *)
Theorem publish_pending_comments_all_rejected `{Sdk} `{Remote}
    (workspace repo_slug pull_request_id : option string) (w : World)
    (page : Page Comment) :
  fst (respond SComments (service w)
         (get_request (comments_url workspace repo_slug pull_request_id)))
    = Resolved page ->
  (forall s q, req_method q = PUT ->
               exists message response_message,
                 fst (respond SJson s q) = Rejected message response_message) ->
  filter is_pending (match values page with Some l => l | None => [] end) <> [] ->
  exists rep,
    fst (publishPendingComments workspace repo_slug pull_request_id w)
    = Return (text_result (TextPublishReport rep))
    /\ Forall2 (fun c i => exists message, i = PublishFailed (comment_id c) message)
         (filter is_pending (match values page with Some l => l | None => [] end))
         (publish_results rep)
    /\ publish_message rep
       = ("Published "
          ++ tpl_num (Z.of_nat (length (filter is_pending
                                          (match values page with
                                           | Some l => l
                                           | None => []
                                           end))))
          ++ " pending comments")%string.
Proof.
  intros Hlisting Hput Hne.
  destruct (publishPendingComments_run workspace repo_slug pull_request_id w page Hlisting)
    as (items & w' & Hitems & _ & Hrun).
  rewrite Hrun.
  destruct (filter is_pending _) as [|c cs]; [congruence|].
  eexists. split; [reflexivity|]. split; [|reflexivity].
  cbn [publish_results].
  eapply Forall2_impl; [|exact Hitems].
  intros a b [_ [s ->]].
  destruct (Hput s (publish_request workspace repo_slug pull_request_id a) eq_refl)
    as (m & rm & ->).
  now exists m.
Qed.

Lemma publish_pending_comments_all_rejected_witness :
  let comments := [Samples.comment 1 (Some true); Samples.comment 2 None] in
  filter is_pending comments <> []
  /\ exists rep,
       fst (@publishPendingComments Samples.sdk MoreSamples.read_only_store
              (Some "acme") (Some "api") (Some "7")
              (Samples.start MoreSamples.read_only_store comments))
       = Return (text_result (TextPublishReport rep))
       /\ publish_message rep = "Published 1 pending comments"%string.
Proof.
  intros comments. split; [discriminate|].
  destruct (@publish_pending_comments_all_rejected Samples.sdk MoreSamples.read_only_store
              (Some "acme"%string) (Some "api"%string) (Some "7"%string)
              (Samples.start MoreSamples.read_only_store comments)
              {| values := Some comments |} eq_refl)
    as (rep & Hrun & _ & Hmessage).
  - intros s q _. exists "Request failed with status code 500"%string, None. reflexivity.
  - discriminate.
  - exists rep. split; [exact Hrun | exact Hmessage].
Defined.

(** X10: when the listing of comments is rejected, the operation fails
    with an [InternalError] that carries the message of the rejection, and
    it has sent that one GET only. *)
Theorem publish_pending_comments_listing_rejected `{Sdk} `{Remote}
    (workspace repo_slug pull_request_id : option string) (w : World)
    (message : string) (response_message : option string) :
  fst (respond SComments (service w)
         (get_request (comments_url workspace repo_slug pull_request_id)))
    = Rejected message response_message ->
  fst (publishPendingComments workspace repo_slug pull_request_id w)
  = Throw (McpError InternalError ("Failed to publish pending comments: " ++ message))
  /\ issued_by (publishPendingComments workspace repo_slug pull_request_id) w
     = [get_request (comments_url workspace repo_slug pull_request_id)].
Proof.
  intros Hlisting.
  assert (Hrun : publishPendingComments workspace repo_slug pull_request_id w
                 = (Throw (McpError InternalError
                             ("Failed to publish pending comments: " ++ message)),
                    {| service := snd (respond SComments (service w)
                                         (get_request (comments_url workspace repo_slug
                                                         pull_request_id)));
                       trace := trace w
                                ++ [get_request (comments_url workspace repo_slug
                                                   pull_request_id)] |})).
  { unfold publishPendingComments, try_catch.
    unfold bind at 1. rewrite api_request_run, Hlisting. reflexivity. }
  split; [|apply issued_by_app]; now rewrite Hrun.
Qed.

Lemma publish_pending_comments_listing_rejected_witness :
  issued_by (@publishPendingComments Samples.sdk Samples.down
               (Some "acme") (Some "api") (Some "7")) (Samples.start Samples.down tt)
  = [get_request "/repositories/acme/api/pullrequests/7/comments"].
Proof.
  exact (proj2 (@publish_pending_comments_listing_rejected Samples.sdk Samples.down
                  (Some "acme"%string) (Some "api"%string) (Some "7"%string)
                  (Samples.start Samples.down tt) _ None eq_refl)).
Defined.

(** ** Diff retrieval, in more detail *)

Section DiffDetail.
Context `{Sdk} `{Remote}.
Variables workspace repo_slug pull_request_id : option string.

Lemma commit_hash_run (side : option Endpoint) (w : World) :
  commit_hash side w
  = (if has_commit side then Return (side_hash side)
     else Throw (TypeError (cannot_read
                              (match side with
                               | None => "commit"
                               | Some _ => "hash"
                               end))), w).
Proof.
  destruct side as [[[c|]]|]; reflexivity.
Qed.

(** Every run of [getPullRequestDiff], by the reply to its first request. *)
Lemma getPullRequestDiff_run (w : World) :
  let first := get_request (pullrequest_url workspace repo_slug pull_request_id) in
  let w1 := {| service := snd (respond SPullRequest (service w) first);
               trace := trace w ++ [first] |} in
  getPullRequestDiff workspace repo_slug pull_request_id w
  = match fst (respond SPullRequest (service w) first) with
    | Rejected message _ =>
        (Throw (McpError InternalError
                  ("Failed to get pull request diff: " ++ message)), w1)
    | Resolved resource =>
        if has_commit (source resource) then
          if has_commit (destination resource) then
            let second :=
              diff_request (diff_url workspace repo_slug (side_hash (source resource))
                              (side_hash (destination resource)) pull_request_id) in
            (match fst (respond SText (service w1) second) with
             | Resolved body => Return (text_result (TextRaw body))
             | Rejected message _ =>
                 Throw (McpError InternalError
                          ("Failed to get pull request diff: " ++ message))
             end,
             {| service := snd (respond SText (service w1) second);
                trace := trace w1 ++ [second] |})
          else
            (Throw (McpError InternalError
                      ("Failed to get pull request diff: "
                       ++ cannot_read (match destination resource with
                                       | None => "commit"
                                       | Some _ => "hash"
                                       end))), w1)
        else
          (Throw (McpError InternalError
                    ("Failed to get pull request diff: "
                     ++ cannot_read (match source resource with
                                     | None => "commit"
                                     | Some _ => "hash"
                                     end))), w1)
    end.
Proof.
  intros first w1.
  unfold getPullRequestDiff, try_catch. fold first.
  unfold bind at 1. rewrite api_request_run. fold w1.
  destruct (fst (respond SPullRequest (service w) first)) as [resource|m rm];
    [|reflexivity].
  unfold bind at 1. rewrite commit_hash_run.
  destruct (has_commit (source resource)); [|reflexivity].
  unfold bind at 1. rewrite commit_hash_run.
  destruct (has_commit (destination resource)); [|reflexivity].
  unfold bind at 1. rewrite api_request_run. cbv zeta.
  destruct (fst (respond SText (service w1) _)); reflexivity.
Qed.

End DiffDetail.

(** X11: [getPullRequestDiff] asks for the diff only when the pull request
    was fetched and both of its sides have a commit object.  When the first
    request is rejected, or a side or its commit is missing, the operation
    fails with an [InternalError] after that one request. *)
Theorem diff_not_requested_without_commits `{Sdk} `{Remote}
    (workspace repo_slug pull_request_id : option string) (w : World) :
  (forall resource,
      fst (respond SPullRequest (service w)
             (get_request (pullrequest_url workspace repo_slug pull_request_id)))
      = Resolved resource ->
      has_commit (source resource) && has_commit (destination resource) = true ->
      False) ->
  issued_by (getPullRequestDiff workspace repo_slug pull_request_id) w
  = [get_request (pullrequest_url workspace repo_slug pull_request_id)]
  /\ exists message,
       fst (getPullRequestDiff workspace repo_slug pull_request_id w)
       = Throw (McpError InternalError ("Failed to get pull request diff: " ++ message)).
Proof.
  intros Hmissing.
  pose proof (getPullRequestDiff_run workspace repo_slug pull_request_id w) as Hrun.
  cbv zeta in Hrun.
  destruct (fst (respond SPullRequest (service w) _)) as [resource|m rm] eqn:Efirst.
  - specialize (Hmissing resource eq_refl).
    destruct (has_commit (source resource)); [destruct (has_commit (destination resource))|].
    + exfalso. now apply Hmissing.
    + split; [apply issued_by_app | eexists]; rewrite Hrun; reflexivity.
    + split; [apply issued_by_app | eexists]; rewrite Hrun; reflexivity.
  - split; [apply issued_by_app | eexists]; rewrite Hrun; reflexivity.
Qed.

Lemma diff_not_requested_without_commits_witness :
  issued_by (@getPullRequestDiff Samples.sdk MoreSamples.bare
               (Some "acme") (Some "api") (Some "7")) (Samples.start MoreSamples.bare tt)
  = [get_request "/repositories/acme/api/pullrequests/7"]
  /\ fst (@getPullRequestDiff Samples.sdk MoreSamples.bare
            (Some "acme") (Some "api") (Some "7") (Samples.start MoreSamples.bare tt))
     = Throw (McpError InternalError
                "Failed to get pull request diff: Cannot read properties of undefined (reading 'hash')").
Proof.
  split; [|reflexivity].
  apply (@diff_not_requested_without_commits Samples.sdk MoreSamples.bare
           (Some "acme"%string) (Some "api"%string) (Some "7"%string)
           (Samples.start MoreSamples.bare tt)).
  intros resource Hfirst. injection Hfirst as <-. discriminate.
Defined.

(** X12: when both sides have a commit object the diff is requested, also
    when a commit has no hash: the missing hash is not detected, and the URL
    of the second request then carries the text [undefined] in its place. *)
Theorem diff_requested_with_missing_hash `{Sdk} `{Remote}
    (workspace repo_slug pull_request_id : option string) (w : World)
    (resource : PullRequestResource) :
  fst (respond SPullRequest (service w)
         (get_request (pullrequest_url workspace repo_slug pull_request_id)))
    = Resolved resource ->
  has_commit (source resource) = true ->
  has_commit (destination resource) = true ->
  issued_by (getPullRequestDiff workspace repo_slug pull_request_id) w
  = [get_request (pullrequest_url workspace repo_slug pull_request_id);
     diff_request (diff_url workspace repo_slug (side_hash (source resource))
                     (side_hash (destination resource)) pull_request_id)]
  /\ (side_hash (source resource) = None ->
      side_hash (destination resource) = None ->
      diff_url workspace repo_slug (side_hash (source resource))
        (side_hash (destination resource)) pull_request_id
      = ("/repositories/" ++ tpl workspace ++ "/" ++ tpl repo_slug ++ "/diff/"
         ++ tpl workspace ++ "/" ++ tpl repo_slug
         ++ ":undefined%0Dundefined?from_pullrequest_id=" ++ tpl pull_request_id
         ++ "&topic=true")%string).
Proof.
  intros Hfirst Hsrc Hdst.
  pose proof (getPullRequestDiff_run workspace repo_slug pull_request_id w) as Hrun.
  cbv zeta in Hrun. rewrite Hfirst, Hsrc, Hdst in Hrun.
  split.
  - apply issued_by_app. rewrite Hrun. cbn [snd trace]. now rewrite <- app_assoc.
  - intros -> ->. reflexivity.
Qed.

Lemma diff_requested_with_missing_hash_witness :
  map req_url
    (issued_by (@getPullRequestDiff Samples.sdk MoreSamples.hashless
                  (Some "acme") (Some "api") (Some "7"))
       (Samples.start MoreSamples.hashless tt))
  = ["/repositories/acme/api/pullrequests/7";
     "/repositories/acme/api/diff/acme/api:undefined%0Dundefined?from_pullrequest_id=7&topic=true"]%string.
Proof.
  rewrite (proj1 (@diff_requested_with_missing_hash Samples.sdk MoreSamples.hashless
                    (Some "acme"%string) (Some "api"%string) (Some "7"%string)
                    (Samples.start MoreSamples.hashless tt) _ eq_refl eq_refl eq_refl)).
  reflexivity.
Defined.

(** ** Comments and pull requests, in more detail *)

(** X13: the body of the comment request has exactly the optional parts
    that were given.  [content.raw] is the content; [pending] is there if
    and only if the argument was given, with its value, so a plain comment
    carries no [pending] key; [inline] is there if and only if it was given,
    with its [path], and with [from] and [to] only when these were given. *)
Theorem comment_body_optional_fields (content : option string)
    (inline : option Inline) (pending : option bool) :
  get_field "content" (commentData content inline pending)
  = Some (JObj [("raw"%string, of_opt_string content)])
  /\ get_field "pending" (commentData content inline pending) = option_map JBool pending
  /\ match inline with
     | None => get_field "inline" (commentData content inline pending) = None
     | Some i =>
         exists body,
           get_field "inline" (commentData content inline pending) = Some body
           /\ get_field "path" body = Some (of_opt_string (inline_path i))
           /\ get_field "from" body = option_map JNum (inline_from i)
           /\ get_field "to" body = option_map JNum (inline_to i)
     end.
Proof.
  split; [reflexivity|]. split.
  - destruct pending, inline; reflexivity.
  - destruct inline as [[path from to]|].
    + eexists. split; [destruct pending; reflexivity|].
      split; [reflexivity|]. split; destruct from, to; reflexivity.
    + destruct pending; reflexivity.
Qed.

Section WrapperDetail.
Context `{Sdk} `{Remote}.

(** What leaves a handler of the form [try { ... } catch { throw new
    McpError(InternalError, ...) }] is an [InternalError]. *)
Lemma wrapped_throws_internal {A} (m : M A) (what : string) (w : World) (e : exn) :
  fst (try_catch m (rethrow_internal what) w) = Throw e ->
  exists message, e = McpError InternalError message.
Proof.
  rewrite wrapped_run. cbn [fst].
  destruct (fst (m w)); [discriminate|]. intros [= <-]. eauto.
Qed.

End WrapperDetail.

(** X14: [createDraftPullRequest] sends the request that
    [createPullRequest] sends with [draft = true], whose body has [draft]
    set to [true], and leaves the same world; when the latter returns, the
    former returns the same result; when the latter throws, the former
    throws an [InternalError] whose message is the latter's error message
    behind one more prefix. *)
Theorem draft_pull_request_refines_create `{Sdk} `{Remote}
    (workspace repo_slug title description sourceBranch targetBranch : option string)
    (reviewers : option (list string)) (w : World) :
  snd (createDraftPullRequest workspace repo_slug title description sourceBranch
         targetBranch reviewers w)
  = snd (createPullRequest workspace repo_slug title description sourceBranch
           targetBranch reviewers (Some true) w)
  /\ get_field "draft"
       (pull_request_body title description sourceBranch targetBranch reviewers (Some true))
     = Some (JBool true)
  /\ (forall draft,
        draft <> Some true ->
        get_field "draft"
          (pull_request_body title description sourceBranch targetBranch reviewers draft)
        = Some (JBool false))
  /\ match fst (createPullRequest workspace repo_slug title description sourceBranch
                  targetBranch reviewers (Some true) w) with
     | Return r =>
         fst (createDraftPullRequest workspace repo_slug title description sourceBranch
                targetBranch reviewers w) = Return r
     | Throw e =>
         fst (createDraftPullRequest workspace repo_slug title description sourceBranch
                targetBranch reviewers w)
         = Throw (McpError InternalError
                    ("Failed to create draft pull request: " ++ error_message e))
     end.
Proof.
  unfold createDraftPullRequest. rewrite wrapped_run. cbn [fst snd].
  split; [reflexivity|]. split; [reflexivity|]. split.
  - intros [[|]|] Hdraft; [congruence | reflexivity | reflexivity].
  - destruct (fst (createPullRequest _ _ _ _ _ _ _ _ w)); reflexivity.
Qed.

(** X15: no error other than an [InternalError] leaves the dispatcher for
    the tools embedded here: the [InvalidParams] of a guard, the rejection of
    a request and a failed property read are all rewrapped by the handlers. *)
Theorem dispatcher_throws_internal `{Sdk} `{Remote} (config : Config) (tool : Tool)
    (args : Args) (w : World) (e : exn) :
  fst (callTool config tool args w) = Throw e ->
  exists message, e = McpError InternalError message.
Proof.
  assert (Hdispatch : forall e',
            fst (dispatch config tool args w) = Throw e' ->
            exists message, e' = McpError InternalError message).
  { intros e'. destruct tool; simpl; apply wrapped_throws_internal. }
  rewrite callTool_mcp.
  - apply Hdispatch.
  - intros e' He'. destruct (Hdispatch e' He') as [m ->]. eauto.
Qed.

Lemma dispatcher_throws_internal_witness :
  exists e message,
    fst (@callTool Samples.sdk Samples.busy Samples.token_config GetPendingReviewPRs
           Samples.workspace_only (Samples.start Samples.busy tt)) = Throw e
    /\ e = McpError InternalError message.
Proof.
  eexists.
  destruct (@dispatcher_throws_internal Samples.sdk Samples.busy Samples.token_config
              GetPendingReviewPRs Samples.workspace_only (Samples.start Samples.busy tt)
              _ eq_refl) as [message E].
  exists message. split; [reflexivity | exact E].
Defined.

(** ** The further handlers *)

Section FurtherDetail.
Context `{Sdk} `{Remote}.
Variable config : Config.

Lemma read_values_run (data : jsval) (w : World) :
  read_values data w
  = (match data with
     | JUndefined => Throw (TypeError (cannot_read "values"))
     | JNull => Throw (TypeError (cannot_read_null "values"))
     | JObj fields =>
         Return (match assoc "values" fields with Some v => v | None => JUndefined end)
     | _ => Return JUndefined
     end, w).
Proof. destruct data; reflexivity. Qed.

(** [listRepositories] with a workspace: one request, then the values. *)
Lemma listRepositories_run (workspace : option string) (limit_arg : option Z)
    (name : option string) (w : World) :
  truthy_string (or_string workspace (defaultWorkspace config)) = true ->
  let request :=
    get_request_with (workspace_url (tpl (or_string workspace (defaultWorkspace config))))
      (repositories_params (match limit_arg with Some n => n | None => 10 end) name) in
  listRepositories config workspace limit_arg name w
  = (match fst (respond SJson (service w) request) with
     | Rejected message _ =>
         Throw (McpError InternalError ("Failed to list repositories: " ++ message))
     | Resolved JUndefined =>
         Throw (McpError InternalError
                  ("Failed to list repositories: " ++ cannot_read "values"))
     | Resolved JNull =>
         Throw (McpError InternalError
                  ("Failed to list repositories: " ++ cannot_read_null "values"))
     | Resolved (JObj fields) =>
         Return (text_result
                   (TextJson (match assoc "values" fields with
                              | Some v => v
                              | None => JUndefined
                              end)))
     | Resolved _ => Return (text_result (TextJson JUndefined))
     end,
     {| service := snd (respond SJson (service w) request);
        trace := trace w ++ [request] |}).
Proof.
  intros Hws request.
  unfold listRepositories, try_catch. cbv zeta. rewrite Hws. cbn [negb].
  fold request. unfold bind at 1. rewrite api_request_run.
  destruct (fst (respond SJson (service w) request)) as [data|m rm]; [|reflexivity].
  unfold bind at 1. rewrite read_values_run.
  destruct data; reflexivity.
Qed.

End FurtherDetail.

(** X16: without a workspace, neither as an argument nor as the configured
    default (an empty string counts as none), [listRepositories] requests
    nothing; the caller gets an [InternalError] that wraps the message of the
    [InvalidParams] error of the guard. *)
Theorem list_repositories_without_workspace `{Sdk} `{Remote} (config : Config)
    (workspace : option string) (limit_arg : option Z) (name : option string)
    (w : World) :
  truthy_string (or_string workspace (defaultWorkspace config)) = false ->
  listRepositories config workspace limit_arg name w
  = (Throw (McpError InternalError
              ("Failed to list repositories: "
               ++ McpError_message InvalidParams
                    "Workspace must be provided either as a parameter or through BITBUCKET_WORKSPACE environment variable")),
     w)
  /\ issued_by (listRepositories config workspace limit_arg name) w = [].
Proof.
  intros Hws.
  assert (Hrun : listRepositories config workspace limit_arg name w
                 = (Throw (McpError InternalError
                             ("Failed to list repositories: "
                              ++ McpError_message InvalidParams
                                   "Workspace must be provided either as a parameter or through BITBUCKET_WORKSPACE environment variable")),
                    w)).
  { unfold listRepositories, try_catch. cbv zeta. now rewrite Hws. }
  split; [exact Hrun|].
  apply issued_by_app. rewrite Hrun. simpl. now rewrite app_nil_r.
Qed.

Lemma list_repositories_without_workspace_witness :
  issued_by (@listRepositories Samples.sdk Samples.busy
               {| baseUrl := "https://api.bitbucket.org/2.0"; token := Some "secret";
                  username := None; password := None; defaultWorkspace := None |}
               (Some ""%string) None (Some "api"%string))
    (Samples.start Samples.busy tt) = [].
Proof.
  exact (proj2 (@list_repositories_without_workspace Samples.sdk Samples.busy
                  {| baseUrl := "https://api.bitbucket.org/2.0"; token := Some "secret";
                     username := None; password := None; defaultWorkspace := None |}
                  (Some ""%string) None (Some "api"%string)
                  (Samples.start Samples.busy tt) eq_refl)).
Defined.

(** X17: with a workspace, [listRepositories] sends exactly one request, a
    GET on [/repositories/{workspace}], where the workspace is the argument
    when that is a non-empty string and the configured default otherwise.
    Its query has [limit] (10 when the argument is absent), has [q] if and
    only if a non-empty name is given, and never has [pagelen]. *)
Theorem list_repositories_request `{Sdk} `{Remote} (config : Config)
    (workspace : option string) (limit_arg : option Z) (name : option string)
    (w : World) :
  truthy_string (or_string workspace (defaultWorkspace config)) = true ->
  exists request,
    issued_by (listRepositories config workspace limit_arg name) w = [request]
    /\ req_method request = GET
    /\ (truthy_string workspace = true ->
        req_url request = ("/repositories/" ++ tpl workspace)%string)
    /\ (truthy_string workspace = false ->
        req_url request = ("/repositories/" ++ tpl (defaultWorkspace config))%string)
    /\ assoc "limit" (req_params request)
       = Some (JNum (match limit_arg with Some n => n | None => 10 end))
    /\ assoc "q" (req_params request)
       = (if truthy_string name
          then Some (JStr ("name~" ++ double_quote ++ tpl name ++ double_quote))
          else None)
    /\ assoc "pagelen" (req_params request) = None.
Proof.
  intros Hws.
  eexists. split.
  - apply issued_by_app. now rewrite (listRepositories_run config workspace limit_arg
                                        name w Hws).
  - unfold or_string. split; [reflexivity|].
    split; [intros ->; reflexivity|]. split; [intros ->; reflexivity|].
    split; [reflexivity|].
    unfold repositories_params. split; destruct (truthy_string name); reflexivity.
Qed.

Lemma list_repositories_request_witness :
  exists request,
    issued_by (@listRepositories Samples.sdk Samples.healthy Samples.alice_config
                 (Some ""%string) None (Some "api"%string))
      (Samples.start Samples.healthy tt) = [request]
    /\ req_url request = "/repositories/acme"%string
    /\ assoc "limit" (req_params request) = Some (JNum 10).
Proof.
  destruct (@list_repositories_request Samples.sdk Samples.healthy Samples.alice_config
              (Some ""%string) None (Some "api"%string)
              (Samples.start Samples.healthy tt) eq_refl)
    as (request & Hissued & _ & _ & Hurl & Hlimit & _).
  exists request. split; [exact Hissued|]. split; [exact (Hurl eq_refl) | exact Hlimit].
Defined.

(** X18: what [listRepositories] makes of the body of the answer: the
    [values] of an object; the serialisation of [undefined] when the object
    has no [values] or the body is a string, a number, a boolean or an array;
    and an [InternalError] when the body is [null]. *)
Theorem list_repositories_result `{Sdk} `{Remote} (config : Config)
    (workspace : option string) (limit_arg : option Z) (name : option string)
    (w : World) (data : jsval) :
  truthy_string (or_string workspace (defaultWorkspace config)) = true ->
  fst (respond SJson (service w)
         (get_request_with
            (workspace_url (tpl (or_string workspace (defaultWorkspace config))))
            (repositories_params (match limit_arg with Some n => n | None => 10 end)
               name)))
    = Resolved data ->
  (forall v, get_field "values" data = Some v ->
             fst (listRepositories config workspace limit_arg name w)
             = Return (text_result (TextJson v)))
  /\ (get_field "values" data = None -> data <> JNull -> data <> JUndefined ->
      fst (listRepositories config workspace limit_arg name w)
      = Return (text_result (TextJson JUndefined)))
  /\ (data = JNull ->
      fst (listRepositories config workspace limit_arg name w)
      = Throw (McpError InternalError
                 ("Failed to list repositories: " ++ cannot_read_null "values"))).
Proof.
  intros Hws Hdata.
  rewrite (listRepositories_run config workspace limit_arg name w Hws).
  cbv zeta. rewrite Hdata. cbn [fst].
  split; [|split].
  - intros v Hv. destruct data; try discriminate. simpl in Hv. now rewrite Hv.
  - intros Hv Hnull Hundef. destruct data; try congruence; try reflexivity.
    simpl in Hv. now rewrite Hv.
  - intros ->. reflexivity.
Qed.

Lemma list_repositories_result_witness :
  fst (@listRepositories Samples.sdk Samples.healthy Samples.alice_config
         None None None (Samples.start Samples.healthy tt))
  = Return (text_result (TextJson JUndefined)).
Proof.
  apply (proj1 (proj2 (@list_repositories_result Samples.sdk Samples.healthy
                         Samples.alice_config None None None
                         (Samples.start Samples.healthy tt)
                         (JObj [("ok"%string, JBool true)]) eq_refl eq_refl)));
    [reflexivity | discriminate | discriminate].
Defined.

(** X19: which optional fields the bodies of the pull request updates
    carry.  [updatePullRequest] sends a field whenever the argument is given,
    also when it is the empty string, and sends the empty object when neither
    is given; [declinePullRequest] and [mergePullRequest] send [message] and
    [merge_strategy] only for non-empty strings. *)
Theorem pull_request_update_bodies `{Sdk} `{Remote}
    (workspace repo_slug pull_request_id title description message strategy
     : option string) (w : World) :
  (exists body,
      issued_by (updatePullRequest workspace repo_slug pull_request_id title description) w
      = [put_request (pullrequest_url workspace repo_slug pull_request_id) body]
      /\ get_field "title" body = option_map JStr title
      /\ get_field "description" body = option_map JStr description
      /\ (title = None -> description = None -> body = JObj []))
  /\ (exists body,
        issued_by (declinePullRequest workspace repo_slug pull_request_id message) w
        = [post_request
             (pullrequest_url workspace repo_slug pull_request_id ++ "/decline") body]
        /\ get_field "message" body
           = (if truthy_string message then option_map JStr message else None))
  /\ (exists body,
        issued_by (mergePullRequest workspace repo_slug pull_request_id message strategy) w
        = [post_request
             (pullrequest_url workspace repo_slug pull_request_id ++ "/merge") body]
        /\ get_field "message" body
           = (if truthy_string message then option_map JStr message else None)
        /\ get_field "merge_strategy" body
           = (if truthy_string strategy then option_map JStr strategy else None)).
Proof.
  split; [|split]; eexists; (split; [apply issued_by_app|]).
  - unfold updatePullRequest. cbv zeta.
    now rewrite (single_request_run SJson TextJson).
  - split; [|split].
    + destruct title, description; reflexivity.
    + destruct title, description; reflexivity.
    + intros -> ->. reflexivity.
  - unfold declinePullRequest. cbv zeta.
    now rewrite (single_request_run SJson TextJson).
  - unfold when_truthy. destruct message as [m|]; simpl; [|reflexivity].
    destruct (String.eqb m ""); reflexivity.
  - unfold mergePullRequest. cbv zeta.
    now rewrite (single_request_run SJson TextJson).
  - unfold when_truthy. split.
    + destruct message as [m|]; simpl; [|destruct (truthy_string strategy); reflexivity].
      destruct (String.eqb m ""); simpl; [|reflexivity].
      destruct (truthy_string strategy); reflexivity.
    + destruct message as [m|]; simpl.
      * destruct (String.eqb m ""); simpl;
          (destruct strategy as [st|]; simpl; [|reflexivity]);
          destruct (String.eqb st ""); reflexivity.
      * destruct strategy as [st|]; simpl; [|reflexivity].
        destruct (String.eqb st ""); reflexivity.
Qed.

(** An empty title is sent, an empty decline message is not. *)
Example empty_title_sent_empty_message_dropped :
  map req_data
    (issued_by (@updatePullRequest Samples.sdk Samples.healthy
                  (Some "acme") (Some "api") (Some "7") (Some "") None)
       (Samples.start Samples.healthy tt))
  = [Some (JObj [("title", JStr "")])]%string
  /\ map req_data
       (issued_by (@declinePullRequest Samples.sdk Samples.healthy
                     (Some "acme") (Some "api") (Some "7") (Some ""))
          (Samples.start Samples.healthy tt))
     = [Some (JObj [])].
Proof. split; reflexivity. Qed.

(** X20: [runPipeline] without a target fails before it requests anything:
    reading [commit_hash] of the missing target throws, and the caller gets
    the [InternalError] that wraps that. *)
Theorem run_pipeline_without_target `{Sdk} `{Remote}
    (workspace repo_slug : option string) (variables : option (list PipelineVariable))
    (w : World) :
  runPipeline workspace repo_slug None variables w
  = (Throw (McpError InternalError
              ("Failed to run pipeline: " ++ cannot_read "commit_hash")), w)
  /\ issued_by (runPipeline workspace repo_slug None variables) w = [].
Proof.
  split; [reflexivity|].
  apply issued_by_app. simpl. now rewrite app_nil_r.
Qed.

(** X21: the body that [runPipeline] sends for a target.  The type of the
    target is [pipeline_commit_target] exactly when a [commit] object is
    part of it, which is exactly when a non-empty commit hash was given, and
    [pipeline_ref_target] otherwise; a [selector] is part of it exactly when
    both the selector type and the selector pattern are non-empty; and the
    body has [variables] exactly when the list given is not empty, then with
    one object per variable. *)
Theorem run_pipeline_body `{Sdk} `{Remote}
    (workspace repo_slug : option string) (target : PipelineTarget)
    (variables : option (list PipelineVariable)) (w : World) :
  exists body tgt,
    issued_by (runPipeline workspace repo_slug (Some target) variables) w
    = [post_request (pipelines_url workspace repo_slug) body]
    /\ get_field "target" body = Some tgt
    /\ get_field "type" tgt
       = Some (JStr (if truthy_string (target_commit_hash target)
                     then "pipeline_commit_target" else "pipeline_ref_target"))
    /\ get_field "commit" tgt
       = (if truthy_string (target_commit_hash target)
          then Some (JObj [("type", JStr "commit");
                           ("hash", of_opt_string (target_commit_hash target))]%string)
          else None)
    /\ (get_field "selector" tgt <> None <->
        truthy_string (selector_type target) && truthy_string (selector_pattern target)
        = true)
    /\ match variables with
       | Some (v :: vs) =>
           exists items,
             get_field "variables" body = Some (JArr items)
             /\ length items = length (v :: vs)
       | _ => get_field "variables" body = None
       end.
Proof.
  exists (pipeline_requestData target variables), (pipelineTarget target).
  split; [|split; [|split; [|split; [|split]]]].
  - apply issued_by_app. unfold runPipeline.
    now rewrite (single_request_run SJson TextJson).
  - reflexivity.
  - reflexivity.
  - unfold pipelineTarget.
    destruct (truthy_string (target_commit_hash target)); [reflexivity|].
    destruct (truthy_string (selector_type target)
              && truthy_string (selector_pattern target)); reflexivity.
  - unfold pipelineTarget.
    destruct (truthy_string (target_commit_hash target));
      destruct (truthy_string (selector_type target)
                && truthy_string (selector_pattern target));
      simpl; split; congruence.
  - destruct variables as [[|v vs]|]; try reflexivity.
    eexists. split; [reflexivity|]. simpl. now rewrite length_map.
Qed.

(** A branch target with a custom selector and one secured variable. *)
Example run_pipeline_branch_target :
  map req_data
    (issued_by (@runPipeline Samples.sdk Samples.healthy (Some "acme") (Some "api")
                  (Some MoreSamples.branch_target)
                  (Some [ {| var_key := Some "ENV"; var_value := Some "prod";
                             var_secured := None |} ]))
       (Samples.start Samples.healthy tt))
  = [Some (JObj [ ("target",
                   JObj [ ("type", JStr "pipeline_ref_target");
                          ("ref_type", JStr "branch");
                          ("ref_name", JStr "main");
                          ("selector", JObj [ ("type", JStr "custom");
                                              ("pattern", JStr "deploy") ]) ]);
                  ("variables",
                   JArr [ JObj [ ("key", JStr "ENV"); ("value", JStr "prod");
                                 ("secured", JBool false) ] ]) ])]%string.
Proof. reflexivity. Qed.

(** X22: the query of [listPipelineRuns] has [pagelen] only for a limit
    that is given and not zero, and [status], [target.branch] and
    [trigger_type] only for non-empty strings; without any of them the
    request has no query parameter at all. *)
Theorem list_pipeline_runs_query `{Sdk} `{Remote}
    (workspace repo_slug : option string) (limit : option Z)
    (status target_branch trigger_type : option string) (w : World) :
  exists request,
    issued_by (listPipelineRuns workspace repo_slug limit status target_branch
                 trigger_type) w = [request]
    /\ req_method request = GET
    /\ req_url request = pipelines_url workspace repo_slug
    /\ assoc "pagelen" (req_params request)
       = (if truthy_number limit then option_map JNum limit else None)
    /\ (truthy_number limit = false -> truthy_string status = false ->
        truthy_string target_branch = false -> truthy_string trigger_type = false ->
        req_params request = []).
Proof.
  eexists. split; [|split; [|split; [|split]]].
  - apply issued_by_app. unfold listPipelineRuns, try_catch.
    unfold bind at 1. rewrite api_request_run.
    destruct (fst (respond SJson (service w) _)) as [data|m rm]; [|reflexivity].
    unfold bind at 1. rewrite read_values_run. destruct data; reflexivity.
  - reflexivity.
  - reflexivity.
  - unfold pipeline_params, when_truthy. cbn [req_params get_request_with].
    destruct limit as [n|]; cbn [truthy_number option_map]; [destruct (n =? 0)|];
      cbn [negb];
      destruct (truthy_string status), (truthy_string target_branch),
        (truthy_string trigger_type); reflexivity.
  - intros Hl Hs Hb Ht. cbn [req_params get_request_with].
    unfold pipeline_params, when_truthy. now rewrite Hl, Hs, Hb, Ht.
Qed.

Lemma list_pipeline_runs_query_witness :
  exists request,
    issued_by (@listPipelineRuns Samples.sdk Samples.healthy (Some "acme") (Some "api")
                 (Some 0) (Some ""%string) None None)
      (Samples.start Samples.healthy tt) = [request]
    /\ req_params request = [].
Proof.
  destruct (@list_pipeline_runs_query Samples.sdk Samples.healthy
              (Some "acme"%string) (Some "api"%string) (Some 0) (Some ""%string)
              None None (Samples.start Samples.healthy tt))
    as (request & Hissued & _ & _ & _ & Hnone).
  exists request. split; [exact Hissued|].
  apply Hnone; reflexivity.
Defined.

(** ** The constructor *)

(** X23: a server that is constructed can authenticate.  When [construct]
    succeeds the base URL is not empty, and the axios instance carries a
    bearer token in its [Authorization] header, or basic-auth credentials, or
    both; the header is there exactly when a non-empty token is configured,
    the credentials exactly when both the user name and the password are
    non-empty strings.  An unset [BITBUCKET_URL] is replaced by the public
    API, an empty one makes the constructor fail. *)
Theorem constructed_server_authenticates (env : Env) (config : Config)
    (defaults : AxiosDefaults) :
  construct env = inr (config, defaults) ->
  config = config_of_env env
  /\ baseURL defaults <> ""%string
  /\ (BITBUCKET_URL env = None ->
      baseURL defaults = "https://api.bitbucket.org/2.0"%string)
  /\ (In ("Authorization", "Bearer " ++ tpl (BITBUCKET_TOKEN env))%string
        (default_headers defaults)
      <-> truthy_string (BITBUCKET_TOKEN env) = true)
  /\ (auth defaults = Some (tpl (BITBUCKET_USERNAME env), tpl (BITBUCKET_PASSWORD env))
      <-> truthy_string (BITBUCKET_USERNAME env)
          && truthy_string (BITBUCKET_PASSWORD env) = true)
  /\ (truthy_string (BITBUCKET_TOKEN env) = true
      \/ truthy_string (BITBUCKET_USERNAME env)
         && truthy_string (BITBUCKET_PASSWORD env) = true).
Proof.
  unfold construct. cbv zeta.
  destruct (String.eqb (baseUrl (config_of_env env)) "") eqn:Hurl; [discriminate|].
  cbn [config_of_env token username password baseUrl] in *.
  destruct (truthy_string (BITBUCKET_TOKEN env)) eqn:Ht;
    destruct (truthy_string (BITBUCKET_USERNAME env)
              && truthy_string (BITBUCKET_PASSWORD env)) eqn:Hup;
    cbn [negb andb]; try discriminate;
    intros [= <- <-]; cbn [baseURL default_headers auth];
    (split; [reflexivity|]);
    (split; [now apply String.eqb_neq in Hurl|]);
    (split; [intros Hnone; now rewrite Hnone|]).
  - split; [split; [reflexivity | intros _; now left]|].
    split; [split; reflexivity | now left].
  - split; [split; [reflexivity | intros _; now left]|].
    split; [split; discriminate | now left].
  - split; [split; [intros [E | []]; discriminate | discriminate]|].
    split; [split; reflexivity | now right].
Qed.

Lemma constructed_server_authenticates_witness :
  construct (MoreSamples.env_of Samples.token_config)
  = inr (Samples.token_config,
         {| baseURL := "https://api.bitbucket.org/2.0";
            default_headers := [("Authorization", "Bearer secret")]%string;
            auth := None |})
  /\ truthy_string (BITBUCKET_TOKEN (MoreSamples.env_of Samples.token_config)) = true.
Proof.
  split; [reflexivity|].
  destruct (constructed_server_authenticates (MoreSamples.env_of Samples.token_config)
              _ _ eq_refl) as (_ & _ & _ & Htoken & _).
  apply Htoken. now left.
Defined.

(** What makes the constructor fail. *)
Example construct_failures :
  construct {| BITBUCKET_URL := Some ""; BITBUCKET_TOKEN := Some "secret";
               BITBUCKET_USERNAME := None; BITBUCKET_PASSWORD := None;
               BITBUCKET_WORKSPACE := None |}
  = inl "BITBUCKET_URL is required"%string
  /\ construct {| BITBUCKET_URL := None; BITBUCKET_TOKEN := None;
                  BITBUCKET_USERNAME := Some "alice"; BITBUCKET_PASSWORD := None;
                  BITBUCKET_WORKSPACE := None |}
     = inl "Either BITBUCKET_TOKEN or BITBUCKET_USERNAME/PASSWORD is required"%string.
Proof. split; reflexivity. Qed.
